(** * Paulsons sales dashboard: holiday-window engine, normalizer and
      growth comparator

    A shallow embedding of the data-processing code of the dashboard
    ([data_loader.py], the "Holidays Analysis" tabs of [app.py] and
    [dashboard_tabs.py], and the growth tables of [app.py]), followed by
    the display formats of [format_utils.py], the monthly table and the
    overview tab, the center table of the tab "Growth Analysis", the
    paginated fetch of [supabase_utils.py] with the date check at its
    end, [load_sales_data] as a whole with its [except], the
    preprocessing script [process_data.py], the detailed analysis of the
    holiday tab of [dashboard_tabs.py] up to the exception that ends it,
    and the float columns of the amounts.

    Conventions of the embedding.
    - A pandas [Timestamp] is an integer number of nanoseconds since the
      epoch (the int64 range of pandas is not modelled); [NaT] is [None].
    - A monetary cell is [option Q]: [None] is the float [NaN] that
      [pd.to_numeric(..., errors='coerce')] produces, [Some q] an exact
      amount.  Sums of columns are exact rational sums.  pandas adds
      floats, whose sum depends on the grouping of the additions: the
      properties below name a sum by the rows it is taken over and do
      not regroup it.
    - Where the rounding of an operation is the subject of a property
      (the growth tables, the projection, the totals of a day against
      those of its centers) the amounts are floats: the kernel's binary64
      floats, and the IEEE formats binary32 and binary64 of [SpecFloat]
      where the type of the column matters ([FloatColumn]).
    - A call that can raise gives an [option] or an [outcome]; the
      exception is [None] or [Raises].
    - A DataFrame is the list of its rows, in row order.

    The definitions come first, one module per component; the properties
    follow in the second half of the file. *)

From Stdlib Require Import ZArith QArith Qabs List String Ascii Bool Lia.
From Stdlib Require Import Permutation Sorted Orders Mergesort Morphisms.
From Stdlib Require Import Floats.
From Stdlib Require DecimalString.
From Stdlib Require OrderedTypeEx.
Import ListNotations.

#[local] Set Warnings "-inexact-float".
#[local] Open Scope Z_scope.

(* ================================================================== *)
(** * Calendar arithmetic behind [pd.Timestamp] *)
(* ================================================================== *)

Module Calendar.

(** Nanoseconds since 1970-01-01T00:00:00. *)
Definition Timestamp : Type := Z.

Definition NS_PER_DAY : Z := 86400 * 1000000000.

Definition is_leap (y : Z) : bool :=
  ((y mod 4 =? 0) && negb (y mod 100 =? 0)) || (y mod 400 =? 0).

Definition days_in_month (y m : Z) : Z :=
  match m with
  | 1 | 3 | 5 | 7 | 8 | 10 | 12 => 31
  | 4 | 6 | 9 | 11 => 30
  | 2 => if is_leap y then 29 else 28
  | _ => 0
  end.

(** The check that makes [pd.Timestamp(year=, month=, day=)] raise
    [ValueError]. *)
Definition valid_ymd (y m d : Z) : bool :=
  (1 <=? m) && (m <=? 12) && (1 <=? d) && (d <=? days_in_month y m).

(** Day number of a proleptic Gregorian date, 1970-01-01 being day 0. *)
Definition days_from_civil (y m d : Z) : Z :=
  let y' := if m <=? 2 then y - 1 else y in
  let era := y' / 400 in
  let yoe := y' - era * 400 in
  let mp := if 2 <? m then m - 3 else m + 9 in
  let doy := (153 * mp + 2) / 5 + d - 1 in
  let doe := yoe * 365 + yoe / 4 - yoe / 100 + doy in
  era * 146097 + doe - 719468.

(** The inverse direction: the civil (year, month, day) of a day number. *)
Definition civil_from_days (z : Z) : Z * Z * Z :=
  let z' := z + 719468 in
  let era := z' / 146097 in
  let doe := z' - era * 146097 in
  let yoe := (doe - doe / 1460 + doe / 36524 - doe / 146096) / 365 in
  let doy := doe - (365 * yoe + yoe / 4 - yoe / 100) in
  let mp := (5 * doy + 2) / 153 in
  let d := doy - (153 * mp + 2) / 5 + 1 in
  let m := if mp <? 10 then mp + 3 else mp - 9 in
  let y := yoe + era * 400 in
  ((if m <=? 2 then y + 1 else y), m, d).

(** [pd.Timestamp(year=y, month=m, day=d)]: midnight of that day, or an
    exception ([None]) when the date does not exist. *)
Definition Timestamp_ymd (y m d : Z) : option Timestamp :=
  if valid_ymd y m d then Some (days_from_civil y m d * NS_PER_DAY) else None.

(** [pd.Timedelta(days=k)]. *)
Definition Timedelta_days (k : Z) : Z := k * NS_PER_DAY.

(** [ts.date()], as a day number. *)
Definition ts_date (t : Timestamp) : Z := t / NS_PER_DAY.

(** [ts.year], [ts.month]. *)
Definition ts_year (t : Timestamp) : Z := fst (fst (civil_from_days (ts_date t))).
Definition ts_month (t : Timestamp) : Z := snd (fst (civil_from_days (ts_date t))).

End Calendar.

(* ================================================================== *)
(** * Columns, cells and the pandas primitives used by the dashboard *)
(* ================================================================== *)

Module Frame.

Import Calendar.

(** A cell of the table that [fetch_data_from_supabase] returns. *)
Inductive cell : Type :=
| Null
| Num (q : Q)
| Text (s : string).

(** The columns listed in [numeric_cols]. *)
Inductive numeric_col : Type :=
| sales_collected_exc_tax
| tax_collected
| sales_collected_inc_tax
| redeemed
| collected_to_date
| collected.

Definition numeric_cols : list numeric_col :=
  [sales_collected_exc_tax; tax_collected; sales_collected_inc_tax;
   redeemed; collected_to_date; collected].

(** One row as fetched. *)
Record RawRow : Type := mkRawRow {
  raw_sale_date : option string;
  raw_center_name : option string;
  raw_business_unit : option string;
  raw_invoice_no : option string;
  raw_amount : numeric_col -> cell
}.

(** One row after the column conversions and before [dropna]. *)
Record TypedRow : Type := mkTypedRow {
  t_sale_date : option Timestamp;
  t_center_name : option string;
  t_business_unit : option string;
  t_invoice_no : option string;
  t_amount : numeric_col -> option Q
}.

(** One row of [raw_data] as the tabs receive it. *)
Record SaleRecord : Type := mkSaleRecord {
  sale_date : option Timestamp;
  center_name : option string;
  business_unit : option string;
  invoice_no : option string;
  amount : numeric_col -> option Q;
  Year : string;
  Month : string;
  SALON_NAMES : option string;
  BRAND : string
}.

(** [Series.sum()]: NaN cells are skipped, the empty sum is 0.  The
    amounts are added exactly; [FloatColumn.sum] adds floats. *)
Fixpoint series_sum (s : list (option Q)) : Q :=
  match s with
  | [] => 0
  | Some q :: s' => q + series_sum s'
  | None :: s' => series_sum s'
  end.

(** What a cell adds to a sum: a NaN adds nothing. *)
Definition cell_value (c : option Q) : Q :=
  match c with Some q => q | None => 0 end.

(** The sum of a list of amounts. *)
Definition Qsum (l : list Q) : Q := fold_right Qplus 0%Q l.

(** [df[col].sum()]. *)
Definition column_sum (col : numeric_col) (df : list SaleRecord) : Q :=
  series_sum (map (fun r => amount r col) df).

(** [Series.unique()]: distinct values in order of first appearance. *)
Fixpoint unique {A : Type} (eqb : A -> A -> bool) (s : list A) : list A :=
  match s with
  | [] => []
  | x :: s' => x :: filter (fun y => negb (eqb x y)) (unique eqb s')
  end.

(** Identity of cell values as [unique] sees it (all nulls are one value). *)
Definition label_same (a b : option string) : bool :=
  match a, b with
  | Some x, Some y => String.eqb x y
  | None, None => true
  | _, _ => false
  end.

(** The element-wise [Series == value]: a null never compares equal. *)
Definition label_eq (cellv value : option string) : bool :=
  match cellv, value with
  | Some x, Some y => String.eqb x y
  | _, _ => false
  end.

(** [Series.notna()] on a label. *)
Definition notna_label (c : option string) : bool :=
  match c with Some _ => true | None => false end.

(** Element-wise comparisons of a datetime column with a Timestamp;
    [NaT] compares false. *)
Definition ts_geb (c : option Timestamp) (t : Timestamp) : bool :=
  match c with Some x => t <=? x | None => false end.

Definition ts_leb (c : option Timestamp) (t : Timestamp) : bool :=
  match c with Some x => x <=? t | None => false end.

(** [df['sale_date'].dt.date == t.date()]. *)
Definition date_is (c : option Timestamp) (t : Timestamp) : bool :=
  match c with Some x => ts_date x =? ts_date t | None => false end.

(** [q > 0]. *)
Definition Qpositive (q : Q) : bool := negb (Qle_bool q 0).

Definition month_names : list string :=
  ["January"; "February"; "March"; "April"; "May"; "June"; "July";
   "August"; "September"; "October"; "November"; "December"]%string.

(** [strftime('%B')]. *)
Definition month_name (m : Z) : string :=
  nth (Z.to_nat (m - 1)) month_names ""%string.

(** [str(n)] for an integer. *)
Definition str_of_Z (n : Z) : string :=
  DecimalString.NilZero.string_of_int (Z.to_int n).

End Frame.

(* ================================================================== *)
(** * The Normalizer: [load_sales_data] of data_loader.py *)
(* ================================================================== *)

Module Normalizer.

Import Calendar Frame.
#[local] Open Scope string_scope.

(** [Series.replace({pat: ''}, regex=True)] on one string, for a literal
    pattern: every non-overlapping occurrence, leftmost first, is removed.
    [skip] counts the characters of the current occurrence still to drop. *)
Fixpoint remove_all_from (pat : string) (skip : nat) (s : string) : string :=
  match s with
  | EmptyString => EmptyString
  | String c rest =>
      match skip with
      | S k => remove_all_from pat k rest
      | O =>
          if String.prefix pat s
          then remove_all_from pat (String.length pat - 1) rest
          else String c (remove_all_from pat 0 rest)
      end
  end.

Definition remove_all (pat s : string) : string := remove_all_from pat 0 s.

(** The dictionary [{'\$': '', 'â‚¹': '', ',': ''}] applied to a cell:
    only strings are touched. *)
Definition strip_currency (c : cell) : cell :=
  match c with
  | Text s => Text (remove_all "," (remove_all "â‚¹" (remove_all "$" s)))
  | _ => c
  end.

Definition notna {A : Type} (c : option A) : bool :=
  match c with Some _ => true | None => false end.

(** [Series.fillna('Other')]. *)
Definition fillna_Other (c : option string) : string :=
  match c with Some s => s | None => "Other" end.

Section Loader.

(** The two pandas parsers, on text: [pd.to_numeric] and [pd.to_datetime],
    both with [errors='coerce'] (a failure is [None], never an exception).
    [datetime_of_text] reads the cells of the column at hand: pandas
    takes the layout of the dates from the column, and
    [DataLoader.load_sales_data] passes the reader of the column
    [sale_date] of the fetched table. *)
Variable numeric_of_text : string -> option Q.
Variable datetime_of_text : string -> option Timestamp.

(** [pd.to_numeric(cell, errors='coerce')]. *)
Definition to_numeric (c : cell) : option Q :=
  match c with
  | Null => None
  | Num q => Some q
  | Text s => numeric_of_text s
  end.

(** [pd.to_datetime(cell, errors='coerce')]. *)
Definition to_datetime (c : option string) : option Timestamp :=
  match c with
  | None => None
  | Some s => datetime_of_text s
  end.

(** The loop over [numeric_cols] and the conversion of [sale_date]. *)
Definition convert_columns (r : RawRow) : TypedRow :=
  {| t_sale_date := to_datetime (raw_sale_date r);
     t_center_name := raw_center_name r;
     t_business_unit := raw_business_unit r;
     t_invoice_no := raw_invoice_no r;
     t_amount := fun col => to_numeric (strip_currency (raw_amount r col)) |}.

(** [sales_data.dropna(subset=['sale_date'])]. *)
Definition dropna_sale_date (df : list TypedRow) : list TypedRow :=
  filter (fun r => notna (t_sale_date r)) df.

(** The derived columns [Year], [Month], [SALON NAMES], [BRAND]. *)
Definition derive_columns (r : TypedRow) : SaleRecord :=
  {| sale_date := t_sale_date r;
     center_name := t_center_name r;
     business_unit := t_business_unit r;
     invoice_no := t_invoice_no r;
     amount := t_amount r;
     Year := match t_sale_date r with
             | Some t => str_of_Z (ts_year t)
             | None => "nan"
             end;
     Month := match t_sale_date r with
              | Some t => month_name (ts_month t)
              | None => "nan"
              end;
     SALON_NAMES := t_center_name r;
     BRAND := fillna_Other (t_business_unit r) |}.

(** Lines 22 to 49 of [load_sales_data]: the table that becomes the
    entry ["raw_data"] of the result when no call raises.  The function
    as a whole, with the fetch before these lines and the [except] around
    them, is [DataLoader.load_sales_data]. *)
Definition load_sales_data (fetched : list RawRow) : list SaleRecord :=
  map derive_columns (dropna_sale_date (map convert_columns fetched)).

End Loader.

(** The rows of the input that survive [dropna]. *)
Definition retained (datetime_of_text : string -> option Timestamp)
           (fetched : list RawRow) : list RawRow :=
  filter (fun r => notna (to_datetime datetime_of_text (raw_sale_date r))) fetched.

(** ** Plain-format parsers, to run the loader on examples

    pandas accepts many more spellings; these two read unsigned or negated
    decimal numerals and [YYYY-MM-DD] dates. *)

Definition digit_of (c : ascii) : option Z :=
  let n := Z.of_nat (nat_of_ascii c) in
  if Z.leb 48 n && Z.leb n 57 then Some (n - 48)%Z else None.

Fixpoint decimal_from (s : string) (acc : Z) (scale : positive)
         (frac seen : bool) : option Q :=
  match s with
  | EmptyString => if seen then Some (acc # scale) else None
  | String c rest =>
      match digit_of c with
      | Some d =>
          decimal_from rest (10 * acc + d)%Z
                       (if frac then (10 * scale)%positive else scale) frac true
      | None =>
          if Ascii.eqb c "." && negb frac
          then decimal_from rest acc scale true seen
          else None
      end
  end.

Definition plain_decimal (s : string) : option Q :=
  match s with
  | String "-" rest => option_map Qopp (decimal_from rest 0 1 false false)
  | _ => decimal_from s 0 1 false false
  end.

Fixpoint digits_from (s : string) (acc : Z) : option Z :=
  match s with
  | EmptyString => Some acc
  | String c rest =>
      match digit_of c with
      | Some d => digits_from rest (10 * acc + d)%Z
      | None => None
      end
  end.

Definition iso_date (s : string) : option Timestamp :=
  match String.get 4 s, String.get 7 s with
  | Some "-"%char, Some "-"%char =>
      if (String.length s =? 10)%nat then
        match digits_from (substring 0 4 s) 0,
              digits_from (substring 5 2 s) 0,
              digits_from (substring 8 2 s) 0 with
        | Some y, Some m, Some d => Timestamp_ymd y m d
        | _, _, _ => None
        end
      else None
  | _, _ => None
  end.

End Normalizer.

(* ================================================================== *)
(** * The Holiday Window Engine: the "Holidays Analysis" tabs *)
(* ================================================================== *)

Module HolidayEngine.

Import Calendar Frame.
#[local] Open Scope string_scope.

(** A row of the leaves table after the [month] and [day] columns are
    extracted from its [Date]: the recurring holiday definition. *)
Record LeaveRow : Type := mkLeaveRow {
  leave_Months : string;
  leave_Festivals : string;
  leave_month : Z;
  leave_day : Z
}.

(** A dictionary appended to [all_years_data] (app.py) or
    [all_holiday_data] (dashboard_tabs.py).  [h_Center] is the
    [CenterName] / [Center] key; the rows for all centers do not have it,
    which the DataFrame shows as a null. *)
Record HolidayRow : Type := mkHolidayRow {
  h_Months : string;
  h_Date : Timestamp;
  h_Festivals : string;
  h_MTD_Sale : Q;
  h_Year : Z;
  h_Center : option string
}.

(** A dictionary appended to [festival_performance]. *)
Record PerfRow : Type := mkPerfRow {
  p_Festival : string;
  p_Year : Z;
  p_Date : Timestamp;
  p_Center : option string;
  Total_Window_Sales : Q;
  Average_Daily_Sales : Q
}.

(** Python's [sorted] on integers. *)
Module ZOrder <: Orders.TotalLeBool.
Definition t : Type := Z.
Definition leb : t -> t -> bool := Z.leb.
Lemma leb_total (a b : t) : leb a b = true \/ leb b a = true.
Proof. unfold leb. rewrite !Z.leb_le. lia. Qed.
End ZOrder.

Module ZSort := Mergesort.Sort ZOrder.

Definition sorted (s : list Z) : list Z := ZSort.sort s.

(** [raw_sales_data['sale_date'].dt.year]. *)
Definition dt_year (raw : list SaleRecord) : list Z :=
  flat_map (fun r => match sale_date r with
                     | Some t => [ts_year t]
                     | None => []
                     end) raw.

(** [sorted(raw_sales_data['sale_date'].dt.year.unique())]. *)
Definition available_years (raw : list SaleRecord) : list Z :=
  sorted (unique Z.eqb (dt_year raw)).

(** [raw_sales_data[raw_sales_data['sale_date'].dt.date == festival_date.date()]]. *)
Definition date_sales_of (raw : list SaleRecord) (festival_date : Timestamp)
  : list SaleRecord :=
  filter (fun r => date_is (sale_date r) festival_date) raw.

(** [date_sales[date_sales['center_name'] == center][col].sum()]. *)
Definition center_sales_of (col : numeric_col) (date_sales : list SaleRecord)
           (center : option string) : Q :=
  column_sum col (filter (fun r => label_eq (center_name r) center) date_sales).

(** The body of the loop [for year in available_years]: what one holiday
    and one year add to the list.  [col] is the amount column that is
    summed ([sales_collected_inc_tax] in app.py, [sales_collected_exc_tax]
    in dashboard_tabs.py). *)
Definition festival_year_rows (col : numeric_col) (raw : list SaleRecord)
           (festival : LeaveRow) (year : Z) : list HolidayRow :=
  match Timestamp_ymd year (leave_month festival) (leave_day festival) with
  | None => []                            (* except: continue *)
  | Some festival_date =>
      let date_sales := date_sales_of raw festival_date in
      match date_sales with
      | [] => []                          (* if not date_sales.empty *)
      | _ :: _ =>
          {| h_Months := leave_Months festival;
             h_Date := festival_date;
             h_Festivals := leave_Festivals festival;
             h_MTD_Sale := column_sum col date_sales;
             h_Year := year;
             h_Center := None |}
          :: map (fun center =>
                    {| h_Months := leave_Months festival;
                       h_Date := festival_date;
                       h_Festivals := leave_Festivals festival;
                       h_MTD_Sale := center_sales_of col date_sales center;
                       h_Year := year;
                       h_Center := center |})
                 (unique label_same (map center_name date_sales))
      end
  end.

(** The inner loop for one holiday definition over the observed years. *)
Definition instantiate (col : numeric_col) (raw : list SaleRecord)
           (festival : LeaveRow) (years : list Z) : list HolidayRow :=
  flat_map (festival_year_rows col raw festival) years.

(** app.py, tab5: [all_years_data]. *)
Definition all_years_data (raw : list SaleRecord) (leaves_data : list LeaveRow)
  : list HolidayRow :=
  flat_map (fun festival =>
              instantiate sales_collected_inc_tax raw festival (available_years raw))
           leaves_data.

(** dashboard_tabs.py, [render_holidays_analysis_tab]: [all_holiday_data]. *)
Definition all_holiday_data (raw : list SaleRecord) (source_data : list LeaveRow)
  : list HolidayRow :=
  flat_map (fun holiday =>
              instantiate sales_collected_exc_tax raw holiday (available_years raw))
           source_data.

(** The fallback table of dashboard_tabs.py when there is no leaves file. *)
Definition basic_holidays : list LeaveRow :=
  [ mkLeaveRow "" "New Year" 1 1;
    mkLeaveRow "" "Pongal/Makar Sankranti" 1 14;
    mkLeaveRow "" "Republic Day" 1 26;
    mkLeaveRow "" "Independence Day" 8 15;
    mkLeaveRow "" "Gandhi Jayanti" 10 2;
    mkLeaveRow "" "Diwali" 10 24;
    mkLeaveRow "" "Christmas" 12 25 ].

(** dashboard_tabs.py: [temp_data], the holiday table that is built from
    [basic_holidays] when there is no leaves file (its [Date] and
    [Festivals] columns). *)
Definition temp_data (available_years : list Z) : list (Timestamp * string) :=
  flat_map (fun holiday =>
              flat_map (fun year =>
                          match Timestamp_ymd year (leave_month holiday)
                                              (leave_day holiday) with
                          | Some date => [(date, leave_Festivals holiday)]
                          | None => []              (* except: pass *)
                          end)
                       available_years)
           basic_holidays.

(** ** The trading window *)

(** [start_date = festival_date - pd.Timedelta(days=3)] and
    [end_date = festival_date + pd.Timedelta(days=2)]. *)
Definition window_for (festival_date : Timestamp) : Timestamp * Timestamp :=
  (festival_date - Timedelta_days 3, festival_date + Timedelta_days 2).

(** [(df['sale_date'] >= start_date) & (df['sale_date'] <= end_date)]. *)
Definition in_window (w : Timestamp * Timestamp) (r : SaleRecord) : bool :=
  ts_geb (sale_date r) (fst w) && ts_leb (sale_date r) (snd w).

Definition All_Centers : string := "All Centers".

(** app.py: [window_data], for the selected center or for all of them. *)
Definition window_data (raw : list SaleRecord) (selected_center : string)
           (festival_date : Timestamp) : list SaleRecord :=
  let w := window_for festival_date in
  if negb (String.eqb selected_center All_Centers)
  then filter (fun r => label_eq (center_name r) (Some selected_center)
                        && in_window w r) raw
  else filter (in_window w) raw.

(** app.py: the dictionary built from [window_sales]. *)
Definition window_aggregate (raw : list SaleRecord) (selected_center festival : string)
           (festival_date : Timestamp) : PerfRow :=
  let window_sales :=
    column_sum sales_collected_inc_tax
               (window_data raw selected_center festival_date) in
  {| p_Festival := festival;
     p_Year := ts_year festival_date;
     p_Date := festival_date;
     p_Center := Some (if negb (String.eqb selected_center All_Centers)
                       then selected_center else All_Centers);
     Total_Window_Sales := window_sales;
     Average_Daily_Sales := window_sales / 6 |}.

(** [if window_sales > 0: festival_performance.append(...)]. *)
Definition reportable (a : PerfRow) : bool := Qpositive (Total_Window_Sales a).

Definition append_if_sales (a : PerfRow) : list PerfRow :=
  if reportable a then [a] else [].

(** [leaves_data[(leaves_data['Festivals'] == festival) &
     (leaves_data['Year'].isin(selected_years))]['Date']]. *)
Definition festival_dates (leaves_data : list HolidayRow) (festival : string)
           (selected_years : list Z) : list Timestamp :=
  map h_Date
      (filter (fun h => String.eqb (h_Festivals h) festival
                        && existsb (Z.eqb (h_Year h)) selected_years)
              leaves_data).

(** app.py: the list [festival_performance], which the tab builds when
    the selected festival has sales in one of its windows. *)
Definition festival_performance (raw : list SaleRecord)
           (leaves_data : list HolidayRow) (selected_years : list Z)
           (selected_center : string) : list PerfRow :=
  flat_map (fun festival =>
              flat_map (fun festival_date =>
                          append_if_sales
                            (window_aggregate raw selected_center festival
                                              festival_date))
                       (festival_dates leaves_data festival selected_years))
           (unique String.eqb (map h_Festivals leaves_data)).

(** ** The same table in dashboard_tabs.py

    Lines 556 to 615 as they are written.  The tab does not get as far:
    the annotation of the chart before them raises, see [ModularTab]. *)

(** [center_filtered_sales]. *)
Definition center_filtered_sales (raw : list SaleRecord) (selected_center : string)
  : list SaleRecord :=
  if negb (String.eqb selected_center All_Centers)
  then filter (fun r => label_eq (center_name r) (Some selected_center)) raw
  else raw.

(** [center_sales] when one center is selected. *)
Definition center_window (raw : list SaleRecord) (selected_center : string)
           (festival_date : Timestamp) : list SaleRecord :=
  filter (in_window (window_for festival_date))
         (center_filtered_sales raw selected_center).

(** [center_sales] inside [for center in raw_sales_data['center_name'].unique()]. *)
Definition each_center_window (raw : list SaleRecord) (center : option string)
           (festival_date : Timestamp) : list SaleRecord :=
  let w := window_for festival_date in
  filter (fun r => label_eq (center_name r) center && in_window w r) raw.

Definition center_aggregate (sales : list SaleRecord) (festival : string)
           (festival_date : Timestamp) (center : option string) : PerfRow :=
  let window_sales := column_sum sales_collected_exc_tax sales in
  {| p_Festival := festival;
     p_Year := ts_year festival_date;
     p_Date := festival_date;
     p_Center := center;
     Total_Window_Sales := window_sales;
     Average_Daily_Sales := window_sales / 6 |}.

(** The aggregates of one occurrence: one for the selected center, or one
    per center of the data. *)
Definition window_aggregates_tabs (raw : list SaleRecord) (selected_center festival : string)
           (festival_date : Timestamp) : list PerfRow :=
  if negb (String.eqb selected_center All_Centers)
  then [center_aggregate (center_window raw selected_center festival_date)
                         festival festival_date (Some selected_center)]
  else map (fun center =>
              center_aggregate (each_center_window raw center festival_date)
                               festival festival_date center)
           (unique label_same (map center_name raw)).

(** dashboard_tabs.py: the list [festival_performance].  [selected_years]
    holds the years themselves; the tab compares their decimal strings. *)
Definition festival_performance_tabs (raw : list SaleRecord)
           (holiday_df : list HolidayRow) (selected_years : list Z)
           (selected_center : string) : list PerfRow :=
  flat_map (fun festival =>
              flat_map (fun festival_date =>
                          if existsb (Z.eqb (ts_year festival_date)) selected_years
                          then flat_map append_if_sales
                                 (window_aggregates_tabs raw selected_center
                                                         festival festival_date)
                          else [])
                       (map h_Date
                            (filter (fun h => String.eqb (h_Festivals h) festival)
                                    holiday_df)))
           (unique String.eqb (map h_Festivals holiday_df)).

(** ** Ranking *)

(** [performance_df.sort_values('Total Window Sales', ascending=False)]:
    pandas is asked for a descending sort with its default [kind]; what
    the call promises is a reordering of the rows in which the totals do
    not increase. *)
Class SortValues : Type := {
  sort_values : list PerfRow -> list PerfRow;
  sort_values_permutes : forall df, Permutation df (sort_values df);
  sort_values_descends :
    forall df, StronglySorted
                 (fun a b => (Total_Window_Sales b <= Total_Window_Sales a)%Q)
                 (sort_values df)
}.

(** The gate on [window_sales > 0] followed by the sort: what the tabs do
    to the aggregates of the windows. *)
Definition rankWindows `{SortValues} (aggregates : list PerfRow) : list PerfRow :=
  sort_values (filter reportable aggregates).

(** app.py: [performance_df]. *)
Definition performance_df `{SortValues} (raw : list SaleRecord)
           (leaves_data : list HolidayRow) (selected_years : list Z)
           (selected_center : string) : list PerfRow :=
  sort_values (festival_performance raw leaves_data selected_years selected_center).

(** dashboard_tabs.py: [performance_df]. *)
Definition performance_df_tabs `{SortValues} (raw : list SaleRecord)
           (holiday_df : list HolidayRow) (selected_years : list Z)
           (selected_center : string) : list PerfRow :=
  sort_values (festival_performance_tabs raw holiday_df selected_years selected_center).

(** The aggregates of all the windows that [festival_performance] visits,
    before the gate on [window_sales > 0]. *)
Definition window_aggregates (raw : list SaleRecord)
           (leaves_data : list HolidayRow) (selected_years : list Z)
           (selected_center : string) : list PerfRow :=
  flat_map (fun festival =>
              map (window_aggregate raw selected_center festival)
                  (festival_dates leaves_data festival selected_years))
           (unique String.eqb (map h_Festivals leaves_data)).

(** ** Two sorts that meet [SortValues]

    Both are insertion sorts by descending total.  [before ties_kept b a]
    tells whether a row [b] already placed stays in front of the row [a]
    being inserted; rows are inserted from the last to the first, so
    keeping the input order of ties means that [a] passes only rows with
    a strictly larger total. *)
Definition before (ties_kept : bool) (b a : PerfRow) : bool :=
  if ties_kept
  then negb (Qle_bool (Total_Window_Sales b) (Total_Window_Sales a))
  else Qle_bool (Total_Window_Sales a) (Total_Window_Sales b).

Fixpoint insert_desc (ties_kept : bool) (a : PerfRow) (l : list PerfRow)
  : list PerfRow :=
  match l with
  | [] => [a]
  | b :: l' =>
      if before ties_kept b a
      then b :: insert_desc ties_kept a l'
      else a :: l
  end.

Definition insertion_sort_desc (ties_kept : bool) (df : list PerfRow)
  : list PerfRow :=
  fold_right (insert_desc ties_kept) [] df.

(** [rankWindows] as the specification words it: the aggregates whose
    total equals 0 are excluded, the others are sorted by descending total
    with a stable sort. *)
Definition rankWindows_as_specified (aggregates : list PerfRow) : list PerfRow :=
  insertion_sort_desc true
    (filter (fun a => negb (Qeq_bool (Total_Window_Sales a) 0)) aggregates).

End HolidayEngine.

(* ================================================================== *)
(** * The Growth Comparator: the growth tables of app.py *)
(* ================================================================== *)

Module GrowthComparator.

#[local] Open Scope float_scope.

(** One cell of a growth column:
    [((pivot_data[current_year] / pivot_data[prev_year]) - 1) * 100],
    element-wise on float64 (binary64) values, the dtype of the cells of a
    pivot table.  The same expression computes [growth_pct] of the
    T NAGAR table and the growth columns of dashboard_tabs.py; the
    center table of tab4 rounds it to two decimals afterwards. *)
Definition yoy_growth (current prev : float) : float :=
  ((current / prev) - 1) * 100.

(** The growth columns of one row of the pivot table, whose cells are the
    values of the years in ascending order:
    [for i in range(1, len(years))], with [years[i-1]] and [years[i]]. *)
Fixpoint yoyGrowth (row : list float) : list float :=
  match row with
  | prev :: ((current :: _) as rest) => yoy_growth current prev :: yoyGrowth rest
  | _ => []
  end.

(** [numpy.rint] on binary64: round to the nearest integer, ties to even.
    Below 2^52 in magnitude, adding and subtracting 2^52 rounds the
    magnitude to an integer; from 2^52 on every value is an integer. *)
Definition rint (x : float) : float :=
  if abs x <? 0x1p52
  then let r := (abs x + 0x1p52) - 0x1p52 in
       if get_sign x then - r else r
  else x.

(** [Series.round(2)], which numpy computes as [rint(x * 100) / 100]. *)
Definition round_2 (x : float) : float := rint (x * 100) / 100.

(** One cell of a growth column of the center table of tab4:
    [((center_pivot[curr_year] / center_pivot[prev_year] - 1) * 100).round(2)]. *)
Definition center_growth (current prev : float) : float :=
  round_2 (yoy_growth current prev).

(** [pivot_data[latest_year] * 1.10], on a float64 column;
    [FloatColumn.project] is the product for either float type. *)
Definition project (latestValue : float) : float := latestValue * 1.10.

(** The classes of binary64 values that are not finite numbers. *)
Definition is_inf_or_nan (x : float) : bool :=
  match Prim2SF x with
  | S754_infinity _ | S754_nan => true
  | _ => false
  end.

Definition is_zero_value (x : float) : bool :=
  match Prim2SF x with
  | S754_zero _ => true
  | _ => false
  end.

End GrowthComparator.

(* ================================================================== *)
(** * Sample data *)
(* ================================================================== *)

(** Small tables on which the definitions above are run in the second
    half of the file.  The sales go through [load_sales_data], with the
    plain-format parsers. *)

Module Samples.

Import Calendar Frame Normalizer HolidayEngine.
#[local] Open Scope string_scope.

(** A fetched row with a date, a center and its two sales amounts. *)
Definition fetched_row (date : string) (center : option string)
           (exc inc : cell) : RawRow :=
  {| raw_sale_date := Some date;
     raw_center_name := center;
     raw_business_unit := None;
     raw_invoice_no := None;
     raw_amount := fun col =>
                     match col with
                     | sales_collected_exc_tax => exc
                     | sales_collected_inc_tax => inc
                     | _ => Null
                     end |}.

Definition load (fetched : list RawRow) : list SaleRecord :=
  load_sales_data plain_decimal iso_date fetched.

(** Midnight of 24 October 2023. *)
Definition diwali_2023_ts : Timestamp := 1698105600000000000.

Definition new_year : LeaveRow := mkLeaveRow "January" "New Year" 1 1.
Definition leap_day : LeaveRow := mkLeaveRow "February" "Leap Day" 2 29.
Definition diwali : LeaveRow := mkLeaveRow "October" "Diwali" 10 24.

(** One sale, on 15 June 2023. *)
Definition june_sales : list SaleRecord :=
  load [fetched_row "2023-06-15" (Some "T NAGAR") (Num 100) (Num 118)].

(** Sales on 29 February 2024 and on 15 June 2023. *)
Definition leap_day_sales : list SaleRecord :=
  load [fetched_row "2024-02-29" (Some "ADYAR") (Num 10) (Num 12);
        fetched_row "2023-06-15" (Some "ADYAR") (Num 10) (Num 12)].

(** Three sales on Diwali 2023: 100, 200 and 0. *)
Definition diwali_sales : list SaleRecord :=
  load [fetched_row "2023-10-24" (Some "T NAGAR") (Num 100) (Num 100);
        fetched_row "2023-10-24" (Some "T NAGAR") (Num 200) (Num 200);
        fetched_row "2023-10-24" (Some "T NAGAR") (Num 0) (Num 0)].

(** Sales of one day by two centers and by a record without center. *)
Definition diwali_with_null_center : list SaleRecord :=
  load [fetched_row "2023-10-24" (Some "T NAGAR") (Num 100) (Num 100);
        fetched_row "2023-10-24" None (Num 50) (Num 50);
        fetched_row "2023-10-24" (Some "ADYAR") (Num 30) (Num 30)].

Definition no_row : HolidayRow := mkHolidayRow "" 0%Z "" 0%Q 0%Z None.

(** A window with one sale of 100, and a window with one refund of 5. *)
Definition trading : list SaleRecord :=
  load [fetched_row "2023-10-24" (Some "T NAGAR") (Num 100) (Num 100)].

Definition refund_only : list SaleRecord :=
  load [fetched_row "2023-10-24" (Some "T NAGAR") (Text "-5") (Text "-5")].

Definition trading_aggregate : PerfRow :=
  window_aggregate trading "All Centers" "Diwali" diwali_2023_ts.

Definition refund_aggregate : PerfRow :=
  window_aggregate refund_only "All Centers" "Diwali" diwali_2023_ts.

End Samples.

(* ================================================================== *)
(** * Display formats: format_utils.py and its copy in app.py *)
(* ================================================================== *)

Module Formatting.

Import Frame GrowthComparator.

(** The integer nearest to [m * 2^e], the even one of the two on a tie:
    how Python rounds the exact value of a float, in [round] and in the
    fixed-point format [.2f]. *)
Definition round_half_even_scaled (m e : Z) : Z :=
  if 0 <=? e then m * 2 ^ e
  else
    let den := 2 ^ (- e) in
    let q := m / den in
    let r := m mod den in
    if 2 * r <? den then q
    else if den <? 2 * r then q + 1
    else if Z.even q then q else q + 1.

(** [int(round(num))] on a float; an infinity and a NaN raise, which is
    [None]. *)
Definition int_round (num : float) : option Z :=
  match Prim2SF num with
  | S754_zero _ => Some 0
  | S754_finite s m e =>
      let n := round_half_even_scaled (Z.pos m) e in
      Some (if s then - n else n)
  | S754_infinity _ | S754_nan => None
  end.

(** [range(n - 1, -1, -2)]. *)
Fixpoint range_down_by_2 (n : nat) : list nat :=
  match n with
  | O => []
  | S O => [O]
  | S (S n' as m) => m :: range_down_by_2 n'
  end.

Definition comma : ascii := ","%char.

(** The body of the loop of [format_with_indian_commas]: the new value of
    [formatted_rest] for the index [i]. *)
Definition loop_body (rest formatted_rest : list ascii) (i : nat) : list ascii :=
  if (i =? 0)%nat then firstn 1 (skipn i rest) ++ formatted_rest
  else comma :: firstn 2 (skipn (Nat.max (i - 1) 0) rest) ++ formatted_rest.

(** What the loop puts in front of [formatted_rest] for the index [i]. *)
Definition piece (rest : list ascii) (i : nat) : list ascii :=
  if (i =? 0)%nat then firstn 1 (skipn i rest)
  else comma :: firstn 2 (skipn (Nat.max (i - 1) 0) rest).

(** [formatted_rest] when the loop is over. *)
Definition formatted_rest_of (rest : list ascii) : list ascii :=
  fold_left (loop_body rest) (range_down_by_2 (List.length rest)) [].

(** [format_with_indian_commas] from the decimal string [s] on. *)
Definition indian_commas (s : list ascii) : list ascii :=
  if (3 <? List.length s)%nat then
    let last3 := skipn (List.length s - 3) s in
    let rest := firstn (List.length s - 3) s in
    let formatted_rest := formatted_rest_of rest in
    let result :=
      match formatted_rest with
      | [] => last3
      | _ => formatted_rest ++ comma :: last3
      end in
    match result with
    | c :: result' => if Ascii.eqb c comma then result' else result
    | [] => result
    end
  else s.

(** The helper [format_with_indian_commas]. *)
Definition format_with_indian_commas (num : float) : option (list ascii) :=
  option_map (fun n => indian_commas (list_ascii_of_string (str_of_Z n)))
             (int_round num).

(** Two decimal digits. *)
Definition pad2 (n : Z) : string :=
  if n <? 10 then String "0" (str_of_Z n) else str_of_Z n.

(** [f"{x:.2f}"]: the exact value rounded to hundredths, ties to even. *)
Definition format_2f (x : float) : string :=
  match Prim2SF x with
  | S754_nan => "nan"
  | S754_infinity s => if s then "-inf" else "inf"
  | S754_zero s => if s then "-0.00" else "0.00"
  | S754_finite s m e =>
      let n := round_half_even_scaled (Z.pos m * 100) e in
      String.append (if s then "-" else "")
        (String.append (str_of_Z (n / 100))
           (String "." (pad2 (n mod 100))))
  end%string.

(** [format_indian_money(amount, format_type)]; [lakhs] is
    [format_type == 'lakhs'].  [None] is the exception of [int(round())]. *)
Definition format_indian_money (amount : float) (lakhs : bool) : option string :=
  if PrimFloat.is_nan amount || PrimFloat.eqb amount 0 then Some "₹0"%string
  else if lakhs then
    Some (String.append "₹"
            (String.append (format_2f (amount / 100000)) " Lakhs"))%string
  else
    option_map (fun t => String.append "₹" (string_of_list_ascii t))
               (format_with_indian_commas amount).

(** [format_percentage(value, include_sign)]. *)
Definition format_percentage (value : float) (include_sign : bool) : string :=
  if PrimFloat.is_nan value then "0%"%string
  else
    let formatted := format_2f value in
    if include_sign then String.append formatted "%" else formatted.

(** The cell of a growth column as displayed: [lambda x: f"{x:.2f}%"]
    applied to the growth. *)
Definition growth_cell (current prev : float) : string :=
  String.append (format_2f (yoy_growth current prev)) "%".

(** The cell of the column "Projected (10% Growth)" as displayed. *)
Definition projected_cell (latestValue : float) : option string :=
  format_indian_money (project latestValue) false.

(** The characters of a formatted amount other than its commas. *)
Definition remove_commas (s : list ascii) : list ascii :=
  filter (fun c => negb (Ascii.eqb c comma)) s.

End Formatting.

(* ================================================================== *)
(** * [DataFrame.groupby] *)
(* ================================================================== *)

Module GroupBy.

Import Frame.

(** Python compares tuples lexicographically: the first component that
    differs decides. *)
Definition lex (c1 c2 : comparison) : comparison :=
  match c1 with
  | Eq => c2
  | _ => c1
  end.

Definition compare_pair {A B : Type} (compare_A : A -> A -> comparison)
           (compare_B : B -> B -> comparison) (x y : A * B) : comparison :=
  lex (compare_A (fst x) (fst y)) (compare_B (snd x) (snd y)).

(** What the sorting of the group keys relies on. *)
Record total_order {K : Type} (compare : K -> K -> comparison) : Prop := {
  compare_eq : forall a b, compare a b = Eq <-> a = b;
  compare_antisym : forall a b, compare a b = CompOpp (compare b a);
  compare_trans : forall a b c, compare a b = Lt -> compare b c = Lt ->
                                compare a c = Lt
}.

Section GroupBy.

Context {Row Key : Type}.

(** The order of the keys ([str] is ordered by code point, a tuple of
    keys lexicographically). *)
Variable compare : Key -> Key -> comparison.

(** The key of a row; a row with a null in a key column has none and is
    left out of every group ([dropna=True], the default). *)
Variable key_of : Row -> option Key.

Definition key_eqb (a b : Key) : bool :=
  match compare a b with Eq => true | _ => false end.

Definition key_leb (a b : Key) : bool :=
  match compare a b with Gt => false | _ => true end.

Definition keys (df : list Row) : list Key :=
  flat_map (fun r => match key_of r with Some k => [k] | None => [] end) df.

Fixpoint insert_key (k : Key) (l : list Key) : list Key :=
  match l with
  | [] => [k]
  | x :: l' => if key_leb k x then k :: l else x :: insert_key k l'
  end.

Definition sort_keys (l : list Key) : list Key := fold_right insert_key [] l.

(** The keys of the groups: the distinct keys, ascending ([sort=True],
    the default). *)
Definition group_keys (df : list Row) : list Key :=
  sort_keys (unique key_eqb (keys df)).

(** Whether a row has a key. *)
Definition notna_key (k : option Key) : bool :=
  match k with Some _ => true | None => false end.

Definition in_group (k : Key) (r : Row) : bool :=
  match key_of r with
  | Some k' => key_eqb k' k
  | None => false
  end.

(** The rows of one group, in the order of the table. *)
Definition group (df : list Row) (k : Key) : list Row :=
  filter (in_group k) df.

(** [df.groupby(keys).agg(...).reset_index()]: one row per group, made
    by [agg] from the key and the rows of the group. *)
Definition groupby {Out : Type} (agg : Key -> list Row -> Out)
           (df : list Row) : list Out :=
  map (fun k => agg k (group df k)) (group_keys df).

End GroupBy.

End GroupBy.

(* ================================================================== *)
(** * The monthly table: [create_grouped_sales] and the overview tab *)
(* ================================================================== *)

Module MonthlySales.

Import Frame GroupBy.
#[local] Open Scope string_scope.

(** The key columns [['Year', 'Month', 'SALON NAMES', 'BRAND']]. *)
Definition Key4 : Type := string * string * string * string.

Definition compare_key4 : Key4 -> Key4 -> comparison :=
  compare_pair
    (compare_pair (compare_pair String.compare String.compare) String.compare)
    String.compare.

(** A row of [grouped_sales]. *)
Record GroupedRow : Type := mkGroupedRow {
  g_Year : string;
  g_Month : string;
  g_SALON_NAMES : string;
  g_BRAND : string;
  MTD_SALES : Q;
  MTD_BILLS : Z;
  MTD_ABV : Q
}.

(** The key columns of a row of [grouped_sales]. *)
Definition row_key (g : GroupedRow) : Key4 :=
  (g_Year g, g_Month g, g_SALON_NAMES g, g_BRAND g).

(** The key of a record: [Year], [Month] and [BRAND] are never null in
    the loaded table, [SALON NAMES] is the copied [center_name]. *)
Definition grouping_key (r : SaleRecord) : option Key4 :=
  match SALON_NAMES r with
  | Some salon => Some (Year r, Month r, salon, BRAND r)
  | None => None
  end.

(** The values of a column that are not null. *)
Definition dropna {A : Type} (s : list (option A)) : list A :=
  flat_map (fun c => match c with Some x => [x] | None => [] end) s.

(** [Series.nunique()]: the number of distinct values, nulls not
    counted. *)
Definition nunique (s : list (option string)) : Z :=
  Z.of_nat (List.length (unique String.eqb (dropna s))).

(** [row['MTD SALES'] / row['MTD BILLS'] if row['MTD BILLS'] > 0 else 0].
    The quotient is exact here; the code divides floats. *)
Definition average_bill_value (sales : Q) (bills : Z) : Q :=
  if (0 <? bills)%Z then (sales / inject_Z bills)%Q else 0%Q.

(** The aggregation of one group, with the column [MTD ABV] added. *)
Definition aggregate (col : numeric_col) (k : Key4) (rows : list SaleRecord)
  : GroupedRow :=
  let '(year, month, salon, brand) := k in
  let sales := column_sum col rows in
  let bills := nunique (map invoice_no rows) in
  {| g_Year := year;
     g_Month := month;
     g_SALON_NAMES := salon;
     g_BRAND := brand;
     MTD_SALES := sales;
     MTD_BILLS := bills;
     MTD_ABV := average_bill_value sales bills |}.

(** [create_grouped_sales(sales_data)]; [col] is the column that is
    summed, [sales_collected_exc_tax] in data_loader.py. *)
Definition create_grouped_sales (col : numeric_col)
           (sales_data : list SaleRecord) : list GroupedRow :=
  groupby compare_key4 grouping_key (aggregate col) sales_data.

(** ** The tab "MTD Sales Overview" *)

(** One filter of the tab: the choice "All" keeps every row. *)
Definition select (column : GroupedRow -> string) (selected : string)
           (df : list GroupedRow) : list GroupedRow :=
  if negb (String.eqb selected "All")
  then filter (fun r => String.eqb (column r) selected) df
  else df.

Definition filtered_data (grouped_sales : list GroupedRow)
           (selected_year selected_brand selected_month : string)
  : list GroupedRow :=
  select g_Month selected_month
    (select g_BRAND selected_brand
       (select g_Year selected_year grouped_sales)).

(** [filtered_data['MTD SALES'].sum()]. *)
Definition total_sales (filtered : list GroupedRow) : Q :=
  Qsum (map MTD_SALES filtered).

(** [filtered_data['MTD BILLS'].sum()]. *)
Definition total_bills (filtered : list GroupedRow) : Z :=
  fold_right Z.add 0%Z (map MTD_BILLS filtered).

Definition avg_bill_value (filtered : list GroupedRow) : Q :=
  average_bill_value (total_sales filtered) (total_bills filtered).

(** [filtered_data['SALON NAMES'].nunique()]. *)
Definition total_outlets (filtered : list GroupedRow) : Z :=
  nunique (map (fun r => Some (g_SALON_NAMES r)) filtered).

(** [filtered_data.groupby('SALON NAMES')['MTD SALES'].sum().reset_index()],
    the rows of the chart "MTD Sales by Outlet" before they are sorted by
    their value. *)
Definition salon_sales (filtered : list GroupedRow) : list (string * Q) :=
  groupby String.compare (fun r => Some (g_SALON_NAMES r))
          (fun salon rows => (salon, Qsum (map MTD_SALES rows))) filtered.

(** The records that a choice of the three filters is about. *)
Definition chosen (selected column : string) : bool :=
  String.eqb selected "All" || String.eqb column selected.

Definition selected_records (sales_data : list SaleRecord)
           (selected_year selected_brand selected_month : string)
  : list SaleRecord :=
  filter (fun r => chosen selected_year (Year r)
                   && chosen selected_brand (BRAND r)
                   && chosen selected_month (Month r)) sales_data.

(** The distinct invoice numbers of a table. *)
Definition invoices (df : list SaleRecord) : list string :=
  unique String.eqb (dropna (map invoice_no df)).

(** ** Sample records

    Four records of October 2023: one invoice of T NAGAR with a line in
    each of two brands, an invoice of ADYAR, and a record that has
    neither an outlet nor an invoice number. *)
Definition billed_row (center business_unit invoice : option string)
           (exc : Q) : RawRow :=
  {| raw_sale_date := Some "2023-10-24";
     raw_center_name := center;
     raw_business_unit := business_unit;
     raw_invoice_no := invoice;
     raw_amount := fun col =>
                     match col with
                     | sales_collected_exc_tax => Num exc
                     | _ => Num 0
                     end |}.

Definition october_sales : list SaleRecord :=
  Samples.load
    [billed_row (Some "T NAGAR") (Some "Salon") (Some "INV1") 100;
     billed_row (Some "T NAGAR") (Some "Spa") (Some "INV1") 50;
     billed_row (Some "ADYAR") (Some "Salon") (Some "INV2") 30;
     billed_row None None None 20].

Definition october_grouped : list GroupedRow :=
  create_grouped_sales sales_collected_exc_tax october_sales.

(** Two lines of one invoice in one group. *)
Definition invoice_line (exc : Q) : SaleRecord :=
  {| sale_date := Some Samples.diwali_2023_ts;
     center_name := Some "T NAGAR";
     business_unit := Some "Salon";
     invoice_no := Some "INV1";
     amount := fun _ => Some exc;
     Year := "2023";
     Month := "October";
     SALON_NAMES := Some "T NAGAR";
     BRAND := "Salon" |}.

Definition one_invoice : list SaleRecord := [invoice_line 100; invoice_line 50].

End MonthlySales.

(* ================================================================== *)
(** * The center table of the tab "Growth Analysis" (app.py) *)
(* ================================================================== *)

Module GrowthAnalysis.

Import Frame GroupBy Formatting.
#[local] Open Scope float_scope.

(** A row of [yearly_center_sales], the table that
    [groupby(['center_name', 'Year'])[...].sum().reset_index()] returns.
    Its index is the position of the row. *)
Record YearlyRow : Type := mkYearlyRow {
  y_center_name : string;
  y_Year : string;
  y_sales : float
}.

(** The index column of [center_pivot]: the centers of the table, one row
    each, ascending; [reset_index] numbers the rows from 0. *)
Definition center_pivot_centers (yearly_center_sales : list YearlyRow)
  : list string :=
  group_keys String.compare (fun r => Some (y_center_name r))
             yearly_center_sales.

(** [years = sorted(yearly_center_sales['Year'].unique())]. *)
Definition years (yearly_center_sales : list YearlyRow) : list string :=
  sort_keys String.compare
            (unique String.eqb (map y_Year yearly_center_sales)).

(** [latest_year = years[-1]]. *)
Definition latest_year (yearly_center_sales : list YearlyRow) : string :=
  last (years yearly_center_sales) ""%string.

(** A Series: its values with their index labels. *)
Definition Series : Type := list (nat * float).

(** The rows of a table with their index labels. *)
Definition with_index {A : Type} (df : list A) : list (nat * A) :=
  combine (seq 0 (List.length df)) df.

(** [yearly_center_sales[yearly_center_sales['Year'] == latest_year]
      ['sales_collected_inc_tax'] * 1.1]: the selected rows keep the index
    labels they have in [yearly_center_sales]. *)
Definition projection_series (yearly_center_sales : list YearlyRow) : Series :=
  map (fun p => (fst p, y_sales (snd p) * 1.1))
      (filter (fun p => String.eqb (y_Year (snd p))
                                   (latest_year yearly_center_sales))
              (with_index yearly_center_sales)).

(** The value of a Series at a label, NaN when the label is not in its
    index: what the assignment of a Series to a column puts in the row
    with that label. *)
Definition at_label (s : Series) (label : nat) : float :=
  match find (fun p => Nat.eqb (fst p) label) s with
  | Some p => snd p
  | None => nan
  end.

(** [center_pivot['Projected (10% Growth)'] = ...]: the new column, one
    cell per row of [center_pivot]. *)
Definition projected_column (yearly_center_sales : list YearlyRow)
  : list float :=
  map (at_label (projection_series yearly_center_sales))
      (seq 0 (List.length (center_pivot_centers yearly_center_sales))).

(** The column as displayed, after [.apply(format_indian_money)]. *)
Definition projected_column_shown (yearly_center_sales : list YearlyRow)
  : list (option string) :=
  map (fun x => format_indian_money x false)
      (projected_column yearly_center_sales).

(** The table in which every center of [centers] has a row for every
    year of [ys], ascending by center and year as [groupby] leaves it. *)
Definition complete_table (centers ys : list string)
           (sales : string -> string -> float) : list YearlyRow :=
  flat_map (fun c => map (fun y => mkYearlyRow c y (sales c y)) ys) centers.

(** Two centers with sales in two years. *)
Definition two_centers_sales (center year : string) : float :=
  (if String.eqb center "ADYAR" then 1 else 10)
  * (if String.eqb year "2023" then 100 else 200).

Definition two_centers : list YearlyRow :=
  complete_table ["ADYAR"; "T NAGAR"]%string ["2023"; "2024"]%string
                 two_centers_sales.

End GrowthAnalysis.

(* ================================================================== *)
(** * Fetching the table: [fetch_data_from_supabase] *)
(* ================================================================== *)

Module Supabase.

#[local] Open Scope nat_scope.

(** What a call gives back to its caller: the value it returns, or an
    exception. *)
Inductive outcome (A : Type) : Type :=
| Returns (a : A)
| Raises.

Arguments Returns {A} a.
Arguments Raises {A}.

Section Fetch.

Context {Row : Type}.

(** [query.execute()] for the rows of a year in the range from
    [start_range] to [end_range]: the rows of the response, or an
    exception ([None]). *)
Variable execute : Z -> nat -> nat -> option (list Row).

(** The state of the loop [while True] of one year, and the requests
    sent so far, latest first. *)
Record LoopState : Type := mkLoopState {
  year_data : list Row;
  requests : list (nat * nat)
}.

(** The loop [while True] from the page [page] on.  [fuel] bounds the
    number of iterations; [None] is a loop that has not ended within
    [fuel] iterations. *)
Fixpoint fetch_pages (size : nat) (year : Z) (fuel : nat) (page : nat)
         (st : LoopState) : option LoopState :=
  match fuel with
  | O => None
  | S fuel' =>
      let start_range := page * size in
      let end_range := start_range + size - 1 in
      let sent := (start_range, end_range) :: requests st in
      match execute year start_range end_range with
      | Some data =>
          match data with
          | _ :: _ =>
              let st' := mkLoopState (year_data st ++ data) sent in
              if List.length data <? size then Some st'
              else fetch_pages size year fuel' (page + 1) st'
          | [] => Some (mkLoopState (year_data st) sent)
          end
      | None =>
          let page' := page + 1 in
          if 50 <? page' then Some (mkLoopState (year_data st) sent)
          else fetch_pages size year fuel' page'
                           (mkLoopState (year_data st) sent)
      end
  end.

(** The body of [for year in years_to_fetch] on one year. *)
Definition fetch_year (size : nat) (fuel : nat) (year : Z)
  : option LoopState :=
  fetch_pages size year fuel 0 (mkLoopState [] []).

(** [page_size = 10000]. *)
Definition page_size : nat := 100 * 100.

(** [list(range(2020, 2026))]. *)
Definition years_to_fetch : list Z := [2020; 2021; 2022; 2023; 2024; 2025]%Z.

(** The loop over the years: [all_data] when it is over. *)
Fixpoint fetch_years (size : nat) (fuel : nat) (years : list Z)
         (all_data : list Row) : option (list Row) :=
  match years with
  | [] => Some all_data
  | year :: years' =>
      match fetch_year size fuel year with
      | Some st => fetch_years size fuel years' (all_data ++ year_data st)
      | None => None
      end
  end.

(** The list [all_data] when the loop over [years_to_fetch] is over
    (line 103). *)
Definition all_data (fuel : nat) : option (list Row) :=
  fetch_years page_size fuel years_to_fetch [].

(** Whether [pd.to_datetime(df['sale_date'])], line 111, raises on the
    rows of the DataFrame: it is called with the default
    [errors='raise'], so it raises when a date of the column does not
    parse. *)
Variable to_datetime_raises : list Row -> bool.

(** Lines 104 to 125, what the function does with [all_data]: without
    rows it returns the empty DataFrame; with rows it counts them by the
    year of their date and returns them, unless the dates do not parse:
    that exception reaches the [except] of line 123, which raises it
    again. *)
Definition DataFrame_of (rows : list Row) : outcome (list Row) :=
  match rows with
  | [] => Returns []
  | _ :: _ => if to_datetime_raises rows then Raises else Returns rows
  end.

(** [fetch_data_from_supabase]: the rows of the DataFrame it returns, or
    the exception it raises ([None] is a loop that has not ended within
    [fuel] iterations). *)
Definition fetch_data_from_supabase (fuel : nat)
  : option (outcome (list Row)) :=
  option_map DataFrame_of (all_data fuel).

End Fetch.

(** ** A server that answers from a fixed table

    [rows year] are the rows of the table whose [sale_date] is in the
    year, in the order in which the server returns them; a request for a
    range is answered with the rows at the positions of the range, both
    ends included, unless the request for that page fails. *)
Definition page_of {Row : Type} (size : nat) (rows : list Row)
           (page : nat) : list Row :=
  firstn size (skipn (page * size) rows).

Definition serve {Row : Type} (rows : Z -> list Row)
           (fails : Z -> nat -> bool) (year : Z) (start_range end_range : nat)
  : option (list Row) :=
  if fails year start_range then None
  else Some (firstn (end_range + 1 - start_range)
                    (skipn start_range (rows year))).

(** The pages from [page] on, [n] of them, whose request does not fail,
    one after the other. *)
Definition rows_fetched_from {Row : Type} (size : nat)
           (fails : nat -> bool) (rows : list Row) (page n : nat) : list Row :=
  flat_map (fun q => if fails (q * size) then []
                     else page_of size rows q)
           (seq page n).

(** The rows of a list that are on no page whose request fails. *)
Definition rows_fetched {Row : Type} (size : nat)
           (fails : nat -> bool) (rows : list Row) : list Row :=
  rows_fetched_from size fails rows 0
                    (List.length rows / size + 1).

(** A small table: three rows dated 2023 and one dated 2019; a server
    whose answer to the first request for 2023 is an error; and a date
    check that the row 2 does not pass. *)
Definition sample_rows (year : Z) : list nat :=
  if (year =? 2023)%Z then [1; 2; 3]
  else if (year =? 2019)%Z then [7]
  else [].

Definition first_page_of_2023_fails (year : Z) (start_range : nat) : bool :=
  (year =? 2023)%Z && (start_range =? 0).

(** A date check for these rows: the sale date of the row 2 is a text
    that is no date. *)
Definition date_of_row_2_does_not_parse (rows : list nat) : bool :=
  existsb (Nat.eqb 2) rows.

End Supabase.

(* ================================================================== *)
(** * [load_sales_data] as a whole: the fetch, the conversions, the
      [except] *)
(* ================================================================== *)

Module DataLoader.

Import Calendar Frame Supabase.
#[local] Open Scope string_scope.

(** The entries ["raw_data"] and ["success"] of the dictionary that
    [load_sales_data] returns. *)
Record Loaded : Type := mkLoaded {
  raw_data : list SaleRecord;
  success : bool
}.

(** What is returned when nothing was fetched (lines 61 to 67) and at
    an exception (lines 69 to 75): an empty table, [success] False. *)
Definition not_loaded : Loaded := {| raw_data := []; success := false |}.

(** Whether [sales_data[col].replace({...}, regex=True)], line 28,
    raises.  On a column of objects pandas searches the cells that are
    not null with a function that numpy vectorizes, and numpy refuses
    to vectorize over no element: the call raises [ValueError] when the
    column holds a null in every row.  A column with a number or a text
    in some row does not raise. *)
Definition replace_raises (sales_data : list RawRow) (col : numeric_col)
  : bool :=
  forallb (fun r => match raw_amount r col with
                    | Null => true
                    | _ => false
                    end)
          sales_data.

(** [df['sale_date']]. *)
Definition sale_date_column (df : list RawRow) : list (option string) :=
  map raw_sale_date df.

Section Load.

(** [pd.to_numeric] on a text, with [errors='coerce']. *)
Variable numeric_of_text : string -> option Q.

(** [pd.to_datetime] on a text of a column.  pandas takes the layout of
    the dates from the column (from its first date) and reads every cell
    with it, so what a text gives depends on the column it stands in;
    [None] is a text that does not parse. *)
Variable datetime_of_text : list (option string) -> string -> option Timestamp.

(** supabase_utils.py, line 111: [pd.to_datetime(df['sale_date'])] with
    the default [errors='raise'] raises when a date of the column does
    not parse; a null is not an error. *)
Definition to_datetime_raises (df : list RawRow) : bool :=
  existsb (fun c => match c with
                    | Some s =>
                        negb (Normalizer.notna
                                (datetime_of_text (sale_date_column df) s))
                    | None => false
                    end)
          (sale_date_column df).

(** [load_sales_data], from the outcome of its call of
    [fetch_data_from_supabase] (line 19).  An exception of the fetch or
    of a conversion is caught at line 69.  Lines 22 to 49, the
    conversions, are [Normalizer.load_sales_data]; the dates are read
    with the layout of the column [sale_date], the same column that the
    fetch has checked. *)
Definition load_sales_data (fetched : outcome (list RawRow)) : Loaded :=
  match fetched with
  | Raises => not_loaded
  | Returns sales_data =>
      match sales_data with
      | [] => not_loaded                       (* sales_data.empty *)
      | _ :: _ =>
          if existsb (replace_raises sales_data) numeric_cols
          then not_loaded
          else {| raw_data :=
                    Normalizer.load_sales_data
                      numeric_of_text
                      (datetime_of_text (sale_date_column sales_data))
                      sales_data;
                  success := true |}
      end
  end.

(** [load_sales_data] on the rows that the requests of the fetch have
    collected. *)
Definition load_collected (all_data : list RawRow) : Loaded :=
  load_sales_data (DataFrame_of to_datetime_raises all_data).

(** One row of the table before the derived columns are added. *)
Definition normalized (sales_data : list RawRow) (r : RawRow) : SaleRecord :=
  Normalizer.derive_columns
    (Normalizer.convert_columns
       numeric_of_text (datetime_of_text (sale_date_column sales_data)) r).

End Load.

(** ** Sample tables

    Rows with a value in every monetary column, and the reader of
    columns of dates that are all written [YYYY-MM-DD]. *)

Definition complete_row (date center : option string) (exc inc : cell)
  : RawRow :=
  {| raw_sale_date := date;
     raw_center_name := center;
     raw_business_unit := Some "Salon";
     raw_invoice_no := Some "INV1";
     raw_amount := fun col =>
                     match col with
                     | sales_collected_exc_tax => exc
                     | sales_collected_inc_tax => inc
                     | _ => Num 0
                     end |}.

Definition iso_layout (column : list (option string)) (s : string)
  : option Timestamp :=
  Normalizer.iso_date s.

Definition load (all_data : list RawRow) : Loaded :=
  load_collected Normalizer.plain_decimal iso_layout all_data.

(** A text that is no number and a missing amount. *)
Definition sales_with_gaps : list RawRow :=
  [complete_row (Some "2023-10-24") (Some "T NAGAR") (Num 100) (Text "abc");
   complete_row (Some "2023-10-25") (Some "T NAGAR") Null (Num 50)].

(** A row without outlet and a row with one. *)
Definition sales_with_a_null_outlet : list RawRow :=
  [complete_row (Some "2023-10-24") None (Num 100) (Num 118);
   complete_row (Some "2023-10-25") (Some "ADYAR") (Num 10) (Num 12)].

(** A date that does not parse, and a monetary column, the tax-inclusive
    sales, without any value. *)
Definition sales_with_a_bad_date : list RawRow :=
  [complete_row (Some "2023-10-24") (Some "T NAGAR") (Num 100) (Num 118);
   complete_row (Some "not a date") (Some "ADYAR") (Num 10) (Num 12)].

Definition sales_without_inc_tax : list RawRow :=
  [complete_row (Some "2023-10-24") (Some "T NAGAR") (Num 100) Null;
   complete_row (Some "2023-10-25") (Some "ADYAR") (Num 10) Null].

End DataLoader.

(* ================================================================== *)
(** * The preprocessing script: process_data.py *)
(* ================================================================== *)

Module ProcessData.

Import Calendar Frame GroupBy MonthlySales.
#[local] Open Scope string_scope.

(** ** Months *)

(** [l.index(x)], for an [x] that is in the list; [None] when it is not
    (Python raises [ValueError], and the callers test [x in l] first). *)
Fixpoint index (x : string) (l : list string) : option nat :=
  match l with
  | [] => None
  | y :: l' => if String.eqb y x then Some O else option_map S (index x l')
  end.

(** [month_order], spelled out in process_data.py, format_utils.py
    ([create_month_order]) and app.py: the list [month_names]. *)
Definition month_order : list string := month_names.

(** [month_order.index(x) + 1 if x in month_order else 0]. *)
Definition Month_Num (x : string) : Z :=
  match index x month_order with
  | Some i => (Z.of_nat i + 1)%Z
  | None => 0%Z
  end.

(** The code of a value of the ordered categorical
    [pd.Categorical(df[month_column], categories=month_order, ordered=True)]
    of [add_month_sorting_column]: its position among the categories; a
    value that is not a category becomes NaN ([None]). *)
Definition Month_Sorted (x : string) : option nat := index x month_order.

(** ** The service table *)

(** [s.split(sep)] for a separator of one character. *)
Fixpoint split (sep : ascii) (s : string) : list string :=
  match s with
  | EmptyString => [EmptyString]
  | String c rest =>
      if Ascii.eqb c sep then EmptyString :: split sep rest
      else match split sep rest with
           | piece :: pieces => String c piece :: pieces
           | [] => [String c EmptyString]
           end
  end.

(** No separator among the characters of a string. *)
Fixpoint free_of (sep : ascii) (s : string) : Prop :=
  match s with
  | EmptyString => True
  | String c rest => c <> sep /\ free_of sep rest
  end.

(** [chunk['Sale Date'].str.split('-').str[-1]]; a null stays null. *)
Definition Year_of (Sale_Date : option string) : option string :=
  option_map (fun s => last (split "-" s) EmptyString) Sale_Date.

(** A row of merged_service_data.csv: the columns that the script
    reads.  A text cell may be null. *)
Record ServiceRow : Type := mkServiceRow {
  Center_Name : option string;
  Sale_Date : option string;
  Item_Type : option string;
  Item_Category : option string;
  Item_Subcategory : option string;
  Item_Name : option string;
  Business_Unit : option string;
  Sales_Collected_Inc_Tax : option Q
}.

(** ['Product' if x == 'Product' else 'Service']. *)
Definition Category_of (item_type : option string) : string :=
  if label_eq item_type (Some "Product") then "Product" else "Service".

(** [x in s] on strings. *)
Fixpoint contains (x s : string) : bool :=
  String.prefix x s
  || match s with
     | EmptyString => false
     | String _ rest => contains x rest
     end.

(** [any(x in s for x in words)]. *)
Definition any_in (words : list string) (s : string) : bool :=
  existsb (fun x => contains x s) words.

(** [str(value)] of a cell: a null (NaN) is spelled "nan". *)
Definition str_cell (c : option string) : string :=
  match c with Some s => s | None => "nan" end.

Section Chunks.

(** [str.lower]. *)
Variable lower : string -> string.

(** [categorize_service(row)]. *)
Definition categorize_service (row : ServiceRow) : string :=
  if negb (String.eqb (Category_of (Item_Type row)) "Service") then "Product"
  else
    let category := lower (str_cell (Item_Category row)) in
    let subcategory := lower (str_cell (Item_Subcategory row)) in
    let item_name := lower (str_cell (Item_Name row)) in
    if any_in ["hair"; "haircut"; "color"] category
       || any_in ["hair"; "cut"; "color"] subcategory
       || any_in ["hair"; "cut"; "color"; "style"; "blowdry"] item_name
    then "Hair"
    else if any_in ["facial"; "skin"; "face"] category
            || any_in ["facial"; "skin"; "cleanup"] subcategory
            || any_in ["facial"; "skin"; "cleanup"] item_name
    then "Skin"
    else if any_in ["spa"; "massage"; "therapy"] category
            || any_in ["spa"; "massage"; "therapy"] subcategory
            || any_in ["spa"; "massage"; "therapy"] item_name
    then "SPA"
    else "Other Services".

(** The key columns [columns_to_preserve]: 'Center Name', 'Year',
    'Category', 'Service_Type', 'Item Category', 'Item Subcategory',
    'Business Unit'. *)
Definition Key7 : Type :=
  string * string * string * string * string * string * string.

Definition compare_key7 : Key7 -> Key7 -> comparison :=
  compare_pair
    (compare_pair
       (compare_pair
          (compare_pair
             (compare_pair (compare_pair String.compare String.compare)
                           String.compare)
             String.compare)
          String.compare)
       String.compare)
    String.compare.

(** The key of a row of a chunk; a null in one of the columns leaves the
    row out of the groups. *)
Definition service_key (row : ServiceRow) : option Key7 :=
  match Center_Name row, Year_of (Sale_Date row), Item_Category row,
        Item_Subcategory row, Business_Unit row with
  | Some center, Some year, Some category, Some subcategory, Some unit =>
      Some (center, year, Category_of (Item_Type row),
            categorize_service row, category, subcategory, unit)
  | _, _, _, _, _ => None
  end.

(** A row of [agg_chunk] and of [service_summary]: the key, and the
    columns [sum] and [count] (in the end [Total_Sales] and
    [Transaction_Count]). *)
Record SummaryRow : Type := mkSummaryRow {
  s_key : Key7;
  s_sum : Q;
  s_count : Z
}.

(** [Series.count()]: the number of cells that are not null. *)
Definition count {A : Type} (s : list (option A)) : Z :=
  Z.of_nat (List.length (dropna s)).

(** [chunk.groupby(preserved_columns)['Sales Collected (Inc.Tax)']
      .agg(['sum', 'count']).reset_index()]. *)
Definition agg_chunk (chunk : list ServiceRow) : list SummaryRow :=
  groupby compare_key7 service_key
          (fun k rows =>
             mkSummaryRow k
               (series_sum (map Sales_Collected_Inc_Tax rows))
               (count (map Sales_Collected_Inc_Tax rows)))
          chunk.

(** [raw_data.iloc[i:i + chunk_size]] for [i in range(0, len(raw_data),
    chunk_size)]: the chunks, in order.  [n] bounds their number. *)
Fixpoint chunks {A : Type} (n : nat) (chunk_size : nat) (raw_data : list A)
  : list (list A) :=
  match n, raw_data with
  | S n', _ :: _ =>
      firstn chunk_size raw_data
      :: chunks n' chunk_size (skipn chunk_size raw_data)
  | _, _ => []
  end.

(** [service_summary] when the loop is over: the concatenation of the
    aggregated chunks. *)
Definition concatenated (chunk_size : nat) (raw_data : list ServiceRow)
  : list SummaryRow :=
  flat_map agg_chunk (chunks (List.length raw_data) chunk_size raw_data).

(** [service_summary.groupby(group_columns)
      .agg({'sum': 'sum', 'count': 'sum'}).reset_index()]. *)
Definition further_aggregate (service_summary : list SummaryRow)
  : list SummaryRow :=
  groupby compare_key7 (fun r => Some (s_key r))
          (fun k rows =>
             mkSummaryRow k (Qsum (map s_sum rows))
                          (fold_right Z.add 0%Z (map s_count rows)))
          service_summary.

(** The table that [process_service_data_chunks] saves, for a file that
    has rows; the chunk size of the script is 100000. *)
Definition service_summary (chunk_size : nat) (raw_data : list ServiceRow)
  : list SummaryRow :=
  further_aggregate (concatenated chunk_size raw_data).

End Chunks.

(** [str.lower] on the letters A to Z. *)
Definition ascii_lower (s : string) : string :=
  string_of_list_ascii
    (map (fun c =>
            let n := nat_of_ascii c in
            if (65 <=? n)%nat && (n <=? 90)%nat
            then ascii_of_nat (n + 32) else c)
         (list_ascii_of_string s)).

(** Three rows of a service file: two services of one key and a product
    without an amount. *)
Definition service_row (date item_type category subcategory name : string)
           (sales : option Q) : ServiceRow :=
  {| Center_Name := Some "T NAGAR";
     Sale_Date := Some date;
     Item_Type := Some item_type;
     Item_Category := Some category;
     Item_Subcategory := Some subcategory;
     Item_Name := Some name;
     Business_Unit := Some "Salon";
     Sales_Collected_Inc_Tax := sales |}.

Definition service_sample : list ServiceRow :=
  [service_row "24-10-2023" "Service" "Hair" "Cut" "Haircut" (Some 500%Q);
   service_row "26-10-2023" "Product" "Retail" "Shampoo" "Shampoo" None;
   service_row "25-10-2023" "Service" "Hair" "Cut" "Hair Spa" (Some 700%Q)].

End ProcessData.

(* ================================================================== *)
(** * The center filter of the holiday tab of dashboard_tabs.py *)
(* ================================================================== *)

Module HolidayFilters.

Import Frame GroupBy MonthlySales.

(** [all_centers = sorted(raw_sales_data['center_name'].unique())].
    [unique] keeps a null as one of the values.  Python orders [str]
    values among themselves; comparing a null with a [str] raises
    [TypeError], which is [None] here, and a list of one value is
    returned without any comparison. *)
Definition all_centers (raw_sales_data : list SaleRecord)
  : option (list (option string)) :=
  let values := unique label_same (map center_name raw_sales_data) in
  if forallb notna_label values
  then Some (map Some (sort_keys String.compare (dropna values)))
  else if (1 <? List.length values)%nat then None
  else Some values.

End HolidayFilters.

(* ================================================================== *)
(** * The year filter of the tab "Service & Product Analysis" (app.py) *)
(* ================================================================== *)

Module ServiceTab.

Import Frame GroupBy.

(** [service_years = sorted(raw_sales_data['Year'].unique())]. *)
Definition service_years (raw_sales_data : list SaleRecord) : list string :=
  sort_keys String.compare (unique String.eqb (map Year raw_sales_data)).

(** The options of the select box "Select Year".  [year_options] is
    assigned in the [else] branch of [if len(service_years) == 1] only
    and read after it in both cases: with one year the read raises
    [NameError], which is [None]. *)
Definition year_options (raw_sales_data : list SaleRecord)
  : option (list string) :=
  if (List.length (service_years raw_sales_data) =? 1)%nat then None
  else Some ("All Years"%string :: service_years raw_sales_data).

End ServiceTab.

(** A record of T NAGAR sold at 10 o'clock on 26 October 2023, the
    sixth day of the window of Diwali 2023. *)
Module WindowEdge.

Import Calendar Frame.

Definition sale_on_the_sixth_day : SaleRecord :=
  {| sale_date := Some (Samples.diwali_2023_ts + Timedelta_days 2
                        + 10 * 3600 * 1000000000)%Z;
     center_name := Some "T NAGAR"%string;
     business_unit := None;
     invoice_no := None;
     amount := fun _ => Some 100%Q;
     Year := "2023"%string;
     Month := "October"%string;
     SALON_NAMES := Some "T NAGAR"%string;
     BRAND := "Other"%string |}.




End WindowEdge.

(* ================================================================== *)
(** * The detailed analysis of the holiday tab of dashboard_tabs.py *)
(* ================================================================== *)

(** Lines 465 to 640 of [render_holidays_analysis_tab]: what the tab
    does once a festival, a center and years are selected.  [holiday_df]
    is the table of occurrences that the lines before have built. *)

Module ModularTab.

Import Calendar Frame HolidayEngine.
#[local] Open Scope string_scope.

(** [festival_dates = holiday_df[holiday_df['Festivals'] ==
    selected_festival]['Date']]. *)
Definition festival_dates (holiday_df : list HolidayRow)
           (selected_festival : string) : list Timestamp :=
  map h_Date
      (filter (fun h => String.eqb (h_Festivals h) selected_festival)
              holiday_df).








End ModularTab.

(* ================================================================== *)
(** * Float columns: the two float types of the amounts *)
(* ================================================================== *)

(** In app.py [load_data] downcasts the monetary columns "to smaller
    float type if possible" (lines 149 to 152): a column whose amounts
    all fit [float32] becomes a [float32] column, a column with an
    amount that does not fit stays [float64].  data_loader.py does not
    downcast.  NumPy computes on a column in the type of the column, so
    the results below are given for both types. *)

Module FloatColumn.

Import Frame.
#[local] Open Scope float_scope.

Inductive dtype : Type := float32 | float64.

(** The precision and the exponent range of the IEEE 754 formats
    binary32 and binary64. *)
Definition prec (d : dtype) : Z :=
  match d with float32 => 24%Z | float64 => 53%Z end.

Definition emax (d : dtype) : Z :=
  match d with float32 => 128%Z | float64 => 1024%Z end.

(** [astype(d)]: the value of the type that is nearest, ties to even. *)
Definition astype (d : dtype) (x : spec_float) : spec_float :=
  match x with
  | S754_finite s m e => binary_round (prec d) (emax d) s m e
  | _ => x
  end.

(** A cell of a column of type [d] that holds the number [x], [x] being
    a Python float (binary64), as the decimal text of a file is read;
    also a Python float that is an operand of the column. *)
Definition cell (d : dtype) (x : float) : spec_float := astype d (Prim2SF x).

Definition add (d : dtype) : spec_float -> spec_float -> spec_float :=
  SFadd (prec d) (emax d).

Definition mul (d : dtype) : spec_float -> spec_float -> spec_float :=
  SFmul (prec d) (emax d).

(** The number that a float is. *)
Definition value (x : spec_float) : Q :=
  match x with
  | S754_finite s m e =>
      ((if s then -1 else 1) * inject_Z (Zpos m) * Qpower 2 e)%Q
  | _ => 0%Q
  end.

(** [pivot_data[latest_year] * 1.10] and
    [yearly_center_sales[...]['sales_collected_inc_tax'] * 1.1] on one
    cell of a column of type [d]. *)
Definition project (d : dtype) (latestValue : spec_float) : spec_float :=
  mul d latestValue (cell d 1.10).

(** [Series.sum()] skips the missing values: they count as 0. *)
Definition fillna_0 (x : spec_float) : spec_float :=
  match x with
  | S754_nan => S754_zero false
  | _ => x
  end.

(** [Series.sum()] of a float column of fewer than eight cells: NumPy
    adds them one after the other, from the first to the last, in the
    type of the column.  Longer columns are added in blocks, an order
    that is not followed here: they give [None]. *)
Definition sum (d : dtype) (column : list spec_float) : option spec_float :=
  if (List.length column <? 8)%nat
  then Some (fold_left (add d) (map fillna_0 column) (S754_zero false))
  else None.

(** A record of a day: its center and its amount. *)
Definition DayRow : Type := (option string * float)%type.

(** [date_sales['sales_collected_inc_tax'].sum()], line 1122 of app.py. *)
Definition total_sales (d : dtype) (date_sales : list DayRow)
  : option spec_float :=
  sum d (map (fun r => cell d (snd r)) date_sales).

(** [date_sales[date_sales['center_name'] == center]
      ['sales_collected_inc_tax'].sum()], lines 1136 and 1137. *)
Definition center_sales (d : dtype) (date_sales : list DayRow)
           (center : option string) : option spec_float :=
  sum d (map (fun r => cell d (snd r))
             (filter (fun r => label_eq (fst r) center) date_sales)).

(** ** Sample data: the sales of a day by two centers, 1200.10 by
       T NAGAR, 300.30 and 100.10 by ADYAR. *)
Definition day_of_two_centers : list DayRow :=
  [(Some "T NAGAR"%string, 1200.1);
   (Some "ADYAR"%string, 300.3);
   (Some "ADYAR"%string, 100.1)].

(** The same sales as records with exact amounts, on Diwali 2023. *)
Definition diwali_of_two_centers : list SaleRecord :=
  DataLoader.raw_data
    (DataLoader.load
       [DataLoader.complete_row (Some "2023-10-24"%string)
                                (Some "T NAGAR"%string)
                                (Num (1000 # 1)) (Num (12001 # 10));
        DataLoader.complete_row (Some "2023-10-24"%string)
                                (Some "ADYAR"%string)
                                (Num (250 # 1)) (Num (3003 # 10));
        DataLoader.complete_row (Some "2023-10-24"%string)
                                (Some "ADYAR"%string)
                                (Num (80 # 1)) (Num (1001 # 10))]).

End FloatColumn.

(* ================================================================== *)
(** * Properties *)
(* ================================================================== *)

(** ** Calendar *)

Module CalendarFacts.

Import Calendar.

Lemma ts_date_midnight (n : Z) : ts_date (n * NS_PER_DAY) = n.
Proof. unfold ts_date. apply Z.div_mul. discriminate. Qed.

Lemma Timestamp_ymd_Some (y m d : Z) (t : Timestamp) :
  Timestamp_ymd y m d = Some t <->
  valid_ymd y m d = true /\ t = days_from_civil y m d * NS_PER_DAY.
Proof.
  unfold Timestamp_ymd. destruct (valid_ymd y m d); split.
  - intros [= <-]. auto.
  - intros [_ ->]. reflexivity.
  - discriminate.
  - intros [[=] _].
Qed.

Lemma Timestamp_ymd_None (y m d : Z) :
  Timestamp_ymd y m d = None <-> valid_ymd y m d = false.
Proof.
  unfold Timestamp_ymd. destruct (valid_ymd y m d); split; congruence.
Qed.

(** A 29th of February exists exactly in leap years. *)
Lemma valid_feb29 (y : Z) : valid_ymd y 2 29 = is_leap y.
Proof. unfold valid_ymd, days_in_month. destruct (is_leap y); reflexivity. Qed.

(** Every other day that exists in some year exists in all of them. *)
Lemma valid_ymd_year_independent (y y' m d : Z) :
  (m, d) <> (2, 29) -> valid_ymd y m d = true -> valid_ymd y' m d = true.
Proof.
  unfold valid_ymd, days_in_month. intros Hne H.
  rewrite !andb_true_iff, !Z.leb_le in H.
  destruct H as [[[Hm1 Hm12] Hd1] Hd].
  assert (Hm : m = 1 \/ m = 2 \/ m = 3 \/ m = 4 \/ m = 5 \/ m = 6 \/ m = 7 \/
               m = 8 \/ m = 9 \/ m = 10 \/ m = 11 \/ m = 12) by lia.
  rewrite !andb_true_iff, !Z.leb_le.
  repeat (destruct Hm as [-> | Hm]); try subst m; cbn in Hd |- *; try lia.
  assert (d <> 29) by (intros ->; apply Hne; reflexivity).
  destruct (is_leap y), (is_leap y'); lia.
Qed.

Example diwali_2023 : Timestamp_ymd 2023 10 24 = Some 1698105600000000000.
Proof. reflexivity. Qed.

Example feb29_2023 : Timestamp_ymd 2023 2 29 = None.
Proof. reflexivity. Qed.

Example civil_roundtrip_2024_02_29 :
  civil_from_days (days_from_civil 2024 2 29) = (2024, 2, 29).
Proof. reflexivity. Qed.

Example year_of_timestamp : ts_year 1698105600000000000 = 2023.
Proof. reflexivity. Qed.

End CalendarFacts.

(** ** Sums and distinct values *)

Module FrameFacts.

Import Calendar Frame.

Lemma Qpositive_spec (q : Q) : Qpositive q = true <-> (0 < q)%Q.
Proof.
  unfold Qpositive. rewrite negb_true_iff. split.
  - intros H. apply Qnot_le_lt. intros Hle.
    apply Qle_bool_iff in Hle. congruence.
  - intros H. destruct (Qle_bool q 0) eqn:E; [|reflexivity].
    apply Qle_bool_iff in E. exfalso. exact (Qlt_not_le _ _ H E).
Qed.

Lemma series_sum_cons (c : option Q) (s : list (option Q)) :
  (series_sum (c :: s) == cell_value c + series_sum s)%Q.
Proof. destruct c; cbn; ring. Qed.

Lemma series_sum_app (s1 s2 : list (option Q)) :
  (series_sum (s1 ++ s2) == series_sum s1 + series_sum s2)%Q.
Proof.
  induction s1 as [|[q|] s1 IH]; cbn.
  - ring.
  - rewrite IH. ring.
  - exact IH.
Qed.

Lemma column_sum_cons (col : numeric_col) (r : SaleRecord) (df : list SaleRecord) :
  (column_sum col (r :: df) == cell_value (amount r col) + column_sum col df)%Q.
Proof. unfold column_sum. cbn [map]. apply series_sum_cons. Qed.

Lemma filter_filter {A : Type} (p q : A -> bool) (l : list A) :
  filter q (filter p l) = filter (fun x => p x && q x) l.
Proof.
  induction l as [|x l IH]; [reflexivity|].
  cbn. destruct (p x); cbn; [destruct (q x)|]; now rewrite IH.
Qed.

Lemma filter_all {A : Type} (l : list A) : filter (fun _ => true) l = l.
Proof. induction l as [|x l IH]; [reflexivity|]. cbn. now rewrite IH. Qed.

Lemma in_unique {A : Type} (eqb : A -> A -> bool) (s : list A) (x : A) :
  In x (unique eqb s) -> In x s.
Proof.
  induction s as [|y s IH]; cbn; [tauto|].
  intros [->|H]; [now left|].
  right. apply IH. now apply filter_In in H.
Qed.

Example unique_first_appearance : unique Z.eqb [3; 1; 3; 2; 1] = [3; 1; 2].
Proof. reflexivity. Qed.

Example str_2023 : str_of_Z 2023 = "2023"%string.
Proof. reflexivity. Qed.

Lemma label_same_eq (a b : option string) : label_same a b = true <-> a = b.
Proof.
  destruct a as [x|], b as [y|]; cbn; try (split; congruence).
  rewrite String.eqb_eq. split; congruence.
Qed.

Section Unique.

Context {A : Type} (eqb : A -> A -> bool).
Hypothesis eqb_eq : forall x y, eqb x y = true <-> x = y.

Lemma unique_NoDup (s : list A) : NoDup (unique eqb s).
Proof.
  induction s as [|x s IH]; cbn; constructor.
  - intros H. apply filter_In in H as [_ H].
    assert (E : eqb x x = true) by now apply eqb_eq.
    rewrite E in H. discriminate.
  - now apply NoDup_filter.
Qed.

Lemma unique_complete (s : list A) (x : A) : In x s -> In x (unique eqb s).
Proof.
  induction s as [|y s IH]; cbn; [tauto|].
  intros [->|H]; [now left|].
  destruct (eqb y x) eqn:E.
  - left. now apply eqb_eq.
  - right. apply filter_In. split; [now apply IH | now rewrite E].
Qed.

End Unique.

Lemma Qsum_cons (x : Q) (l : list Q) : Qsum (x :: l) = (x + Qsum l)%Q.
Proof. reflexivity. Qed.

End FrameFacts.

(** ** The Normalizer *)

Module NormalizerSpec.

Import Calendar Frame Normalizer FrameFacts Samples.
#[local] Open Scope string_scope.

Section Loader.

Variable numeric_of_text : string -> option Q.
Variable datetime_of_text : string -> option Timestamp.

Let normalize (r : RawRow) : SaleRecord :=
  derive_columns (convert_columns numeric_of_text datetime_of_text r).

Lemma load_sales_data_retained (fetched : list RawRow) :
  load_sales_data numeric_of_text datetime_of_text fetched
  = map normalize (retained datetime_of_text fetched).
Proof.
  unfold normalize, load_sales_data, dropna_sale_date, retained.
  induction fetched as [|r rows IH]; [reflexivity|].
  cbn [map filter convert_columns t_sale_date].
  destruct (notna (to_datetime datetime_of_text (raw_sale_date r))); cbn [map];
    now rewrite IH.
Qed.

End Loader.

Example strip_rupees : strip_currency (Text "â‚¹1,200.50") = Text "1200.50".
Proof. reflexivity. Qed.

Example strip_dollars : strip_currency (Text "$3,000") = Text "3000".
Proof. reflexivity. Qed.

Example plain_decimal_1200_50 : plain_decimal "1200.50" = Some (120050 # 100).
Proof. reflexivity. Qed.

Example plain_decimal_abc : plain_decimal "abc" = None.
Proof. reflexivity. Qed.

Example iso_date_diwali : iso_date "2023-10-24" = Some 1698105600000000000%Z.
Proof. reflexivity. Qed.

Example iso_date_bad : iso_date "24/10/2023" = None.
Proof. reflexivity. Qed.

Example iso_date_feb30 : iso_date "2023-02-30" = None.
Proof. reflexivity. Qed.

End NormalizerSpec.

(** ** Ranking the windows *)

Module RankingSpec.

Import Calendar Frame HolidayEngine FrameFacts Samples.
#[local] Open Scope string_scope.

#[local] Abbreviation total := Total_Window_Sales.
#[local] Abbreviation descending :=
  (fun a b : PerfRow => (Total_Window_Sales b <= Total_Window_Sales a)%Q).

Lemma before_true (k : bool) (b a : PerfRow) :
  before k b a = true -> (total a <= total b)%Q.
Proof.
  unfold before. destruct k.
  - rewrite negb_true_iff. intros H. apply Qlt_le_weak, Qnot_le_lt.
    intros Hle. apply Qle_bool_iff in Hle. congruence.
  - apply Qle_bool_iff.
Qed.

Lemma before_false (k : bool) (b a : PerfRow) :
  before k b a = false -> (total b <= total a)%Q.
Proof.
  unfold before. destruct k.
  - rewrite negb_false_iff. apply Qle_bool_iff.
  - intros H. apply Qlt_le_weak, Qnot_le_lt.
    intros Hle. apply Qle_bool_iff in Hle. congruence.
Qed.

Lemma insert_desc_permutes (k : bool) (a : PerfRow) (l : list PerfRow) :
  Permutation (a :: l) (insert_desc k a l).
Proof.
  induction l as [|b l IH]; cbn; [reflexivity|].
  destruct (before k b a); [|reflexivity].
  rewrite perm_swap. now constructor.
Qed.

Lemma insertion_sort_permutes (k : bool) (df : list PerfRow) :
  Permutation df (insertion_sort_desc k df).
Proof.
  induction df as [|a df IH]; cbn; [constructor|].
  rewrite <- insert_desc_permutes. now constructor.
Qed.

Lemma insert_desc_descends (k : bool) (a : PerfRow) (l : list PerfRow) :
  StronglySorted descending l -> StronglySorted descending (insert_desc k a l).
Proof.
  induction 1 as [|b l Hl IH Hb]; cbn.
  - repeat constructor.
  - destruct (before k b a) eqn:E.
    + constructor; [exact IH|].
      apply (Permutation_Forall (insert_desc_permutes k a l)).
      constructor; [now apply before_true in E | exact Hb].
    + apply before_false in E.
      constructor; [now constructor|].
      constructor; [exact E|].
      eapply Forall_impl; [|exact Hb].
      cbn. intros c Hc. now apply Qle_trans with (total b).
Qed.

Lemma insertion_sort_descends (k : bool) (df : list PerfRow) :
  StronglySorted descending (insertion_sort_desc k df).
Proof.
  induction df as [|a df IH]; cbn; [constructor|].
  now apply insert_desc_descends.
Qed.

(** The descending sort that keeps ties in input order ... *)
Definition stable_sort : SortValues :=
  {| sort_values := insertion_sort_desc true;
     sort_values_permutes := insertion_sort_permutes true;
     sort_values_descends := insertion_sort_descends true |}.

(** ... and one that reverses them; both are what [sort_values] may be. *)
Definition reversing_sort : SortValues :=
  {| sort_values := insertion_sort_desc false;
     sort_values_permutes := insertion_sort_permutes false;
     sort_values_descends := insertion_sort_descends false |}.

(** [festival_performance] is the gate applied to the aggregates of the
    windows, so [performance_df] is [rankWindows] of these aggregates. *)
Lemma festival_performance_gate (raw : list SaleRecord)
      (leaves_data : list HolidayRow) (selected_years : list Z)
      (selected_center : string) :
  festival_performance raw leaves_data selected_years selected_center
  = filter reportable
      (window_aggregates raw leaves_data selected_years selected_center).
Proof.
  unfold festival_performance, window_aggregates.
  induction (unique String.eqb (map h_Festivals leaves_data)) as [|f fs IH];
    [reflexivity|].
  cbn [flat_map]. rewrite filter_app, IH. f_equal.
  induction (festival_dates leaves_data f selected_years) as [|d ds IHd];
    [reflexivity|].
  cbn [flat_map map filter]. rewrite IHd. unfold append_if_sales.
  destruct (reportable _); reflexivity.
Qed.

(** With the sort that keeps ties, rows of equal total leave the sort in
    the order in which they entered it. *)
Lemma insert_desc_keeps_ties (v : Q) (a : PerfRow) (l : list PerfRow) :
  filter (fun x => Qeq_bool (total x) v) (insert_desc true a l)
  = filter (fun x => Qeq_bool (total x) v) (a :: l).
Proof.
  induction l as [|b l IH]; [reflexivity|].
  cbn [insert_desc]. destruct (before true b a) eqn:E; [|reflexivity].
  cbn [filter] in IH |- *. rewrite IH.
  destruct (Qeq_bool (total b) v) eqn:Eb, (Qeq_bool (total a) v) eqn:Ea;
    try reflexivity.
  exfalso. apply Qeq_bool_iff in Eb, Ea.
  unfold before in E. rewrite negb_true_iff in E.
  assert (Hle : (total b <= total a)%Q) by (rewrite Eb, Ea; apply Qle_refl).
  apply Qle_bool_iff in Hle. congruence.
Qed.

Lemma stable_sort_keeps_ties (v : Q) (df : list PerfRow) :
  filter (fun x => Qeq_bool (total x) v) (@sort_values stable_sort df)
  = filter (fun x => Qeq_bool (total x) v) df.
Proof.
  cbn [sort_values stable_sort].
  induction df as [|a df IH]; [reflexivity|].
  cbn [insertion_sort_desc fold_right].
  fold (insertion_sort_desc true df).
  rewrite insert_desc_keeps_ties. cbn [filter]. now rewrite IH.
Qed.

(** C4, as the specification words it, fails: an aggregate whose total is
    negative, not zero, is excluded as well. *)
Lemma negative_total_is_excluded :
  Qeq_bool (total refund_aggregate) 0 = false
  /\ Qeq_bool (total refund_aggregate) (-5) = true
  /\ @rankWindows stable_sort [trading_aggregate; refund_aggregate]
     = [trading_aggregate]
  /\ rankWindows_as_specified [trading_aggregate; refund_aggregate]
     = [trading_aggregate; refund_aggregate].
Proof. repeat split; vm_compute; reflexivity. Qed.

(** The order of equal totals is the sort's: the two sorts above, which
    both reorder by descending total, leave a tie in different orders. *)
Example tie_order_is_the_sorts :
  let a := center_aggregate trading "Diwali" diwali_2023_ts (Some "ADYAR") in
  let b := center_aggregate trading "Diwali" diwali_2023_ts (Some "T NAGAR") in
  map p_Center (@rankWindows stable_sort [a; b]) = [Some "ADYAR"; Some "T NAGAR"]
  /\ map p_Center (@rankWindows reversing_sort [a; b])
     = [Some "T NAGAR"; Some "ADYAR"].
Proof. split; vm_compute; reflexivity. Qed.

(** C4 (amended).  [rankWindows] keeps exactly the aggregates whose total
    is strictly positive (zero and negative totals are excluded) and
    returns them reordered so that the totals never increase; which of two
    equal totals comes first is left to the sort.  [performance_df] of
    app.py is [rankWindows] of the aggregates of the windows. *)
Theorem rankWindows_positive_descending
        (S : SortValues) (aggregates : list PerfRow) :
  Permutation (filter reportable aggregates) (rankWindows aggregates)
  /\ (forall a, In a (rankWindows aggregates)
                <-> In a aggregates /\ (0 < total a)%Q)
  /\ (forall a, (total a == 0)%Q -> ~ In a (rankWindows aggregates))
  /\ StronglySorted descending (rankWindows aggregates)
  /\ (forall raw leaves_data selected_years selected_center,
         performance_df raw leaves_data selected_years selected_center
         = rankWindows
             (window_aggregates raw leaves_data selected_years selected_center)).
Proof.
  assert (Hin : forall a, In a (rankWindows aggregates)
                          <-> In a aggregates /\ (0 < total a)%Q).
  { intros a. unfold rankWindows. split.
    - intros H.
      apply (Permutation_in _ (Permutation_sym (sort_values_permutes _))) in H.
      apply filter_In in H as [H1 H2]. split; [exact H1|].
      now apply Qpositive_spec.
    - intros [H1 H2].
      apply (Permutation_in _ (sort_values_permutes _)).
      apply filter_In. split; [exact H1|]. now apply Qpositive_spec. }
  split; [apply sort_values_permutes|].
  split; [exact Hin|].
  split.
  - intros a Hz Ha. apply Hin in Ha as [_ Hpos].
    rewrite Hz in Hpos. exact (Qlt_irrefl 0 Hpos).
  - split; [apply sort_values_descends|].
    intros. unfold performance_df, rankWindows.
    now rewrite festival_performance_gate.
Qed.

End RankingSpec.

(** ** The trading window and its aggregate *)

Module WindowSpec.

Import Calendar Frame HolidayEngine CalendarFacts FrameFacts Samples.
#[local] Open Scope string_scope.

#[local] Abbreviation total := Total_Window_Sales.





Lemma append_if_sales_row (a row : PerfRow) :
  In row (append_if_sales a) -> row = a /\ (0 < total a)%Q.
Proof.
  unfold append_if_sales. destruct (reportable a) eqn:E; cbn; [|tauto].
  intros [<-|[]]. split; [reflexivity|]. now apply Qpositive_spec.
Qed.

(** Each row of [festival_performance] is the aggregate of a window. *)
Lemma festival_performance_rows (raw : list SaleRecord)
      (leaves_data : list HolidayRow) (selected_years : list Z)
      (selected_center : string) (row : PerfRow) :
  In row (festival_performance raw leaves_data selected_years selected_center) ->
  exists festival festival_date,
    row = window_aggregate raw selected_center festival festival_date
    /\ (0 < total row)%Q.
Proof.
  unfold festival_performance. intros H.
  apply in_flat_map in H as (festival & _ & H).
  apply in_flat_map in H as (festival_date & _ & H).
  apply append_if_sales_row in H as [-> H].
  exists festival, festival_date. auto.
Qed.

Lemma festival_performance_tabs_rows (raw : list SaleRecord)
      (holiday_df : list HolidayRow) (selected_years : list Z)
      (selected_center : string) (row : PerfRow) :
  In row (festival_performance_tabs raw holiday_df selected_years selected_center) ->
  exists sales festival festival_date center,
    row = center_aggregate sales festival festival_date center
    /\ (0 < total row)%Q.
Proof.
  unfold festival_performance_tabs. intros H.
  apply in_flat_map in H as (festival & _ & H).
  apply in_flat_map in H as (festival_date & _ & H).
  destruct (existsb _ selected_years); [|destruct H].
  apply in_flat_map in H as (a & Ha & H).
  apply append_if_sales_row in H as [-> H].
  unfold window_aggregates_tabs in Ha.
  destruct (negb (String.eqb selected_center All_Centers)).
  - destruct Ha as [<-|[]]. eauto 6.
  - apply in_map_iff in Ha as (center & <- & _). eauto 6.
Qed.

(** C2.  In every row of the performance table, of app.py and of
    dashboard_tabs.py, the average daily sales is the total of the window
    divided by 6, the 3 + 2 + 1 days of the window, whatever the number of
    days of the window on which something was sold. *)
Theorem average_daily_sales_is_total_over_six
        (S : SortValues) (raw : list SaleRecord)
        (leaves_data : list HolidayRow) (selected_years : list Z)
        (selected_center : string) :
  (6 = 3 + 2 + 1)%Q
  /\ (forall festival festival_date,
         Average_Daily_Sales
           (window_aggregate raw selected_center festival festival_date)
         = (column_sum sales_collected_inc_tax
              (window_data raw selected_center festival_date) / 6)%Q)
  /\ (forall festival festival_date,
         Forall (fun a => Average_Daily_Sales a = (total a / 6)%Q)
                (window_aggregates_tabs raw selected_center festival
                                        festival_date))
  /\ Forall (fun row => Average_Daily_Sales row = (total row / 6)%Q)
            (performance_df raw leaves_data selected_years selected_center)
  /\ Forall (fun row => Average_Daily_Sales row = (total row / 6)%Q)
            (performance_df_tabs raw leaves_data selected_years selected_center).
Proof.
  split; [reflexivity|]. split; [reflexivity|]. split; [|split].
  - intros festival festival_date. unfold window_aggregates_tabs.
    destruct (negb (String.eqb selected_center All_Centers)).
    + repeat constructor.
    + apply Forall_forall. intros a Ha.
      apply in_map_iff in Ha as (c & <- & _). reflexivity.
  - unfold performance_df.
    apply (Permutation_Forall (sort_values_permutes _)).
    apply Forall_forall. intros row Hrow.
    apply festival_performance_rows in Hrow as (f & d & -> & _). reflexivity.
  - unfold performance_df_tabs.
    apply (Permutation_Forall (sort_values_permutes _)).
    apply Forall_forall. intros row Hrow.
    apply festival_performance_tabs_rows in Hrow as (s & f & d & c & -> & _).
    reflexivity.
Qed.

(** Three sales on Diwali 2023 (100, 200 and 0): the window has one
    trading day, its total is 300 and its daily average 300 / 6 = 50; the
    window of Diwali 2024, without sales, is not reported. *)
Example diwali_window_average :
  map (fun a => (p_Year a, Qred (total a), Qred (Average_Daily_Sales a)))
      (festival_performance diwali_sales
         [mkHolidayRow "October" diwali_2023_ts "Diwali" 300 2023 None;
          mkHolidayRow "October" 1729728000000000000 "Diwali" 0 2024 None]
         [2023; 2024] "All Centers")
  = [(2023, 300%Q, 50%Q)].
Proof. vm_compute. reflexivity. Qed.

End WindowSpec.

(** ** Holiday occurrences and their per-center breakdown *)

Module OccurrenceSpec.

Import Calendar Frame HolidayEngine CalendarFacts FrameFacts Samples.
#[local] Open Scope string_scope.

Lemma date_is_spec (c : option Timestamp) (n : Z) :
  date_is c (n * NS_PER_DAY) = true <-> exists t, c = Some t /\ ts_date t = n.
Proof.
  unfold date_is. destruct c as [t|].
  - rewrite ts_date_midnight, Z.eqb_eq. split.
    + intros H. eauto.
    + intros (t' & [= <-] & H). exact H.
  - split; [discriminate | intros (t & [=] & _)].
Qed.

Lemma festival_year_rows_year (col : numeric_col) (raw : list SaleRecord)
      (festival : LeaveRow) (year : Z) :
  Forall (fun h => h_Year h = year) (festival_year_rows col raw festival year).
Proof.
  unfold festival_year_rows.
  destruct (Timestamp_ymd year _ _) as [d|]; [|constructor].
  destruct (date_sales_of raw d); constructor; [reflexivity|].
  apply Forall_forall. intros h Hh.
  apply in_map_iff in Hh as (c & <- & _). reflexivity.
Qed.

Lemma instantiate_years (col : numeric_col) (raw : list SaleRecord)
      (festival : LeaveRow) (years : list Z) :
  Forall (fun y => In y years) (map h_Year (instantiate col raw festival years)).
Proof.
  apply Forall_forall. intros y Hy.
  apply in_map_iff in Hy as (h & <- & Hh).
  apply in_flat_map in Hh as (y & Hy & Hh).
  pose proof (festival_year_rows_year col raw festival y) as F.
  rewrite Forall_forall in F. now rewrite (F h Hh).
Qed.

Lemma StronglySorted_block (y : Z) (l1 l2 : list Z) :
  Forall (eq y) l1 -> Forall (Z.le y) l2 -> StronglySorted Z.le l2 ->
  StronglySorted Z.le (l1 ++ l2).
Proof.
  induction 1 as [|x l1 <- Hl IH]; intros H2 S2; [exact S2|].
  cbn. constructor; [now apply IH|].
  apply Forall_app. split; [|exact H2].
  eapply Forall_impl; [|exact Hl]. intros z <-. lia.
Qed.

Lemma instantiate_ascending (col : numeric_col) (raw : list SaleRecord)
      (festival : LeaveRow) (years : list Z) :
  StronglySorted Z.le years ->
  StronglySorted Z.le (map h_Year (instantiate col raw festival years)).
Proof.
  induction 1 as [|y years Hs IH Hy]; [constructor|].
  unfold instantiate. cbn [flat_map]. rewrite map_app.
  apply StronglySorted_block with (y := y).
  - pose proof (festival_year_rows_year col raw festival y) as F.
    apply Forall_forall. intros z Hz.
    apply in_map_iff in Hz as (h & <- & Hh).
    rewrite Forall_forall in F. now rewrite (F h Hh).
  - pose proof (instantiate_years col raw festival years) as F.
    rewrite Forall_forall in F, Hy |- *. intros z Hz. apply Hy, F, Hz.
  - exact IH.
Qed.

Lemma available_years_ascending (raw : list SaleRecord) :
  StronglySorted Z.le (available_years raw).
Proof.
  unfold available_years, sorted.
  assert (T : Transitive (fun x y : Z => is_true (Z.leb x y))).
  { intros x y z Hxy Hyz. apply Z.leb_le in Hxy, Hyz. apply Z.leb_le. lia. }
  pose proof (ZSort.StronglySorted_sort (unique Z.eqb (dt_year raw)) T) as H.
  induction H as [|x l _ IH Hx]; constructor; [exact IH|].
  eapply Forall_impl; [|exact Hx]. intros z Hz. now apply Z.leb_le.
Qed.

(** C1, as the specification words it, fails: 1 January is a valid day of
    2023 and 2023 is an observed year, but nothing was sold on that day
    and the holiday has no occurrence in 2023. *)
Lemma no_occurrence_without_sales_on_the_day :
  available_years june_sales = [2023]
  /\ valid_ymd 2023 (leave_month new_year) (leave_day new_year) = true
  /\ instantiate sales_collected_inc_tax june_sales new_year
                 (available_years june_sales) = []
  /\ all_years_data june_sales [new_year] = []
  /\ all_holiday_data june_sales [new_year] = [].
Proof. repeat split; reflexivity. Qed.

(** C1 (amended).  [instantiate] visits the years in their order, so with
    ascending years the rows come in ascending order of year.  A year
    contributes rows exactly when the date exists in that year and some
    record was sold on that date; its rows are then one row for all
    centers, carrying the year, the date at midnight and the total of the
    day, followed by one row per distinct center of the day's sales.
    Otherwise the year is passed over without an error; in particular a
    29 February contributes nothing in a year that is not a leap year. *)
Theorem instantiate_rows_per_year
        (col : numeric_col) (raw : list SaleRecord) (festival : LeaveRow)
        (years : list Z) :
  let m := leave_month festival in
  let d := leave_day festival in
  (StronglySorted Z.le years ->
   StronglySorted Z.le (map h_Year (instantiate col raw festival years)))
  /\ StronglySorted Z.le
       (map h_Year (instantiate col raw festival (available_years raw)))
  /\ (forall h, In h (instantiate col raw festival years) <->
                exists year, In year years
                             /\ In h (festival_year_rows col raw festival year))
  /\ (forall year,
         festival_year_rows col raw festival year <> [] <->
         valid_ymd year m d = true
         /\ exists r t, In r raw /\ sale_date r = Some t
                        /\ ts_date t = days_from_civil year m d)
  /\ (forall year,
         festival_year_rows col raw festival year <> [] ->
         exists all_centers per_center,
           festival_year_rows col raw festival year = all_centers :: per_center
           /\ h_Center all_centers = None
           /\ h_Year all_centers = year
           /\ Timestamp_ymd year m d = Some (h_Date all_centers)
           /\ h_MTD_Sale all_centers
              = column_sum col (date_sales_of raw (h_Date all_centers))
           /\ map h_Center per_center
              = unique label_same
                  (map center_name (date_sales_of raw (h_Date all_centers))))
  /\ (forall year,
         m = 2 -> d = 29 -> is_leap year = false ->
         festival_year_rows col raw festival year = []).
Proof.
  intros m d.
  split; [apply instantiate_ascending|].
  split; [apply instantiate_ascending, available_years_ascending|].
  split.
  { intros h. unfold instantiate. rewrite in_flat_map. reflexivity. }
  split; [|split].
  - intros year. unfold festival_year_rows. fold m d.
    unfold Timestamp_ymd. destruct (valid_ymd year m d); cbn iota.
    + set (n := days_from_civil year m d).
      destruct (date_sales_of raw (n * NS_PER_DAY)) as [|r rs] eqn:E.
      * split; [congruence|]. intros (_ & r & t & Hr & Ht & Hn). exfalso.
        assert (Hin : In r (date_sales_of raw (n * NS_PER_DAY))).
        { apply filter_In. split; [exact Hr|]. apply date_is_spec. eauto. }
        rewrite E in Hin. destruct Hin.
      * split; [|discriminate]. intros _. split; [reflexivity|].
        assert (Hin : In r (date_sales_of raw (n * NS_PER_DAY)))
          by (rewrite E; now left).
        apply filter_In in Hin as [Hr Hd].
        apply date_is_spec in Hd as (t & Ht & Hn). eauto.
    + split; [congruence|]. intros [[=] _].
  - intros year. unfold festival_year_rows. fold m d.
    destruct (Timestamp_ymd year m d) as [fd|]; [|congruence].
    destruct (date_sales_of raw fd) as [|r rs] eqn:E; [congruence|].
    intros _. eexists. eexists. split; [reflexivity|].
    cbn [h_Center h_Year h_Date h_MTD_Sale]. rewrite !E.
    repeat split. rewrite map_map. cbn [h_Center]. now rewrite map_id.
  - intros year Hm Hd Hleap. unfold festival_year_rows. fold m d.
    rewrite Hm, Hd. unfold Timestamp_ymd. now rewrite valid_feb29, Hleap.
Qed.

(** The fallback calendar of dashboard_tabs.py has no sales gate: each of
    its holidays, none of which is a 29 February, gets exactly one date
    per year, in the order of the years. *)
Lemma fallback_calendar_one_date_per_year (available_years : list Z) :
  temp_data available_years
  = flat_map (fun holiday =>
                map (fun year =>
                       (days_from_civil year (leave_month holiday)
                                        (leave_day holiday) * NS_PER_DAY,
                        leave_Festivals holiday))
                    available_years)
             basic_holidays.
Proof.
  unfold temp_data, basic_holidays. cbn [flat_map leave_month leave_day].
  repeat (f_equal;
          [induction available_years as [|y ys IH]; [reflexivity|];
           cbn [flat_map map]; rewrite IH; reflexivity|]).
  reflexivity.
Qed.

(** A leap-day holiday over 2023 and 2024, with sales on 29 February
    2024: one block of rows, for 2024. *)
Example leap_day_only_in_leap_years :
  map (fun h => (h_Year h, h_Center h))
      (instantiate sales_collected_inc_tax leap_day_sales leap_day [2023; 2024])
  = [(2024, None); (2024, Some "ADYAR")].
Proof. reflexivity. Qed.

(** Rows selected by two tests that exclude one another. *)
Lemma filter_either {A : Type} (p q : A -> bool) (l : list A) :
  (forall x, In x l -> p x = true -> q x = false) ->
  Permutation (filter (fun x => p x || q x) l) (filter p l ++ filter q l).
Proof.
  induction l as [|x l IH]; intros Hpq; [constructor|].
  assert (IH' : Permutation (filter (fun x => p x || q x) l)
                            (filter p l ++ filter q l)).
  { apply IH. intros y Hy. apply Hpq. now right. }
  cbn [filter]. destruct (p x) eqn:Ep; cbn [orb].
  - rewrite (Hpq x (or_introl eq_refl) Ep). cbn [app]. now constructor.
  - destruct (q x); [|exact IH'].
    now apply Permutation_cons_app.
Qed.

(** The selections [center_name == center], over labels that are all
    different, hold each row that has one of the labels once. *)
Lemma selections_partition (centers : list (option string))
      (df : list SaleRecord) :
  NoDup centers ->
  Permutation
    (filter (fun r => notna_label (center_name r)
                      && existsb (label_same (center_name r)) centers) df)
    (flat_map (fun center =>
                 filter (fun r => label_eq (center_name r) center) df)
              centers).
Proof.
  induction 1 as [|c centers Hc _ IH]; cbn [flat_map existsb].
  - induction df as [|r df IHdf]; [constructor|].
    cbn [filter]. now rewrite andb_false_r.
  - rewrite <- IH.
    rewrite (filter_ext
               (fun r => notna_label (center_name r)
                         && (label_same (center_name r) c
                             || existsb (label_same (center_name r)) centers))
               (fun r => label_eq (center_name r) c
                         || (notna_label (center_name r)
                             && existsb (label_same (center_name r)) centers))).
    2:{ intros r. destruct (center_name r) as [x|], c as [y|]; reflexivity. }
    apply filter_either. intros r _ Heq.
    destruct (center_name r) as [x|] eqn:Ex; [|discriminate].
    destruct c as [y|]; [|discriminate]. cbn [label_eq] in Heq.
    apply String.eqb_eq in Heq. subst y. cbn [notna_label andb].
    destruct (existsb (label_same (Some x)) centers) eqn:E; [|reflexivity].
    apply existsb_exists in E as (c' & Hin & Hc').
    apply label_same_eq in Hc'. subst c'. contradiction.
Qed.

(** The per-center selections of a table hold each of its rows that has
    a center once. *)
Lemma centers_partition (df : list SaleRecord) :
  Permutation
    (filter (fun r => notna_label (center_name r)) df)
    (flat_map (fun center =>
                 filter (fun r => label_eq (center_name r) center) df)
              (unique label_same (map center_name df))).
Proof.
  rewrite <- selections_partition by apply unique_NoDup, label_same_eq.
  erewrite filter_ext_in; [reflexivity|].
  intros r Hr. cbn beta.
  assert (E : existsb (label_same (center_name r))
                      (unique label_same (map center_name df)) = true).
  { apply existsb_exists. exists (center_name r). split.
    - apply unique_complete; [apply label_same_eq | now apply in_map].
    - now apply label_same_eq. }
  rewrite E. now rewrite andb_true_r.
Qed.

#[local] Open Scope float_scope.

(** C5, as the specification words it, fails.  Three sales of a day,
    1200.10 by T NAGAR, 300.30 and 100.10 by ADYAR: pandas adds the
    amounts of the day in the order of the rows and the amounts of a
    center in theirs, each addition rounded in the type of the column.
    On a float64 column the total of the day is 1600.4999999999998 and
    the totals of the centers are 1200.1 and 400.4; on a float32 column
    they are 1600.4998779296875, and 1200.0999755859375 and
    400.399993896484375.  In either type the totals of the centers do not
    add up to the total of the day, neither as numbers nor added in the
    type of the column, which gives 1600.5. *)
Lemma per_center_totals_differ_by_rounding :
  unique label_same (map fst FloatColumn.day_of_two_centers)
  = [Some "T NAGAR"%string; Some "ADYAR"%string]
  /\ forall d : FloatColumn.dtype,
     exists total t_nagar adyar,
       FloatColumn.total_sales d FloatColumn.day_of_two_centers = Some total
       /\ FloatColumn.center_sales d FloatColumn.day_of_two_centers
                                   (Some "T NAGAR"%string) = Some t_nagar
       /\ FloatColumn.center_sales d FloatColumn.day_of_two_centers
                                   (Some "ADYAR"%string) = Some adyar
       /\ (total, t_nagar, adyar)
          = match d with
            | FloatColumn.float64 =>
                (FloatColumn.cell d 1600.4999999999998,
                 FloatColumn.cell d 1200.1,
                 FloatColumn.cell d 400.4)
            | FloatColumn.float32 =>
                (FloatColumn.cell d 1600.4998779296875,
                 FloatColumn.cell d 1200.0999755859375,
                 FloatColumn.cell d 400.399993896484375)
            end
       /\ FloatColumn.add d t_nagar adyar = FloatColumn.cell d 1600.5
       /\ SFeqb (FloatColumn.add d t_nagar adyar) total = false
       /\ Qeq_bool (FloatColumn.value t_nagar + FloatColumn.value adyar)
                   (FloatColumn.value total) = false.
Proof.
  split; [reflexivity|].
  intros [|]; do 3 eexists; repeat split; vm_compute; reflexivity.
Qed.

#[local] Close Scope float_scope.

(** C5 (amended).  For the rows that one holiday and one year produce,
    there is one per-center row for each distinct center of the day's
    records, none twice; the total of the row for all centers is the sum
    over the records of the day and the total of a per-center row the sum
    over the records of its center; and the records of the centers are
    the records of the day that have a center, each once: no record is
    counted for two centers and none is left out.  When every record of
    the day has a center, they are all the records of the day. *)
Theorem per_center_rows_partition_the_day
        (col : numeric_col) (raw : list SaleRecord) (festival : LeaveRow)
        (year : Z) (all_centers : HolidayRow) (per_center : list HolidayRow) :
  festival_year_rows col raw festival year = all_centers :: per_center ->
  let date_sales := date_sales_of raw (h_Date all_centers) in
  let of_center := fun center =>
    filter (fun r => label_eq (center_name r) center) date_sales in
  h_MTD_Sale all_centers = column_sum col date_sales
  /\ map h_Center per_center = unique label_same (map center_name date_sales)
  /\ NoDup (map h_Center per_center)
  /\ map h_MTD_Sale per_center
     = map (fun h => column_sum col (of_center (h_Center h))) per_center
  /\ Permutation (filter (fun r => notna_label (center_name r)) date_sales)
                 (flat_map (fun h => of_center (h_Center h)) per_center)
  /\ (Forall (fun r => notna_label (center_name r) = true) date_sales ->
      Permutation date_sales
                  (flat_map (fun h => of_center (h_Center h)) per_center)).
Proof.
  unfold festival_year_rows.
  destruct (Timestamp_ymd year _ _) as [fd|]; [|discriminate].
  destruct (date_sales_of raw fd) as [|r rs] eqn:E; [discriminate|].
  set (date_sales := r :: rs).
  set (centers := unique label_same (map center_name date_sales)).
  set (rows := map _ centers).
  intros [= <- <-]. cbn [h_Date h_MTD_Sale]. rewrite E. cbn zeta.
  fold date_sales.
  assert (Ec : map h_Center rows = centers).
  { subst rows. rewrite map_map. cbn [h_Center]. apply map_id. }
  assert (Ep : Permutation
                 (filter (fun r => notna_label (center_name r)) date_sales)
                 (flat_map
                    (fun h => filter (fun r => label_eq (center_name r)
                                                        (h_Center h))
                                     date_sales)
                    rows)).
  { subst rows. rewrite flat_map_concat_map, map_map. cbn [h_Center].
    rewrite <- flat_map_concat_map. apply centers_partition. }
  split; [reflexivity|]. split; [exact Ec|].
  split; [rewrite Ec; apply unique_NoDup, label_same_eq|].
  split.
  { subst rows. rewrite !map_map. reflexivity. }
  split; [exact Ep|].
  intros Hall. rewrite <- Ep.
  erewrite filter_ext_in; [rewrite filter_all; reflexivity|].
  intros x Hx. rewrite Forall_forall in Hall. now apply Hall.
Qed.

Lemma per_center_rows_partition_the_day_witness :
  let rows := festival_year_rows sales_collected_inc_tax
                                 FloatColumn.diwali_of_two_centers diwali 2023 in
  let all_centers := hd no_row rows in
  let per_center := tl rows in
  let date_sales :=
    date_sales_of FloatColumn.diwali_of_two_centers (h_Date all_centers) in
  let of_center := fun center =>
    filter (fun r => label_eq (center_name r) center) date_sales in
  h_MTD_Sale all_centers = column_sum sales_collected_inc_tax date_sales
  /\ map h_Center per_center = unique label_same (map center_name date_sales)
  /\ NoDup (map h_Center per_center)
  /\ map h_MTD_Sale per_center
     = map (fun h => column_sum sales_collected_inc_tax
                                (of_center (h_Center h))) per_center
  /\ Permutation (filter (fun r => notna_label (center_name r)) date_sales)
                 (flat_map (fun h => of_center (h_Center h)) per_center)
  /\ (Forall (fun r => notna_label (center_name r) = true) date_sales ->
      Permutation date_sales
                  (flat_map (fun h => of_center (h_Center h)) per_center)).
Proof.
  apply (per_center_rows_partition_the_day
           sales_collected_inc_tax FloatColumn.diwali_of_two_centers
           diwali 2023).
  vm_compute. reflexivity.
Defined.

End OccurrenceSpec.

(** ** app.py against dashboard_tabs.py *)

Module TabsSpec.

Import Calendar Frame HolidayEngine CalendarFacts FrameFacts Samples.
#[local] Open Scope string_scope.

#[local] Abbreviation total := Total_Window_Sales.




End TabsSpec.

(** ** The Growth Comparator *)

Module GrowthSpec.

Import GrowthComparator.
#[local] Open Scope float_scope.

(** The binary64 results behind the two properties. *)
Example growth_of_150_over_100 : yoyGrowth [100; 150] = [50].
Proof. reflexivity. Qed.

Example growth_over_three_years :
  yoyGrowth [100; 150; 75] = [50; -50].
Proof. reflexivity. Qed.

Example one_year_has_no_growth : yoyGrowth [100] = [].
Proof. reflexivity. Qed.

Example one_plus_a_tenth : 1 + 0.10 = 1.10.
Proof. reflexivity. Qed.

(** C6, as the specification words it, fails: with a prior-year value of
    0 the growth is an infinity (150 after 0) or NaN (0 after 0), also in
    the middle of a longer series; the list that [yoyGrowth] returns has
    no marker for "undefined". *)
Lemma zero_prior_year_gives_infinity_or_nan :
  yoyGrowth [0; 150] = [infinity]
  /\ yoyGrowth [0; 0] = [nan]
  /\ yoyGrowth [50; 0; 150] = [-100; infinity]
  /\ map is_inf_or_nan (yoyGrowth [50; 0; 150]) = [false; true].
Proof. repeat split; reflexivity. Qed.

Lemma yoy_growth_class (current prev : float) :
  Prim2SF (yoy_growth current prev)
  = SF64mul (SF64sub (SF64div (Prim2SF current) (Prim2SF prev)) (Prim2SF 1))
            (Prim2SF 100).
Proof.
  unfold yoy_growth. now rewrite mul_spec, sub_spec, div_spec.
Qed.

Lemma yoy_growth_zero_prior (current prev : float) :
  is_zero_value prev = true -> is_inf_or_nan (yoy_growth current prev) = true.
Proof.
  unfold is_zero_value, is_inf_or_nan. rewrite yoy_growth_class.
  destruct (Prim2SF prev) as [s| | |]; try discriminate. intros _.
  destruct (Prim2SF current) as [sc|sc| |sc mc ec];
    destruct s; try destruct sc; reflexivity.
Qed.

Lemma rint_not_finite (x : float) :
  is_inf_or_nan x = true -> rint x = x.
Proof.
  unfold is_inf_or_nan, rint. rewrite ltb_spec, abs_spec.
  destruct (Prim2SF x) as [s|s| |s m e]; try discriminate; reflexivity.
Qed.

Lemma round_2_not_finite (x : float) :
  is_inf_or_nan x = true -> is_inf_or_nan (round_2 x) = true.
Proof.
  intros Hx. unfold round_2.
  assert (H100 : is_inf_or_nan (x * 100) = true).
  { unfold is_inf_or_nan in *. rewrite mul_spec.
    destruct (Prim2SF x) as [s|s| |s m e]; try discriminate;
      try destruct s; reflexivity. }
  rewrite (rint_not_finite _ H100).
  unfold is_inf_or_nan in *. rewrite div_spec.
  destruct (Prim2SF (x * 100)) as [s|s| |s m e]; try discriminate;
    try destruct s; reflexivity.
Qed.

(** X22.  The growth columns of the center table of tab4 are rounded to
    two decimals after the division; the rounding keeps what a
    prior-year value of 0 produced: the cell is an infinity or NaN. *)
Lemma center_growth_zero_prior (current prev : float) :
  is_zero_value prev = true -> is_inf_or_nan (center_growth current prev) = true.
Proof.
  intros Hzero. unfold center_growth.
  now apply round_2_not_finite, yoy_growth_zero_prior.
Qed.

Example center_growth_values :
  map (fun '(current, prev) => center_growth current prev)
      [(150, 100); (100, 150); (150, 0); (0, 0)]
  = [50; -33.33; infinity; nan].
Proof. reflexivity. Qed.

Lemma yoyGrowth_at (before after : list float) (prev current : float) :
  nth_error (yoyGrowth (before ++ prev :: current :: after)) (List.length before)
  = Some (yoy_growth current prev).
Proof.
  induction before as [|x before IH]; [reflexivity|].
  cbn [app List.length]. destruct before as [|y before]; exact IH.
Qed.

(** C6 (amended).  [yoyGrowth] is total: it never raises.  For an
    adjacent pair of years whose prior value is 0 (of either sign) the
    growth it returns is an IEEE infinity or NaN, at the position of the
    pair; there is no marker for an undefined growth. *)
Theorem zero_prior_year_growth_is_not_finite
        (before after : list float) (prev current : float) :
  is_zero_value prev = true ->
  exists g,
    nth_error (yoyGrowth (before ++ prev :: current :: after)) (List.length before)
    = Some g
    /\ g = yoy_growth current prev
    /\ is_inf_or_nan g = true.
Proof.
  intros Hzero. exists (yoy_growth current prev).
  split; [apply yoyGrowth_at|]. split; [reflexivity|].
  now apply yoy_growth_zero_prior.
Qed.

Lemma zero_prior_year_growth_is_not_finite_witness :
  exists g,
    nth_error (yoyGrowth ([50] ++ 0 :: 150 :: [75])) (List.length [50]) = Some g
    /\ g = yoy_growth 150 0
    /\ is_inf_or_nan g = true.
Proof.
  apply (zero_prior_year_growth_is_not_finite [50] [75] 0 150).
  reflexivity.
Defined.

(** C7, as the specification words it, fails on its example where the
    column is float64: the binary64 product of 100 and 1.10 is
    110.00000000000001, the value next above 110. *)
Lemma projection_of_100_in_a_float64_column :
  FloatColumn.project FloatColumn.float64 (FloatColumn.cell FloatColumn.float64 100)
  = FloatColumn.cell FloatColumn.float64 110.00000000000001
  /\ SFeqb (FloatColumn.project FloatColumn.float64
                                (FloatColumn.cell FloatColumn.float64 100))
           (FloatColumn.cell FloatColumn.float64 110) = false
  /\ SFltb (FloatColumn.cell FloatColumn.float64 110)
           (FloatColumn.project FloatColumn.float64
                                (FloatColumn.cell FloatColumn.float64 100))
     = true
  /\ Prim2SF (next_up 110)
     = FloatColumn.project FloatColumn.float64
                           (FloatColumn.cell FloatColumn.float64 100)
  /\ Prim2SF (project 100)
     = FloatColumn.project FloatColumn.float64
                           (FloatColumn.cell FloatColumn.float64 100).
Proof. repeat split; vm_compute; reflexivity. Qed.

Lemma factor_in_float64 :
  FloatColumn.cell FloatColumn.float64 1.10 = Prim2SF 1.10.
Proof. vm_compute. reflexivity. Qed.

(** C7 (amended).  [project] returns the product of the latest value
    and 1.10, which is also the Python float 1 + 0.10, computed and
    rounded in the float type of the column.  On a float32 column, what
    the downcast of app.py leaves when the amounts fit, the projection of
    100 is exactly 110; on a float64 column it is 110.00000000000001,
    the binary64 value next above 110. *)
Theorem project_is_the_product_in_the_type_of_the_column
        (d : FloatColumn.dtype) (latestValue : spec_float) :
  FloatColumn.project d latestValue
  = FloatColumn.mul d latestValue (FloatColumn.cell d (1 + 0.10))
  /\ (forall x : float,
         Prim2SF (project x)
         = FloatColumn.project FloatColumn.float64 (Prim2SF x))
  /\ FloatColumn.project FloatColumn.float32
                         (FloatColumn.cell FloatColumn.float32 100)
     = FloatColumn.cell FloatColumn.float32 110
  /\ (FloatColumn.value (FloatColumn.cell FloatColumn.float32 110) == 110)%Q
  /\ FloatColumn.project FloatColumn.float64
                         (FloatColumn.cell FloatColumn.float64 100)
     = FloatColumn.cell FloatColumn.float64 110.00000000000001
  /\ (110 < FloatColumn.value
              (FloatColumn.cell FloatColumn.float64 110.00000000000001))%Q.
Proof.
  split; [reflexivity|]. split.
  { intros x. unfold project, FloatColumn.project, FloatColumn.mul.
    rewrite mul_spec. now rewrite factor_in_float64. }
  repeat split; vm_compute; reflexivity.
Qed.

End GrowthSpec.

(* ================================================================== *)
(** ** Display formats *)
(* ================================================================== *)

(** *** The comma loop of [format_with_indian_commas], on strings *)

Module IndianCommasFacts.

Import Frame Formatting.
#[local] Open Scope nat_scope.

Lemma fold_loop_body (rest : list ascii) (l : list nat) (acc : list ascii) :
  fold_left (loop_body rest) l acc = List.concat (map (piece rest) (rev l)) ++ acc.
Proof.
  revert acc. induction l as [|i l IH]; intros acc; [reflexivity|].
  cbn [fold_left rev]. rewrite IH, map_app, concat_app. cbn [map List.concat].
  rewrite app_nil_r, <- app_assoc. f_equal.
  unfold loop_body, piece. destruct (i =? 0); reflexivity.
Qed.

Lemma range_down_by_2_lt (n i : nat) : In i (range_down_by_2 n) -> i < n.
Proof.
  revert i. induction n as [n IH] using lt_wf_ind. intros i.
  destruct n as [|[|n]]; cbn [range_down_by_2 In].
  - tauto.
  - intros [<-|[]]. lia.
  - intros [<-|H]; [lia|]. apply IH in H; lia.
Qed.

Lemma piece_prefix (p x : list ascii) (i : nat) :
  i < List.length p -> piece (p ++ x) i = piece p i.
Proof.
  intros Hi. unfold piece. destruct (i =? 0) eqn:E.
  - apply Nat.eqb_eq in E. subst i.
    destruct p; [cbn in Hi; lia | reflexivity].
  - apply Nat.eqb_neq in E. f_equal.
    rewrite Nat.max_0_r, skipn_app.
    replace (i - 1 - List.length p) with 0 by lia. cbn [skipn].
    rewrite firstn_app.
    assert (L : List.length (skipn (i - 1) p) = List.length p - (i - 1))
      by apply length_skipn.
    replace (2 - List.length (skipn (i - 1) p)) with 0 by lia.
    cbn [firstn]. apply app_nil_r.
Qed.

Lemma formatted_rest_pair (p : list ascii) (a b : ascii) :
  formatted_rest_of (p ++ [a; b]) = formatted_rest_of p ++ comma :: [a; b].
Proof.
  unfold formatted_rest_of. rewrite !fold_loop_body, !app_nil_r.
  rewrite length_app. cbn [List.length].
  replace (List.length p + 2) with (S (S (List.length p))) by lia.
  cbn [range_down_by_2 rev]. rewrite map_app, concat_app. cbn [map List.concat].
  rewrite app_nil_r. f_equal.
  - f_equal. apply map_ext_in. intros i Hi. apply piece_prefix.
    apply in_rev in Hi. now apply range_down_by_2_lt.
  - unfold piece. cbn [Nat.eqb]. f_equal.
    replace (Nat.max (S (List.length p) - 1) 0) with (List.length p + 0) by lia.
    rewrite skipn_app, skipn_all2 by lia.
    replace (List.length p + 0 - List.length p) with 0 by lia. reflexivity.
Qed.

Lemma pairs_from_the_right (P : list ascii -> Prop) :
  P [] -> (forall a, P [a]) -> (forall p a b, P p -> P (p ++ [a; b])) ->
  forall l, P l.
Proof.
  intros H0 H1 H2 l.
  remember (List.length l) as n eqn:En. revert l En.
  induction n as [n IH] using lt_wf_ind. intros l En.
  destruct l as [|a l]; [exact H0|].
  destruct l as [|b l]; [apply H1|].
  destruct (exists_last (l := a :: b :: l)) as (q & y & Eq); [discriminate|].
  destruct q as [|c q]; [discriminate|].
  destruct (exists_last (l := c :: q)) as (p & x & Ep); [discriminate|].
  rewrite Eq, Ep, <- app_assoc. cbn [app]. apply H2.
  apply (IH (List.length p)); [|reflexivity].
  rewrite En, Eq, Ep, !length_app. cbn. lia.
Qed.

Lemma remove_commas_none (s : list ascii) :
  Forall (fun c => c <> comma) s -> remove_commas s = s.
Proof.
  induction 1 as [|c s Hc _ IH]; [reflexivity|].
  unfold remove_commas in *. cbn [filter].
  apply Ascii.eqb_neq in Hc. rewrite Hc. cbn [negb]. now rewrite IH.
Qed.

Lemma remove_commas_app (s t : list ascii) :
  remove_commas (s ++ t) = remove_commas s ++ remove_commas t.
Proof. apply filter_app. Qed.

Lemma formatted_rest_digits (rest : list ascii) :
  Forall (fun c => c <> comma) rest ->
  remove_commas (formatted_rest_of rest) = rest.
Proof.
  induction rest as [|a|p a b IH] using pairs_from_the_right; intros H.
  - reflexivity.
  - now apply remove_commas_none.
  - apply Forall_app in H as [Hp Hab].
    rewrite formatted_rest_pair, remove_commas_app, IH by exact Hp.
    f_equal. change (comma :: [a; b]) with ([comma] ++ [a; b]).
    rewrite remove_commas_app, (remove_commas_none [a; b]) by exact Hab.
    unfold remove_commas. cbn [filter]. now rewrite Ascii.eqb_refl.
Qed.

Lemma strip_leading_comma_digits (r : list ascii) :
  remove_commas (match r with
                 | c :: r' => if Ascii.eqb c comma then r' else r
                 | [] => r
                 end) = remove_commas r.
Proof.
  destruct r as [|c r]; [reflexivity|].
  destruct (Ascii.eqb c comma) eqn:E; [|reflexivity].
  unfold remove_commas. cbn [filter]. now rewrite E.
Qed.

Lemma indian_commas_keeps_the_digits (s : list ascii) :
  Forall (fun c => c <> comma) s ->
  remove_commas (indian_commas s) = s.
Proof.
  intros H. unfold indian_commas.
  destruct (3 <? List.length s) eqn:E; [|now apply remove_commas_none].
  fold (formatted_rest_of (firstn (List.length s - 3) s)).
  rewrite strip_leading_comma_digits.
  rewrite <- (firstn_skipn (List.length s - 3) s) in H.
  apply Forall_app in H as [Hrest Hlast].
  assert (Hr : remove_commas
                 (formatted_rest_of (firstn (List.length s - 3) s)
                  ++ comma :: skipn (List.length s - 3) s) = s).
  { change (comma :: skipn (List.length s - 3) s)
      with ([comma] ++ skipn (List.length s - 3) s).
    rewrite !remove_commas_app, formatted_rest_digits by exact Hrest.
    rewrite (remove_commas_none (skipn _ s)) by exact Hlast.
    unfold remove_commas at 1. cbn [filter]. rewrite Ascii.eqb_refl.
    cbn [negb app]. apply firstn_skipn. }
  destruct (formatted_rest_of (firstn (List.length s - 3) s)) eqn:F;
    [|exact Hr].
  exfalso. apply Nat.ltb_lt in E.
  assert (L : List.length (firstn (List.length s - 3) s) = List.length s - 3)
    by (apply firstn_length_le; lia).
  pose proof (formatted_rest_digits _ Hrest) as D. rewrite F in D.
  cbn in D. rewrite <- D in L. cbn in L. lia.
Qed.

Lemma formatted_rest_shape (rest : list ascii) :
  exists head pairs,
    rest = head ++ List.concat pairs
    /\ Forall (fun g => List.length g = 2) pairs
    /\ List.length head = List.length rest mod 2
    /\ formatted_rest_of rest = head ++ flat_map (cons comma) pairs.
Proof.
  induction rest as [|a|p a b IH] using pairs_from_the_right.
  - exists [], []. repeat split; constructor.
  - exists [a], []. repeat split; constructor.
  - destruct IH as (head & pairs & Ep & Hp & Hl & Ef).
    exists head, (pairs ++ [[a; b]]). repeat split.
    + rewrite concat_app, app_assoc, <- Ep. reflexivity.
    + apply Forall_app. split; [exact Hp|]. repeat constructor.
    + rewrite Hl, length_app. cbn [List.length].
      replace (List.length p + 2) with (List.length p + 1 * 2) by lia.
      now rewrite Nat.Div0.mod_add.
    + rewrite formatted_rest_pair, Ef, flat_map_app, <- app_assoc.
      cbn [flat_map app]. reflexivity.
Qed.

Lemma indian_commas_groups (s : list ascii) :
  3 < List.length s ->
  Forall (fun c => c <> comma) s ->
  exists head pairs last3,
    s = head ++ List.concat pairs ++ last3
    /\ List.length head = 1 + List.length s mod 2
    /\ Forall (fun g => List.length g = 2) pairs
    /\ List.length last3 = 3
    /\ indian_commas s = head ++ flat_map (cons comma) pairs ++ comma :: last3.
Proof.
  intros Hlen Hs. unfold indian_commas.
  assert (E : (3 <? List.length s) = true) by now apply Nat.ltb_lt.
  rewrite E. fold (formatted_rest_of (firstn (List.length s - 3) s)).
  set (rest := firstn (List.length s - 3) s).
  set (last3 := skipn (List.length s - 3) s).
  assert (Es : s = rest ++ last3) by (symmetry; apply firstn_skipn).
  assert (Lr : List.length rest = List.length s - 3)
    by (apply firstn_length_le; lia).
  assert (Ll : List.length last3 = 3)
    by (unfold last3; rewrite length_skipn; lia).
  assert (Hmod : List.length s mod 2 = (List.length rest + 1) mod 2).
  { replace (List.length s) with (List.length rest + 1 + 1 * 2) by lia.
    now rewrite Nat.Div0.mod_add. }
  clearbody rest last3.
  destruct (formatted_rest_shape rest) as (head & pairs & Er & Hp & Hl & Ef).
  rewrite Ef.
  destruct head as [|c head].
  - (* an even number of characters before the last three *)
    cbn [List.length] in Hl.
    destruct pairs as [|g pairs].
    { cbn in Er. rewrite Er in Lr. cbn in Lr. lia. }
    cbn [app flat_map]. rewrite Ascii.eqb_refl.
    apply Forall_cons_iff in Hp as [Hg Hp'].
    exists g, pairs, last3. repeat split; try assumption.
    + rewrite Es, Er. cbn [app List.concat]. now rewrite <- !app_assoc.
    + rewrite Hg, Hmod.
      assert (Hodd : (List.length rest + 1) mod 2 = 1).
      { rewrite <- Nat.Div0.add_mod_idemp_l, <- Hl. reflexivity. }
      now rewrite Hodd.
    + now rewrite <- !app_assoc.
  - (* an odd number: the first character stands alone *)
    cbn [app].
    assert (Hc : c <> comma).
    { rewrite Es, Er in Hs. now inversion Hs. }
    apply Ascii.eqb_neq in Hc. rewrite Hc.
    assert (Hh : head = []).
    { cbn [List.length] in Hl.
      pose proof (Nat.mod_upper_bound (List.length rest) 2 ltac:(lia)).
      destruct head; [reflexivity | cbn [List.length] in Hl; lia]. }
    subst head. cbn [List.length] in Hl.
    exists [c], pairs, last3. repeat split; try assumption.
    + rewrite Es, Er. now rewrite <- app_assoc.
    + cbn [List.length]. rewrite Hmod.
      assert (Heven : (List.length rest + 1) mod 2 = 0).
      { rewrite <- Nat.Div0.add_mod_idemp_l, <- Hl. reflexivity. }
      now rewrite Heven.
Qed.

Lemma minus_sign_gets_a_comma (digits : list ascii) :
  3 <= List.length digits ->
  Nat.odd (List.length digits) = true ->
  Forall (fun c => c <> comma) digits ->
  exists t, indian_commas ("-"%char :: digits) = "-"%char :: comma :: t.
Proof.
  intros Hlen Hodd Hd.
  destruct (indian_commas_groups ("-"%char :: digits))
    as (head & pairs & last3 & Es & Hh & Hp & Hl & Eo).
  - cbn [List.length]. lia.
  - constructor; [discriminate | exact Hd].
  - cbn [List.length] in Hh.
    assert (Hm : S (List.length digits) mod 2 = 0).
    { rewrite <- Nat.add_1_r. apply Nat.odd_spec in Hodd as [k Hk].
      rewrite Hk. replace (2 * k + 1 + 1) with (0 + (k + 1) * 2) by lia.
      now rewrite Nat.Div0.mod_add. }
    rewrite Hm in Hh.
    destruct head as [|c [|? ?]]; try (cbn in Hh; lia).
    cbn [app] in Es. injection Es as <- _.
    rewrite Eo. cbn [app].
    destruct pairs as [|g pairs]; cbn [flat_map app]; eauto.
Qed.

End IndianCommasFacts.

(** *** [format_indian_money] and the growth cells, on floats *)

Module FormattingSpec.

Import Frame GrowthComparator Formatting IndianCommasFacts GrowthSpec.
#[local] Open Scope float_scope.

Lemma SFeqb_finite_refl (s : bool) (m : positive) (e : Z) :
  SFeqb (S754_finite s m e) (S754_finite s m e) = true.
Proof.
  unfold SFeqb, SFcompare. rewrite Z.compare_refl, Pos.compare_cont_refl.
  destruct s; reflexivity.
Qed.

(** The guard [pd.isna(amount) or amount == 0] holds for NaN and for the
    two zeros, and for nothing else. *)
Lemma zero_guard_class (amount : float) :
  (is_nan amount || (amount =? 0))
  = match Prim2SF amount with
    | S754_nan | S754_zero _ => true
    | _ => false
    end.
Proof.
  unfold is_nan. rewrite !eqb_spec. change (Prim2SF 0) with (S754_zero false).
  destruct (Prim2SF amount) as [s|s| |s m e].
  - reflexivity.
  - destruct s; reflexivity.
  - reflexivity.
  - rewrite SFeqb_finite_refl. destruct s; reflexivity.
Qed.

Lemma is_nan_class (value : float) :
  is_nan value = match Prim2SF value with S754_nan => true | _ => false end.
Proof.
  unfold is_nan. rewrite eqb_spec.
  destruct (Prim2SF value) as [s|s| |s m e]; try reflexivity.
  - destruct s; reflexivity.
  - now rewrite SFeqb_finite_refl.
Qed.

Lemma uint_chars_no_comma (d : Decimal.uint) :
  Forall (fun c => c <> comma)
         (list_ascii_of_string (DecimalString.NilEmpty.string_of_uint d)).
Proof.
  induction d; cbn [DecimalString.NilEmpty.string_of_uint list_ascii_of_string];
    constructor; try assumption; discriminate.
Qed.

Lemma str_of_Z_no_comma (n : Z) :
  Forall (fun c => c <> comma) (list_ascii_of_string (str_of_Z n)).
Proof.
  unfold str_of_Z.
  assert (U : forall d, Forall (fun c => c <> comma)
                (list_ascii_of_string (DecimalString.NilZero.string_of_uint d))).
  { intros d. destruct d; try apply uint_chars_no_comma.
    repeat constructor. discriminate. }
  destruct (Z.to_int n) as [d|d]; cbn [DecimalString.NilZero.string_of_int].
  - apply U.
  - cbn [list_ascii_of_string]. constructor; [discriminate | apply U].
Qed.

(** What [format_indian_money] returns in the full format, by the value
    that [int(round(amount))] has. *)
Lemma format_indian_money_full (amount : float) (n : Z) :
  int_round amount = Some n ->
  format_indian_money amount false
  = Some (String.append "₹"
            (string_of_list_ascii
               (if is_zero_value amount then list_ascii_of_string "0"
                else indian_commas (list_ascii_of_string (str_of_Z n))))).
Proof.
  unfold format_indian_money, format_with_indian_commas, int_round,
    is_zero_value.
  rewrite zero_guard_class.
  destruct (Prim2SF amount) as [s|s| |s m e]; try discriminate.
  - intros _. reflexivity.
  - intros [= <-]. reflexivity.
Qed.

Lemma int_round_of_zero (amount : float) (n : Z) :
  int_round amount = Some n -> is_zero_value amount = true -> n = 0%Z.
Proof.
  unfold int_round, is_zero_value.
  destruct (Prim2SF amount); try discriminate. now intros [= <-].
Qed.

(** X1.  In the full format, whenever [format_indian_money] returns, what
    follows the rupee sign is the decimal string of the amount rounded to
    an integer (half to even) with commas put in: taking the commas out
    gives [str(int(round(amount)))] back, sign included. *)
Theorem shown_digits_are_the_rounded_amount (amount : float) (n : Z) :
  int_round amount = Some n ->
  exists t,
    format_indian_money amount false
    = Some (String.append "₹" (string_of_list_ascii t))
    /\ remove_commas t = list_ascii_of_string (str_of_Z n).
Proof.
  intros Hn. rewrite (format_indian_money_full _ _ Hn).
  destruct (is_zero_value amount) eqn:Ez.
  - rewrite (int_round_of_zero _ _ Hn Ez).
    exists (list_ascii_of_string "0"). split; reflexivity.
  - exists (indian_commas (list_ascii_of_string (str_of_Z n))).
    split; [reflexivity|].
    apply indian_commas_keeps_the_digits, str_of_Z_no_comma.
Qed.

Lemma shown_digits_are_the_rounded_amount_witness :
  int_round 1234567.5 = Some 1234568%Z
  /\ exists t,
       format_indian_money 1234567.5 false
       = Some (String.append "₹" (string_of_list_ascii t))
       /\ remove_commas t = list_ascii_of_string (str_of_Z 1234568).
Proof.
  split; [reflexivity|].
  apply (shown_digits_are_the_rounded_amount 1234567.5 1234568). reflexivity.
Defined.

(** X2.  An amount whose rounded value has more than three characters is
    shown in the Indian grouping: the last three characters form one
    group, the characters before them are cut into pairs from the right,
    with one or two characters left at the front, and a comma stands
    between neighbouring groups and nowhere else. *)
Theorem amounts_are_grouped_three_then_twos (amount : float) (n : Z) :
  int_round amount = Some n ->
  (3 < List.length (list_ascii_of_string (str_of_Z n)))%nat ->
  exists head pairs last3,
    list_ascii_of_string (str_of_Z n) = head ++ List.concat pairs ++ last3
    /\ List.length head
       = (1 + List.length (list_ascii_of_string (str_of_Z n)) mod 2)%nat
    /\ Forall (fun g => List.length g = 2%nat) pairs
    /\ List.length last3 = 3%nat
    /\ format_indian_money amount false
       = Some (String.append "₹"
                 (string_of_list_ascii
                    (head ++ flat_map (cons comma) pairs ++ comma :: last3))).
Proof.
  intros Hn Hlen. rewrite (format_indian_money_full _ _ Hn).
  destruct (is_zero_value amount) eqn:Ez.
  { rewrite (int_round_of_zero _ _ Hn Ez) in Hlen. cbn in Hlen. lia. }
  destruct (indian_commas_groups _ Hlen (str_of_Z_no_comma n))
    as (head & pairs & last3 & Es & Hh & Hp & Hl & Eo).
  exists head, pairs, last3. rewrite Eo. now repeat split.
Qed.

Lemma amounts_are_grouped_three_then_twos_witness :
  exists head pairs last3,
    list_ascii_of_string (str_of_Z 1234568) = head ++ List.concat pairs ++ last3
    /\ List.length head
       = (1 + List.length (list_ascii_of_string (str_of_Z 1234568)) mod 2)%nat
    /\ Forall (fun g => List.length g = 2%nat) pairs
    /\ List.length last3 = 3%nat
    /\ format_indian_money 1234567.5 false
       = Some (String.append "₹"
                 (string_of_list_ascii
                    (head ++ flat_map (cons comma) pairs ++ comma :: last3))).
Proof.
  apply (amounts_are_grouped_three_then_twos 1234567.5 1234568).
  - reflexivity.
  - cbn. lia.
Defined.

(** X3.  The minus sign of a negative amount is grouped like a digit:
    when the rounded amount has an odd number of digits, three or more,
    the sign stands alone in front and a comma follows it directly, as in
    [-123] shown as "₹-,123". *)
Theorem negative_amount_gets_a_comma_after_the_sign
        (amount : float) (n : Z) (digits : list ascii) :
  int_round amount = Some n ->
  list_ascii_of_string (str_of_Z n) = "-"%char :: digits ->
  (3 <= List.length digits)%nat ->
  Nat.odd (List.length digits) = true ->
  exists t,
    format_indian_money amount false
    = Some (String.append "₹-," (string_of_list_ascii t)).
Proof.
  intros Hn Hs Hlen Hodd. rewrite (format_indian_money_full _ _ Hn).
  destruct (is_zero_value amount) eqn:Ez.
  { rewrite (int_round_of_zero _ _ Hn Ez) in Hs. discriminate. }
  pose proof (str_of_Z_no_comma n) as Hc. rewrite Hs in *.
  apply Forall_cons_iff in Hc as [_ Hc].
  destruct (minus_sign_gets_a_comma digits Hlen Hodd Hc) as [t Et].
  exists t. rewrite Et. reflexivity.
Qed.

Lemma negative_amount_gets_a_comma_after_the_sign_witness :
  format_indian_money (-123) false = Some "₹-,123"%string
  /\ exists t,
       format_indian_money (-123) false
       = Some (String.append "₹-," (string_of_list_ascii t)).
Proof.
  split; [reflexivity|].
  apply (negative_amount_gets_a_comma_after_the_sign
           (-123) (-123) (list_ascii_of_string "123")); reflexivity.
Defined.

(** X4.  In the full format [format_indian_money] raises for the two
    infinities and for no other amount; in the lakhs format it never
    raises.  NaN and both zeros are shown as "₹0" in either format. *)
Theorem format_indian_money_raises_on_infinity_only (amount : float) :
  (format_indian_money amount false = None
   <-> exists s, Prim2SF amount = S754_infinity s)
  /\ format_indian_money amount true <> None
  /\ (is_nan amount || is_zero_value amount = true ->
      forall lakhs, format_indian_money amount lakhs = Some "₹0"%string).
Proof.
  unfold format_indian_money, format_with_indian_commas, int_round,
    is_zero_value.
  rewrite zero_guard_class, is_nan_class.
  destruct (Prim2SF amount) as [s|s| |s m e]; cbn [orb option_map].
  - repeat split; try discriminate; try reflexivity.
    intros [s' H]. discriminate.
  - repeat split; try discriminate.
    exists s. reflexivity.
  - repeat split; try discriminate; try reflexivity.
    intros [s' H]. discriminate.
  - repeat split; try discriminate.
    intros [s' H]. discriminate.
Qed.

(** X5.  With a prior-year value of 0 the growth cell of the tables reads
    "inf%", "-inf%" or "nan%": the format [.2f] prints the infinity or
    NaN of the division, it does not raise and shows no number. *)
Theorem zero_prior_growth_cell (current prev : float) :
  is_zero_value prev = true ->
  In (growth_cell current prev) ["inf%"; "-inf%"; "nan%"]%string.
Proof.
  intros Hz. apply (yoy_growth_zero_prior current) in Hz.
  unfold growth_cell, format_2f. unfold is_inf_or_nan in Hz.
  destruct (Prim2SF (yoy_growth current prev)) as [s|s| |s m e];
    try discriminate.
  - destruct s; cbn; auto.
  - cbn; auto.
Qed.

Lemma zero_prior_growth_cell_witness :
  growth_cell 150 0 = "inf%"%string
  /\ In (growth_cell 150 0) ["inf%"; "-inf%"; "nan%"]%string.
Proof.
  split; [reflexivity|].
  apply (zero_prior_growth_cell 150 0). reflexivity.
Defined.

(** X6.  A month without a value (NaN) in a year of the pivot table is
    shown as "₹0" in the year column and in the projection, while every
    growth cell computed from it reads "nan%". *)
Theorem missing_month_cells (v other : float) :
  is_nan v = true ->
  format_indian_money v false = Some "₹0"%string
  /\ projected_cell v = Some "₹0"%string
  /\ growth_cell v other = "nan%"%string
  /\ growth_cell other v = "nan%"%string.
Proof.
  rewrite is_nan_class. intros Hv.
  assert (Ev : Prim2SF v = S754_nan)
    by (destruct (Prim2SF v); try discriminate; reflexivity).
  assert (Ep : Prim2SF (project v) = S754_nan).
  { unfold project. rewrite mul_spec, Ev. reflexivity. }
  repeat split.
  - unfold format_indian_money. now rewrite zero_guard_class, Ev.
  - unfold projected_cell, format_indian_money.
    now rewrite zero_guard_class, Ep.
  - unfold growth_cell, format_2f. rewrite yoy_growth_class, Ev.
    destruct (Prim2SF other) as [s|s| |s m e]; try destruct s; reflexivity.
  - unfold growth_cell, format_2f. rewrite yoy_growth_class, Ev.
    destruct (Prim2SF other) as [s|s| |s m e]; try destruct s; reflexivity.
Qed.

Lemma missing_month_cells_witness :
  format_indian_money nan false = Some "₹0"%string
  /\ projected_cell nan = Some "₹0"%string
  /\ growth_cell nan 100 = "nan%"%string
  /\ growth_cell 100 nan = "nan%"%string.
Proof. apply (missing_month_cells nan 100). reflexivity. Defined.

(** The formats on values. *)
Example format_indian_money_values :
  map (fun x => format_indian_money x false)
      [1234567; 999; 1000; 100000; 0.4; 2.5; 3.5; -1234; infinity]
  = [Some "₹12,34,567"; Some "₹999"; Some "₹1,000"; Some "₹1,00,000";
     Some "₹0"; Some "₹2"; Some "₹4"; Some "₹-1,234"; None]%string.
Proof. reflexivity. Qed.

Example format_lakhs_values :
  map (fun x => format_indian_money x true) [250000; 1234567; 100]
  = [Some "₹2.50 Lakhs"; Some "₹12.35 Lakhs"; Some "₹0.00 Lakhs"]%string.
Proof. reflexivity. Qed.

Example format_2f_values :
  map format_2f [0.125; 2.675; 50; 0.005; -0.001; 110.00000000000001]
  = ["0.12"; "2.67"; "50.00"; "0.01"; "-0.00"; "110.00"]%string.
Proof. reflexivity. Qed.

End FormattingSpec.

(* ================================================================== *)
(** ** [groupby]: keys and groups *)
(* ================================================================== *)

Module GroupByFacts.

Import Frame FrameFacts GroupBy.

Lemma flat_map_app_permutation {A B : Type} (f g : A -> list B) (l : list A) :
  Permutation (flat_map (fun x => f x ++ g x) l) (flat_map f l ++ flat_map g l).
Proof.
  induction l as [|x l IH]; [reflexivity|].
  cbn [flat_map]. rewrite IH, <- !app_assoc.
  apply Permutation_app_head.
  rewrite !app_assoc. apply Permutation_app_tail, Permutation_app_comm.
Qed.

Lemma lex_eq (c1 c2 : comparison) : lex c1 c2 = Eq <-> c1 = Eq /\ c2 = Eq.
Proof. destruct c1, c2; cbn; intuition congruence. Qed.

Lemma string_compare_refl (s : string) : String.compare s s = Eq.
Proof.
  induction s as [|c s IH]; [reflexivity|].
  cbn. unfold Ascii.compare. now rewrite N.compare_refl.
Qed.

Lemma string_total_order : total_order String.compare.
Proof.
  split.
  - intros a b. split; [apply String.compare_eq_iff|].
    intros ->. apply string_compare_refl.
  - apply String.compare_antisym.
  - intros a b c Hab Hbc.
    apply OrderedTypeEx.String_as_OT.cmp_lt in Hab, Hbc.
    apply OrderedTypeEx.String_as_OT.cmp_lt.
    exact (OrderedTypeEx.String_as_OT.lt_trans _ _ _ Hab Hbc).
Qed.

Lemma pair_total_order {A B : Type} (compare_A : A -> A -> comparison)
      (compare_B : B -> B -> comparison) :
  total_order compare_A -> total_order compare_B ->
  total_order (compare_pair compare_A compare_B).
Proof.
  intros [Aeq Aanti Atrans] [Beq Banti Btrans]. split.
  - intros [a b] [a' b']. unfold compare_pair. cbn [fst snd].
    rewrite lex_eq, Aeq, Beq. split; [intros [-> ->]; reflexivity|].
    intros [= -> ->]. split; reflexivity.
  - intros [a b] [a' b']. unfold compare_pair. cbn [fst snd].
    rewrite (Aanti a a'), (Banti b b').
    destruct (compare_A a' a), (compare_B b' b); reflexivity.
  - intros [a b] [a' b'] [a'' b'']. unfold compare_pair. cbn [fst snd].
    destruct (compare_A a a') eqn:E1; cbn [lex]; try discriminate.
    + apply Aeq in E1. subst a'.
      destruct (compare_A a a'') eqn:E2; cbn [lex]; try discriminate;
        try reflexivity.
      intros H1 H2. exact (Btrans _ _ _ H1 H2).
    + intros _.
      destruct (compare_A a' a'') eqn:E2; cbn [lex]; try discriminate.
      * apply Aeq in E2. subst a''. now rewrite E1.
      * intros _. now rewrite (Atrans _ _ _ E1 E2).
Qed.

Lemma StronglySorted_filter {A : Type} (R : A -> A -> Prop) (p : A -> bool)
      (l : list A) :
  StronglySorted R l -> StronglySorted R (filter p l).
Proof.
  induction 1 as [|x l Hl IH Hx]; cbn [filter]; [constructor|].
  destruct (p x); [|exact IH].
  constructor; [exact IH|].
  rewrite Forall_forall in Hx |- *. intros y Hy.
  apply Hx. now apply filter_In in Hy.
Qed.

Lemma filter_map_key {A B : Type} (f : A -> B) (key : B -> A) (p : A -> bool)
      (l : list A) :
  (forall x, key (f x) = x) ->
  filter (fun y => p (key y)) (map f l) = map f (filter p l).
Proof.
  intros Hkey. induction l as [|x l IH]; [reflexivity|].
  cbn [map filter]. rewrite Hkey, IH. now destruct (p x).
Qed.

Lemma unique_ext {A : Type} (eqb1 eqb2 : A -> A -> bool) (l : list A) :
  (forall x y, eqb1 x y = eqb2 x y) -> unique eqb1 l = unique eqb2 l.
Proof.
  intros H. induction l as [|x l IH]; [reflexivity|].
  cbn [unique]. rewrite IH. f_equal. apply filter_ext.
  intros y. now rewrite H.
Qed.

Section GroupBy.

Context {Row Key : Type}.
Variable compare : Key -> Key -> comparison.
Variable key_of : Row -> option Key.
Hypothesis order : total_order compare.

#[local] Abbreviation key_eqb := (key_eqb compare).
#[local] Abbreviation key_leb := (key_leb compare).
#[local] Abbreviation keys := (keys key_of).
#[local] Abbreviation group_keys := (group_keys compare key_of).
#[local] Abbreviation group := (group compare key_of).

Lemma key_eqb_eq (a b : Key) : key_eqb a b = true <-> a = b.
Proof.
  unfold GroupBy.key_eqb. rewrite <- (compare_eq compare order).
  destruct (compare a b); split; congruence.
Qed.

Lemma key_leb_total (a b : Key) : key_leb a b = false -> key_leb b a = true.
Proof.
  unfold GroupBy.key_leb. rewrite (compare_antisym compare order b a).
  destruct (compare a b); cbn; congruence.
Qed.

Lemma key_leb_trans (a b c : Key) :
  key_leb a b = true -> key_leb b c = true -> key_leb a c = true.
Proof.
  unfold GroupBy.key_leb.
  destruct (compare a b) eqn:E1; try discriminate; intros _.
  - apply (compare_eq compare order) in E1. now subst b.
  - destruct (compare b c) eqn:E2; try discriminate; intros _.
    + apply (compare_eq compare order) in E2. subst c. now rewrite E1.
    + now rewrite (compare_trans compare order _ _ _ E1 E2).
Qed.

Lemma key_leb_antisym (a b : Key) :
  key_leb a b = true -> key_leb b a = true -> a = b.
Proof.
  unfold GroupBy.key_leb. rewrite (compare_antisym compare order b a).
  destruct (compare a b) eqn:E; cbn; try discriminate.
  intros _ _. now apply (compare_eq compare order).
Qed.

Lemma insert_key_permutation (k : Key) (l : list Key) :
  Permutation (insert_key compare k l) (k :: l).
Proof.
  induction l as [|x l IH]; [reflexivity|].
  cbn [insert_key]. destruct (key_leb k x); [reflexivity|].
  rewrite IH. apply perm_swap.
Qed.

Lemma sort_keys_permutation (l : list Key) :
  Permutation (sort_keys compare l) l.
Proof.
  induction l as [|k l IH]; [reflexivity|].
  cbn [sort_keys fold_right]. fold (sort_keys compare l).
  rewrite insert_key_permutation. now constructor.
Qed.

Lemma insert_key_sorted (k : Key) (l : list Key) :
  StronglySorted (fun a b => key_leb a b = true) l ->
  StronglySorted (fun a b => key_leb a b = true) (insert_key compare k l).
Proof.
  induction 1 as [|x l Hl IH Hx]; cbn [insert_key].
  - repeat constructor.
  - destruct (key_leb k x) eqn:E.
    + constructor; [now constructor|].
      constructor; [exact E|].
      eapply Forall_impl; [|exact Hx]. intros y. now apply key_leb_trans.
    + constructor; [exact IH|].
      apply (Permutation_Forall
               (Permutation_sym (insert_key_permutation k l))).
      constructor; [now apply key_leb_total | exact Hx].
Qed.

Lemma sort_keys_sorted (l : list Key) :
  StronglySorted (fun a b => key_leb a b = true) (sort_keys compare l).
Proof.
  induction l as [|k l IH]; [constructor|].
  now apply insert_key_sorted.
Qed.

(** Ascending and without repetition is strictly ascending. *)
Lemma sorted_NoDup_strict (l : list Key) :
  StronglySorted (fun a b => key_leb a b = true) l -> NoDup l ->
  StronglySorted (fun a b => compare a b = Lt) l.
Proof.
  induction 1 as [|x l Hl IH Hx]; intros Hn; [constructor|].
  apply NoDup_cons_iff in Hn as [Hnx Hn].
  constructor; [now apply IH|].
  rewrite Forall_forall in Hx |- *. intros y Hy.
  specialize (Hx y Hy). unfold GroupBy.key_leb in Hx.
  destruct (compare x y) eqn:E; try discriminate; [|reflexivity].
  apply (compare_eq compare order) in E. now subst y.
Qed.

(** A strictly ascending list is determined by its elements. *)
Lemma strictly_sorted_unique (l1 l2 : list Key) :
  StronglySorted (fun a b => compare a b = Lt) l1 ->
  StronglySorted (fun a b => compare a b = Lt) l2 ->
  (forall k, In k l1 <-> In k l2) -> l1 = l2.
Proof.
  assert (Irr : forall a, compare a a <> Lt).
  { intros a H.
    assert (E : compare a a = Eq) by now apply (compare_eq compare order).
    congruence. }
  assert (Asym : forall a b, compare a b = Lt -> compare b a = Lt -> False).
  { intros a b H1 H2. apply (Irr a).
    exact (compare_trans compare order _ _ _ H1 H2). }
  intros H1. revert l2. induction H1 as [|x l1 Hl1 IH Hx]; intros l2 H2 Hin.
  - destruct l2 as [|y l2]; [reflexivity|].
    exfalso. apply (Hin y). now left.
  - destruct H2 as [|y l2 Hl2 Hy].
    { exfalso. apply (Hin x). now left. }
    rewrite Forall_forall in Hx, Hy.
    assert (Exy : x = y).
    { destruct (proj1 (Hin x) (or_introl eq_refl)) as [E|Hx2]; [now symmetry|].
      destruct (proj2 (Hin y) (or_introl eq_refl)) as [E|Hy1]; [exact E|].
      exfalso. exact (Asym _ _ (Hx _ Hy1) (Hy _ Hx2)). }
    subst y. f_equal. apply IH; [exact Hl2|].
    intros k. split; intros Hk.
    + destruct (proj1 (Hin k) (or_intror Hk)) as [E|H']; [|exact H'].
      subst k. exfalso. exact (Irr _ (Hx _ Hk)).
    + destruct (proj2 (Hin k) (or_intror Hk)) as [E|H']; [|exact H'].
      subst k. exfalso. exact (Irr _ (Hy _ Hk)).
Qed.

Lemma in_keys (df : list Row) (k : Key) :
  In k (keys df) <-> exists r, In r df /\ key_of r = Some k.
Proof.
  unfold GroupBy.keys. rewrite in_flat_map. split.
  - intros (r & Hr & Hk). exists r. split; [exact Hr|].
    destruct (key_of r); [|contradiction].
    destruct Hk as [->|[]]. reflexivity.
  - intros (r & Hr & Hk). exists r. split; [exact Hr|].
    rewrite Hk. now left.
Qed.

(** There is a group for a key exactly when some row has the key. *)
Lemma in_group_keys (df : list Row) (k : Key) :
  In k (group_keys df) <-> exists r, In r df /\ key_of r = Some k.
Proof.
  rewrite <- in_keys. unfold GroupBy.group_keys. split.
  - intros H. apply (Permutation_in _ (sort_keys_permutation _)) in H.
    now apply in_unique in H.
  - intros H.
    apply (Permutation_in _ (Permutation_sym (sort_keys_permutation _))).
    now apply (unique_complete _ key_eqb_eq).
Qed.

Lemma group_keys_NoDup (df : list Row) : NoDup (group_keys df).
Proof.
  apply (Permutation_NoDup (Permutation_sym (sort_keys_permutation _))).
  apply unique_NoDup, key_eqb_eq.
Qed.

Lemma group_keys_ascending (df : list Row) :
  StronglySorted (fun a b => compare a b = Lt) (group_keys df).
Proof.
  apply sorted_NoDup_strict; [apply sort_keys_sorted | apply group_keys_NoDup].
Qed.

Lemma in_group_spec (k : Key) (r : Row) :
  in_group compare key_of k r = true <-> key_of r = Some k.
Proof.
  unfold in_group. destruct (key_of r) as [k'|]; [|split; discriminate].
  rewrite key_eqb_eq. split; congruence.
Qed.

(** The row [r] in the groups of the keys [ks]: once, under its key. *)
Lemma row_in_one_group (r : Row) (ks : list Key) :
  NoDup ks ->
  flat_map (fun k => if in_group compare key_of k r then [r] else []) ks
  = match key_of r with
    | Some k => if existsb (key_eqb k) ks then [r] else []
    | None => []
    end.
Proof.
  induction 1 as [|k ks Hk Hks IH]; cbn [flat_map existsb].
  - destruct (key_of r); reflexivity.
  - rewrite IH. unfold in_group. destruct (key_of r) as [k'|]; [|reflexivity].
    destruct (key_eqb k' k) eqn:E; cbn [orb app]; [|reflexivity].
    apply key_eqb_eq in E. subst k'.
    destruct (existsb (key_eqb k) ks) eqn:Ex; [|reflexivity].
    exfalso. apply existsb_exists in Ex as (z & Hz & Ez).
    apply key_eqb_eq in Ez. subst z. contradiction.
Qed.

(** The groups of distinct keys that cover the table are a partition of
    its rows that have a key. *)
Lemma groups_partition (ks : list Key) (df : list Row) :
  NoDup ks ->
  (forall r k, In r df -> key_of r = Some k -> In k ks) ->
  Permutation (flat_map (group df) ks)
              (filter (fun r => notna_key (key_of r)) df).
Proof.
  intros Hks. induction df as [|r df IH]; intros Hcover.
  - cbn [filter]. clear Hks Hcover.
    induction ks as [|k ks IH]; [reflexivity | exact IH].
  - assert (E : Permutation
                  (flat_map (group (r :: df)) ks)
                  (flat_map (fun k => if in_group compare key_of k r
                                      then [r] else []) ks
                   ++ flat_map (group df) ks)).
    { rewrite <- flat_map_app_permutation.
      erewrite flat_map_ext; [reflexivity|].
      intros k. unfold GroupBy.group. cbn [filter].
      destruct (in_group compare key_of k r); reflexivity. }
    rewrite E, (row_in_one_group r ks Hks), IH.
    2:{ intros r' k Hr'. apply Hcover. now right. }
    cbn [filter]. destruct (key_of r) as [k|] eqn:Ek; cbn [notna_key];
      [|reflexivity].
    assert (Ex : existsb (key_eqb k) ks = true).
    { apply existsb_exists. exists k. split.
      - apply (Hcover r); [now left | exact Ek].
      - now apply key_eqb_eq. }
    rewrite Ex. reflexivity.
Qed.

Lemma groupby_partition (df : list Row) :
  Permutation (flat_map (group df) (group_keys df))
              (filter (fun r => notna_key (key_of r)) df).
Proof.
  apply groups_partition; [apply group_keys_NoDup|].
  intros r k Hr Hk. apply in_group_keys. now exists r.
Qed.

(** No group is empty. *)
Lemma group_not_empty (df : list Row) (k : Key) :
  In k (group_keys df) -> group df k <> [].
Proof.
  intros H. apply in_group_keys in H as (r & Hr & Hk).
  intros E. assert (Hin : In r (group df k)).
  { apply filter_In. split; [exact Hr | now apply in_group_spec]. }
  rewrite E in Hin. contradiction.
Qed.

(** Filtering the rows on a property of their key filters the groups and
    leaves the kept ones as they are. *)
Section FilterOnKey.

Variable p : Key -> bool.
Variable q : Row -> bool.
Hypothesis q_is_p : forall r k, key_of r = Some k -> q r = p k.

Lemma group_keys_filter (df : list Row) :
  filter p (group_keys df) = group_keys (filter q df).
Proof.
  apply strictly_sorted_unique.
  - apply StronglySorted_filter, group_keys_ascending.
  - apply group_keys_ascending.
  - intros k. rewrite filter_In, !in_group_keys. split.
    + intros [(r & Hr & Hk) Hp]. exists r. split; [|exact Hk].
      apply filter_In. split; [exact Hr|]. now rewrite (q_is_p r k Hk).
    + intros (r & Hr & Hk). apply filter_In in Hr as [Hr Hq]. split.
      * now exists r.
      * now rewrite <- (q_is_p r k Hk).
Qed.

Lemma group_filter (df : list Row) (k : Key) :
  p k = true -> group (filter q df) k = group df k.
Proof.
  intros Hp. unfold GroupBy.group. rewrite filter_filter.
  apply filter_ext_in. intros r _.
  destruct (in_group compare key_of k r) eqn:E; [|apply andb_false_r].
  apply in_group_spec in E. now rewrite (q_is_p r k E), Hp.
Qed.

Lemma groupby_filter {Out : Type} (agg : Key -> list Row -> Out)
      (key_out : Out -> Key) (df : list Row) :
  (forall k rows, key_out (agg k rows) = k) ->
  filter (fun o => p (key_out o)) (groupby compare key_of agg df)
  = groupby compare key_of agg (filter q df).
Proof.
  intros Hkey. unfold groupby.
  rewrite (filter_map_key (fun k => agg k (group df k)) key_out p)
    by (intros k; apply Hkey).
  rewrite group_keys_filter. apply map_ext_in.
  intros k Hk. rewrite group_filter; [reflexivity|].
  apply in_group_keys in Hk as (r & Hr & Ek).
  apply filter_In in Hr as [_ Hq]. now rewrite <- (q_is_p r k Ek).
Qed.

End FilterOnKey.

End GroupBy.

End GroupByFacts.

(* ================================================================== *)
(** ** The monthly table and the overview tab *)
(* ================================================================== *)

Module MonthlySalesSpec.

Import Frame FrameFacts GroupBy GroupByFacts MonthlySales.

Lemma key4_total_order : total_order compare_key4.
Proof.
  repeat apply pair_total_order; apply string_total_order.
Qed.

Lemma row_key_aggregate (col : numeric_col) (k : Key4) (rows : list SaleRecord) :
  row_key (aggregate col k rows) = k.
Proof. destruct k as [[[y m] s] b]. reflexivity. Qed.

Lemma MTD_SALES_aggregate (col : numeric_col) (k : Key4) (rows : list SaleRecord) :
  MTD_SALES (aggregate col k rows) = column_sum col rows.
Proof. destruct k as [[[y m] s] b]. reflexivity. Qed.

Lemma MTD_BILLS_aggregate (col : numeric_col) (k : Key4) (rows : list SaleRecord) :
  MTD_BILLS (aggregate col k rows) = nunique (map invoice_no rows).
Proof. destruct k as [[[y m] s] b]. reflexivity. Qed.


Lemma keyed_is_with_outlet (r : SaleRecord) :
  notna_key (grouping_key r) = notna_label (SALON_NAMES r).
Proof. unfold grouping_key. destruct (SALON_NAMES r); reflexivity. Qed.

(** X7.  [create_grouped_sales] counts every record that has an outlet
    in exactly one row of [grouped_sales], the row of its year, month,
    outlet and brand, and a record without an outlet in none: the
    records of the rows, taken together, are the records that have an
    outlet, each once.  [MTD SALES] of a row is the column sum over the
    records of the row and [MTD BILLS] the number of their distinct
    invoice numbers. *)
Theorem grouped_sales_partition_the_records
        (col : numeric_col) (sales_data : list SaleRecord) :
  let records_of := fun g =>
    group compare_key4 grouping_key sales_data (row_key g) in
  Permutation (filter (fun r => notna_label (SALON_NAMES r)) sales_data)
              (flat_map records_of (create_grouped_sales col sales_data))
  /\ Forall (fun g =>
               MTD_SALES g = column_sum col (records_of g)
               /\ MTD_BILLS g = nunique (map invoice_no (records_of g))
               /\ Forall (fun r => grouping_key r = Some (row_key g))
                         (records_of g))
            (create_grouped_sales col sales_data).
Proof.
  intros records_of. split.
  - unfold create_grouped_sales, groupby.
    rewrite flat_map_concat_map, map_map, <- flat_map_concat_map.
    subst records_of. cbn beta.
    rewrite (flat_map_ext _ (group compare_key4 grouping_key sales_data)).
    2:{ intros k. now rewrite row_key_aggregate. }
    rewrite (groupby_partition compare_key4 grouping_key key4_total_order).
    erewrite filter_ext; [reflexivity|].
    intros r. symmetry. apply keyed_is_with_outlet.
  - apply Forall_forall. intros g Hg.
    unfold create_grouped_sales, groupby in Hg.
    apply in_map_iff in Hg as (k & <- & _). subst records_of. cbn beta.
    rewrite row_key_aggregate, MTD_SALES_aggregate, MTD_BILLS_aggregate.
    repeat split. apply Forall_forall. intros r Hr.
    apply filter_In in Hr as [_ Hr].
    now apply (in_group_spec _ _ key4_total_order).
Qed.

(** X8.  [grouped_sales] has one row for every combination of year,
    month, outlet and brand that occurs in a record with an outlet, and no
    other row; its rows are in strictly ascending order of that key, so
    no key is repeated. *)
Theorem grouped_sales_keys (col : numeric_col) (sales_data : list SaleRecord) :
  StronglySorted (fun a b => compare_key4 a b = Lt)
                 (map row_key (create_grouped_sales col sales_data))
  /\ forall k,
       In k (map row_key (create_grouped_sales col sales_data))
       <-> exists r, In r sales_data /\ grouping_key r = Some k.
Proof.
  assert (E : map row_key (create_grouped_sales col sales_data)
              = group_keys compare_key4 grouping_key sales_data).
  { unfold create_grouped_sales, groupby. rewrite map_map.
    rewrite (map_ext _ (fun k => k)) by (intros k; apply row_key_aggregate).
    apply map_id. }
  rewrite E. split.
  - apply group_keys_ascending, key4_total_order.
  - intros k. apply in_group_keys, key4_total_order.
Qed.

Lemma in_dropna {A : Type} (s : list (option A)) (x : A) :
  In x (dropna s) <-> In (Some x) s.
Proof.
  unfold dropna. rewrite in_flat_map. split.
  - intros ([y|] & Hy & Hx); [|contradiction].
    destruct Hx as [->|[]]. exact Hy.
  - intros H. exists (Some x). split; [exact H | now left].
Qed.





Lemma select_chosen (column : GroupedRow -> string) (selected : string)
      (df : list GroupedRow) :
  select column selected df = filter (fun g => chosen selected (column g)) df.
Proof.
  unfold select, chosen. destruct (String.eqb selected "All"); cbn [negb orb].
  - symmetry. apply filter_all.
  - reflexivity.
Qed.

(** Selecting rows of [grouped_sales] on one of the key columns is
    grouping the records that have the selected value. *)
Lemma select_grouped (col : numeric_col) (column_g : GroupedRow -> string)
      (column_k : Key4 -> string) (column_r : SaleRecord -> string)
      (selected : string) (sales_data : list SaleRecord) :
  (forall g, column_g g = column_k (row_key g)) ->
  (forall r k, grouping_key r = Some k -> column_r r = column_k k) ->
  select column_g selected (create_grouped_sales col sales_data)
  = create_grouped_sales col
      (filter (fun r => chosen selected (column_r r)) sales_data).
Proof.
  intros Hg Hr. rewrite select_chosen.
  rewrite (filter_ext _ (fun g => chosen selected (column_k (row_key g))))
    by (intros g; now rewrite Hg).
  unfold create_grouped_sales.
  apply (groupby_filter compare_key4 grouping_key key4_total_order
           (fun k => chosen selected (column_k k))).
  - intros r k Hk. now rewrite (Hr r k Hk).
  - intros k rows. apply row_key_aggregate.
Qed.

Lemma filtered_data_grouped (col : numeric_col) (sales_data : list SaleRecord)
      (selected_year selected_brand selected_month : string) :
  filtered_data (create_grouped_sales col sales_data)
                selected_year selected_brand selected_month
  = create_grouped_sales col
      (selected_records sales_data selected_year selected_brand selected_month).
Proof.
  unfold filtered_data, selected_records.
  rewrite (select_grouped col g_Year (fun k => fst (fst (fst k))) Year).
  2:{ intros g. reflexivity. }
  2:{ unfold grouping_key. intros r k. destruct (SALON_NAMES r); [|discriminate].
      now intros [= <-]. }
  rewrite (select_grouped col g_BRAND (fun k => snd k) BRAND).
  2:{ intros g. reflexivity. }
  2:{ unfold grouping_key. intros r k. destruct (SALON_NAMES r); [|discriminate].
      now intros [= <-]. }
  rewrite (select_grouped col g_Month (fun k => snd (fst (fst k))) Month).
  2:{ intros g. reflexivity. }
  2:{ unfold grouping_key. intros r k. destruct (SALON_NAMES r); [|discriminate].
      now intros [= <-]. }
  rewrite !filter_filter. f_equal. apply filter_ext.
  intros r. apply andb_assoc.
Qed.

(** X10.  In the overview tab, filtering [grouped_sales] by year, brand
    and month ("All" standing for no restriction) gives the table that
    [create_grouped_sales] makes of the records with that year, brand
    and month: the same rows in the same order, each with the sum, the
    bills and the average of the same records in the same order; and
    every row of it has the selected year, brand and month. *)
Theorem filtering_the_groups_is_grouping_the_filtered_records
        (col : numeric_col) (sales_data : list SaleRecord)
        (selected_year selected_brand selected_month : string) :
  let filtered := filtered_data (create_grouped_sales col sales_data)
                                selected_year selected_brand selected_month in
  filtered
  = create_grouped_sales col
      (selected_records sales_data selected_year selected_brand selected_month)
  /\ Forall (fun g => chosen selected_year (g_Year g) = true
                      /\ chosen selected_brand (g_BRAND g) = true
                      /\ chosen selected_month (g_Month g) = true)
            filtered.
Proof.
  intros filtered. split; [apply filtered_data_grouped|].
  subst filtered. unfold filtered_data. rewrite !select_chosen.
  apply Forall_forall. intros g Hg.
  apply filter_In in Hg as [Hg Hm]. apply filter_In in Hg as [Hg Hb].
  apply filter_In in Hg as [_ Hy]. auto.
Qed.

Lemma string_key_eqb (x y : string) :
  key_eqb String.compare x y = String.eqb x y.
Proof.
  destruct (String.eqb x y) eqn:E.
  - now apply (key_eqb_eq _ string_total_order), String.eqb_eq.
  - destruct (key_eqb String.compare x y) eqn:K; [|reflexivity].
    apply (key_eqb_eq _ string_total_order) in K.
    apply String.eqb_neq in E. contradiction.
Qed.

Lemma keys_dropna {Row Key : Type} (key_of : Row -> option Key)
      (df : list Row) :
  keys key_of df = dropna (map key_of df).
Proof.
  unfold keys, dropna. induction df as [|r df IH]; [reflexivity|].
  cbn [map flat_map]. now rewrite IH.
Qed.

(** X11.  In the overview tab the chart "Sales by Outlet", in whatever
    order the sort leaves its bars, has one bar for each outlet of the
    filtered rows and no other, no outlet twice, and the number of its
    bars is the metric "Total Outlets". *)
Theorem one_bar_per_outlet (filtered : list GroupedRow)
        (bars : list (string * Q)) :
  Permutation bars (salon_sales filtered) ->
  (forall salon, In salon (map fst bars)
                 <-> exists g, In g filtered /\ g_SALON_NAMES g = salon)
  /\ NoDup (map fst bars)
  /\ Z.of_nat (List.length bars) = total_outlets filtered.
Proof.
  intros Hbars.
  set (key_of := fun r : GroupedRow => Some (g_SALON_NAMES r)).
  assert (Efst : map fst (salon_sales filtered)
                 = group_keys String.compare key_of filtered).
  { unfold salon_sales, groupby. rewrite map_map. apply map_id. }
  split; [|split].
  - intros salon. split.
    + intros Hin.
      apply (Permutation_in _ (Permutation_map fst Hbars)) in Hin.
      rewrite Efst in Hin.
      apply (in_group_keys _ _ string_total_order) in Hin as (g & Hg & Hk).
      exists g. split; [exact Hg|]. unfold key_of in Hk. congruence.
    + intros (g & Hg & <-).
      apply (Permutation_in _ (Permutation_sym (Permutation_map fst Hbars))).
      rewrite Efst. apply (in_group_keys _ _ string_total_order).
      exists g. split; [exact Hg | reflexivity].
  - apply (Permutation_NoDup (Permutation_sym (Permutation_map fst Hbars))).
    rewrite Efst. apply group_keys_NoDup, string_total_order.
  - rewrite (Permutation_length Hbars).
    rewrite <- (length_map fst), Efst.
    unfold group_keys, total_outlets, nunique.
    rewrite (Permutation_length
               (sort_keys_permutation String.compare _)).
    rewrite (unique_ext _ String.eqb) by apply string_key_eqb.
    now rewrite keys_dropna.
Qed.

Section DistinctValues.

Context {A : Type} (eqb : A -> A -> bool).
Hypothesis eqb_eq : forall x y, eqb x y = true <-> x = y.

Lemma unique_length_app (l1 l2 : list A) :
  (List.length (unique eqb (l1 ++ l2))
   <= List.length (unique eqb l1) + List.length (unique eqb l2))%nat.
Proof.
  rewrite <- length_app. apply NoDup_incl_length.
  - now apply unique_NoDup.
  - intros x Hx. apply in_unique, in_app_or in Hx.
    apply in_or_app. destruct Hx as [Hx|Hx]; [left|right];
      now apply unique_complete.
Qed.

Lemma unique_length_permutation (l1 l2 : list A) :
  Permutation l1 l2 ->
  List.length (unique eqb l1) = List.length (unique eqb l2).
Proof.
  intros H. apply Permutation_length, NoDup_Permutation;
    try now apply unique_NoDup.
  intros x. split; intros Hx; apply in_unique in Hx;
    apply unique_complete; try assumption.
  - now apply (Permutation_in _ H).
  - now apply (Permutation_in _ (Permutation_sym H)).
Qed.

End DistinctValues.

Lemma dropna_app {A : Type} (s1 s2 : list (option A)) :
  dropna (s1 ++ s2) = dropna s1 ++ dropna s2.
Proof. apply flat_map_app. Qed.

Lemma dropna_permutation {A : Type} (s1 s2 : list (option A)) :
  Permutation s1 s2 -> Permutation (dropna s1) (dropna s2).
Proof. apply Permutation_flat_map. Qed.

(** The distinct invoice numbers of several groups together are at most
    as many as the groups count one by one. *)
Lemma bills_of_groups {K : Type} (g : K -> list SaleRecord) (ks : list K) :
  (Z.of_nat (List.length (invoices (flat_map g ks)))
   <= fold_right Z.add 0 (map (fun k => nunique (map invoice_no (g k))) ks))%Z.
Proof.
  induction ks as [|k ks IH]; [reflexivity|].
  cbn [flat_map map fold_right]. unfold invoices in *.
  rewrite map_app, dropna_app.
  pose proof (unique_length_app String.eqb String.eqb_eq
                (dropna (map invoice_no (g k)))
                (dropna (map invoice_no (flat_map g ks)))) as H.
  unfold nunique in *. lia.
Qed.

(** X12.  The metric "Total Bills" adds the distinct invoice numbers of
    each row of [grouped_sales], so it is never less than the number of
    distinct invoice numbers of the selected records that have an outlet;
    an invoice with records in two groups is counted in both. *)
Theorem total_bills_counts_per_group
        (col : numeric_col) (sales_data : list SaleRecord)
        (selected_year selected_brand selected_month : string) :
  (Z.of_nat
     (List.length
        (invoices
           (filter (fun r => notna_label (SALON_NAMES r))
                   (selected_records sales_data
                      selected_year selected_brand selected_month))))
   <= total_bills (filtered_data (create_grouped_sales col sales_data)
                                 selected_year selected_brand selected_month))%Z.
Proof.
  rewrite filtered_data_grouped.
  set (df := selected_records sales_data
               selected_year selected_brand selected_month).
  unfold total_bills, create_grouped_sales, groupby. rewrite map_map.
  rewrite (map_ext _ (fun k => nunique
                                 (map invoice_no
                                      (group compare_key4 grouping_key df k))))
    by (intros k; apply MTD_BILLS_aggregate).
  eapply Z.le_trans; [|apply bills_of_groups].
  apply Nat2Z.inj_le, Nat.eq_le_incl. unfold invoices.
  apply (unique_length_permutation _ String.eqb_eq).
  apply dropna_permutation, Permutation_map. symmetry.
  rewrite (filter_ext _ (fun r => notna_key (grouping_key r)))
    by (intros r; symmetry; apply keyed_is_with_outlet).
  apply (groupby_partition _ _ key4_total_order).
Qed.

Lemma unique_length_disjoint (l1 l2 : list string) :
  (forall x, In x l1 -> ~ In x l2) ->
  List.length (unique String.eqb (l1 ++ l2))
  = (List.length (unique String.eqb l1) + List.length (unique String.eqb l2))%nat.
Proof.
  intros Hd. rewrite <- length_app. apply Permutation_length.
  apply NoDup_Permutation.
  - apply unique_NoDup, String.eqb_eq.
  - apply NoDup_app; try (apply unique_NoDup, String.eqb_eq).
    intros x H1 H2. apply in_unique in H1, H2. exact (Hd x H1 H2).
  - intros x. split; intros Hx.
    + apply in_unique, in_app_or in Hx. apply in_or_app.
      destruct Hx as [Hx|Hx]; [left|right];
        now apply (unique_complete _ String.eqb_eq).
    + apply (unique_complete _ String.eqb_eq). apply in_or_app.
      apply in_app_or in Hx.
      destruct Hx as [Hx|Hx]; [left|right]; now apply in_unique in Hx.
Qed.

Lemma in_invoices_of (rows : list SaleRecord) (i : string) :
  In i (dropna (map invoice_no rows))
  <-> exists r, In r rows /\ invoice_no r = Some i.
Proof.
  rewrite in_dropna, in_map_iff. split; intros (r & H1 & H2); now exists r.
Qed.

(** Groups that share no invoice number: each invoice is counted once. *)
Lemma bills_of_disjoint_groups {K : Type} (g : K -> list SaleRecord)
      (ks : list K) :
  NoDup ks ->
  (forall k k' r r' i, In k ks -> In k' ks -> In r (g k) -> In r' (g k') ->
                       invoice_no r = Some i -> invoice_no r' = Some i ->
                       k = k') ->
  Z.of_nat (List.length (invoices (flat_map g ks)))
  = fold_right Z.add 0%Z (map (fun k => nunique (map invoice_no (g k))) ks).
Proof.
  induction 1 as [|k ks Hk Hks IH]; intros Hone; [reflexivity|].
  cbn [flat_map map fold_right]. rewrite <- IH.
  2:{ intros k1 k2 r r' i H1 H2. apply Hone; now right. }
  unfold invoices, nunique. rewrite map_app, dropna_app.
  rewrite unique_length_disjoint; [lia|].
  intros i Hi Hi'.
  apply in_invoices_of in Hi as (r & Hr & Ei).
  apply in_invoices_of in Hi' as (r' & Hr' & Ei').
  apply in_flat_map in Hr' as (k' & Hk' & Hr').
  assert (E : k = k').
  { apply (Hone k k' r r' i); try assumption; [now left | now right]. }
  subst k'. contradiction.
Qed.

(** X28.  When no invoice number occurs in records of two different
    groups, the metric "Total Bills" is the number of distinct invoice
    numbers of the selected records that have an outlet. *)
Theorem total_bills_is_exact_for_invoices_of_one_group
        (col : numeric_col) (sales_data : list SaleRecord)
        (selected_year selected_brand selected_month : string) :
  (forall r r' i,
     In r sales_data -> In r' sales_data ->
     invoice_no r = Some i -> invoice_no r' = Some i ->
     grouping_key r <> None -> grouping_key r' <> None ->
     grouping_key r = grouping_key r') ->
  total_bills (filtered_data (create_grouped_sales col sales_data)
                             selected_year selected_brand selected_month)
  = Z.of_nat
      (List.length
         (invoices
            (filter (fun r => notna_label (SALON_NAMES r))
                    (selected_records sales_data
                       selected_year selected_brand selected_month)))).
Proof.
  intros Hone. rewrite filtered_data_grouped.
  set (df := selected_records sales_data
               selected_year selected_brand selected_month).
  assert (Hdf : forall r, In r df -> In r sales_data).
  { intros r Hr. unfold df, selected_records in Hr.
    now apply filter_In in Hr. }
  unfold total_bills, create_grouped_sales, groupby. rewrite map_map.
  rewrite (map_ext _ (fun k => nunique
                                 (map invoice_no
                                      (group compare_key4 grouping_key df k))))
    by (intros k; apply MTD_BILLS_aggregate).
  rewrite <- bills_of_disjoint_groups.
  - f_equal. unfold invoices.
    apply (unique_length_permutation _ String.eqb_eq).
    apply dropna_permutation, Permutation_map.
    rewrite (filter_ext _ (fun r => notna_key (grouping_key r)))
      by (intros r; symmetry; apply keyed_is_with_outlet).
    apply (groupby_partition _ _ key4_total_order).
  - apply group_keys_NoDup, key4_total_order.
  - intros k k' r r' i _ _ Hr Hr' Ei Ei'.
    apply filter_In in Hr as [Hr Hk], Hr' as [Hr' Hk'].
    apply (in_group_spec _ _ key4_total_order) in Hk, Hk'.
    assert (E : grouping_key r = grouping_key r').
    { apply (Hone r r' i); try assumption; try (now apply Hdf);
        congruence. }
    congruence.
Qed.

Lemma total_bills_is_exact_for_invoices_of_one_group_witness :
  total_bills (filtered_data
                 (create_grouped_sales sales_collected_exc_tax one_invoice)
                 "2023" "All" "All")
  = Z.of_nat
      (List.length
         (invoices
            (filter (fun r => notna_label (SALON_NAMES r))
                    (selected_records one_invoice "2023" "All" "All")))).
Proof.
  apply (total_bills_is_exact_for_invoices_of_one_group
           sales_collected_exc_tax one_invoice "2023" "All" "All").
  intros r r' i [<-|[<-|[]]] [<-|[<-|[]]] _ _ _ _; reflexivity.
Defined.

Example one_invoice_is_one_bill :
  total_bills (filtered_data
                 (create_grouped_sales sales_collected_exc_tax one_invoice)
                 "2023" "All" "All") = 1%Z.
Proof. vm_compute. reflexivity. Qed.

(** The sample table: three rows, ascending by key; the record without
    outlet is in none, and invoice INV1 is a bill of two rows. *)
Example october_grouped_rows :
  map (fun g => (row_key g, MTD_BILLS g)) october_grouped
  = [(("2023", "October", "ADYAR", "Salon"), 1%Z);
     (("2023", "October", "T NAGAR", "Salon"), 1%Z);
     (("2023", "October", "T NAGAR", "Spa"), 1%Z)]%string
  /\ (total_sales october_grouped == 180)%Q
  /\ (column_sum sales_collected_exc_tax october_sales == 200)%Q
  /\ total_bills october_grouped = 3%Z
  /\ invoices october_sales = ["INV1"; "INV2"]%string.
Proof. repeat split; vm_compute; reflexivity. Qed.


Lemma one_bar_per_outlet_witness :
  (forall salon,
      In salon (map fst [("T NAGAR"%string, 150%Q); ("ADYAR"%string, 30%Q)])
      <-> exists g, In g october_grouped /\ g_SALON_NAMES g = salon)
  /\ NoDup (map fst [("T NAGAR"%string, 150%Q); ("ADYAR"%string, 30%Q)])
  /\ Z.of_nat (List.length [("T NAGAR"%string, 150%Q); ("ADYAR"%string, 30%Q)])
     = total_outlets october_grouped.
Proof.
  apply (one_bar_per_outlet october_grouped).
  vm_compute. apply perm_swap.
Defined.

End MonthlySalesSpec.

(* ================================================================== *)
(** ** The projected column of the center table *)
(* ================================================================== *)

Module GrowthAnalysisSpec.

Import Frame FrameFacts GroupBy GroupByFacts Formatting GrowthAnalysis.
#[local] Open Scope nat_scope.

#[local] Abbreviation ascending :=
  (StronglySorted (fun a b : string => String.compare a b = Lt)).

Lemma ascending_NoDup (l : list string) : ascending l -> NoDup l.
Proof.
  induction 1 as [|x l Hl IH Hx]; constructor; [|exact IH].
  intros Hin. rewrite Forall_forall in Hx. specialize (Hx x Hin).
  rewrite string_compare_refl in Hx. discriminate.
Qed.

(** The row at a position of a table made of blocks of the same length. *)
Lemma nth_error_blocks {A B : Type} (f : A -> list B) (k : nat)
      (cs : list A) (i : nat) :
  (forall c, List.length (f c) = k) -> 0 < k ->
  nth_error (flat_map f cs) i
  = match nth_error cs (i / k) with
    | Some c => nth_error (f c) (i mod k)
    | None => None
    end.
Proof.
  intros Hlen Hk. revert i. induction cs as [|c cs IH]; intros i.
  - cbn [flat_map]. destruct (i / k); destruct i; reflexivity.
  - cbn [flat_map]. destruct (Nat.lt_ge_cases i k) as [Hi|Hi].
    + rewrite nth_error_app1 by (rewrite Hlen; exact Hi).
      rewrite Nat.div_small, Nat.mod_small by exact Hi. reflexivity.
    + rewrite nth_error_app2 by (rewrite Hlen; exact Hi).
      rewrite Hlen, IH.
      assert (Ed : i / k = S ((i - k) / k)).
      { replace i with ((i - k) + 1 * k) at 1 by lia.
        rewrite Nat.div_add by lia. lia. }
      assert (Em : i mod k = (i - k) mod k).
      { replace i with ((i - k) + 1 * k) at 1 by lia.
        apply Nat.Div0.mod_add. }
      rewrite Ed, Em. reflexivity.
Qed.

(** A Series cut out of a table keeps the labels of the table: at a
    label it has the value made from the row of that position, when the
    row is selected. *)
Lemma find_label_above {A : Type} (q : A -> bool) (h : A -> float)
      (l : list A) (s label : nat) :
  label < s ->
  find (fun p => Nat.eqb (fst p) label)
       (map (fun p => (fst p, h (snd p)))
            (filter (fun p => q (snd p)) (combine (seq s (List.length l)) l)))
  = None.
Proof.
  revert s. induction l as [|x l IH]; intros s Hs; [reflexivity|].
  cbn [List.length seq combine filter snd].
  destruct (q x); cbn [map find fst].
  - assert (E : Nat.eqb s label = false) by (apply Nat.eqb_neq; lia).
    rewrite E. apply IH. lia.
  - apply IH. lia.
Qed.

Lemma find_label {A : Type} (q : A -> bool) (h : A -> float)
      (l : list A) (s i : nat) :
  find (fun p => Nat.eqb (fst p) (s + i))
       (map (fun p => (fst p, h (snd p)))
            (filter (fun p => q (snd p)) (combine (seq s (List.length l)) l)))
  = match nth_error l i with
    | Some r => if q r then Some (s + i, h r) else None
    | None => None
    end.
Proof.
  revert s i. induction l as [|x l IH]; intros s i.
  - destruct i; reflexivity.
  - cbn [List.length seq combine filter snd]. destruct i as [|i].
    + rewrite Nat.add_0_r. cbn [nth_error].
      destruct (q x); cbn [map find fst].
      * now rewrite Nat.eqb_refl.
      * apply find_label_above. lia.
    + cbn [nth_error].
      replace (s + S i) with (S s + i) by lia.
      destruct (q x); cbn [map find fst]; [|apply IH].
      assert (E : Nat.eqb s (S s + i) = false) by (apply Nat.eqb_neq; lia).
      rewrite E. apply IH.
Qed.

Lemma at_label_projection (yearly_center_sales : list YearlyRow) (i : nat) :
  at_label (projection_series yearly_center_sales) i
  = match nth_error yearly_center_sales i with
    | Some r => if String.eqb (y_Year r) (latest_year yearly_center_sales)
                then (y_sales r * 1.1)%float else nan
    | None => nan
    end.
Proof.
  unfold at_label, projection_series, with_index.
  pose proof (find_label
                (fun r => String.eqb (y_Year r)
                                     (latest_year yearly_center_sales))
                (fun r => (y_sales r * 1.1)%float)
                yearly_center_sales 0 i) as H.
  cbn [Nat.add] in H. cbn [fst snd] in H |- *. rewrite H.
  destruct (nth_error yearly_center_sales i) as [r|]; [|reflexivity].
  destruct (String.eqb (y_Year r) (latest_year yearly_center_sales));
    reflexivity.
Qed.

Section CompleteTable.

Variables centers ys : list string.
Variable sales : string -> string -> float.
Hypothesis centers_ascending : ascending centers.
Hypothesis ys_ascending : ascending ys.
Hypothesis some_year : ys <> [].
Hypothesis some_center : centers <> [].

#[local] Abbreviation table := (complete_table centers ys sales).

Lemma in_complete_table (r : YearlyRow) :
  In r table
  <-> exists c y, In c centers /\ In y ys /\ r = mkYearlyRow c y (sales c y).
Proof.
  unfold complete_table. rewrite in_flat_map. split.
  - intros (c & Hc & Hr). apply in_map_iff in Hr as (y & <- & Hy).
    now exists c, y.
  - intros (c & y & Hc & Hy & ->). exists c. split; [exact Hc|].
    apply in_map_iff. now exists y.
Qed.

Lemma complete_table_centers : center_pivot_centers table = centers.
Proof.
  apply (strictly_sorted_unique String.compare string_total_order).
  - apply group_keys_ascending, string_total_order.
  - exact centers_ascending.
  - intros c. unfold center_pivot_centers.
    rewrite (in_group_keys _ _ string_total_order). split.
    + intros (r & Hr & [= <-]).
      apply in_complete_table in Hr as (c & y & Hc & _ & ->). exact Hc.
    + intros Hc.
      assert (Hy : exists y, In y ys).
      { destruct ys as [|y ys']; [contradiction|]. exists y. now left. }
      destruct Hy as [y Hy].
      exists (mkYearlyRow c y (sales c y)). split; [|reflexivity].
      apply in_complete_table. now exists c, y.
Qed.

Lemma complete_table_years : years table = ys.
Proof.
  apply (strictly_sorted_unique String.compare string_total_order).
  - apply (sorted_NoDup_strict _ string_total_order).
    + apply sort_keys_sorted, string_total_order.
    + apply (Permutation_NoDup
               (Permutation_sym (sort_keys_permutation String.compare _))).
      apply unique_NoDup, String.eqb_eq.
  - exact ys_ascending.
  - intros y. unfold years. split.
    + intros H. apply (Permutation_in _ (sort_keys_permutation _ _)) in H.
      apply in_unique, in_map_iff in H as (r & <- & Hr).
      apply in_complete_table in Hr as (c & y' & _ & Hy & ->). exact Hy.
    + intros Hy.
      apply (Permutation_in
               _ (Permutation_sym (sort_keys_permutation String.compare _))).
      apply (unique_complete _ String.eqb_eq).
      assert (Hc : exists c, In c centers).
      { destruct centers as [|c cs]; [contradiction|]. exists c. now left. }
      destruct Hc as [c Hc].
      apply in_map_iff. exists (mkYearlyRow c y (sales c y)).
      split; [reflexivity|].
      apply in_complete_table. now exists c, y.
Qed.

Lemma nth_error_complete_table (i : nat) :
  i < List.length centers * List.length ys ->
  nth_error table i
  = Some (mkYearlyRow (nth (i / List.length ys) centers ""%string)
                      (nth (i mod List.length ys) ys ""%string)
                      (sales (nth (i / List.length ys) centers ""%string)
                             (nth (i mod List.length ys) ys ""%string))).
Proof.
  intros Hi.
  assert (Hk : 0 < List.length ys).
  { destruct (List.length ys) eqn:E; [|lia].
    apply length_zero_iff_nil in E. contradiction. }
  unfold complete_table.
  rewrite (nth_error_blocks _ (List.length ys))
    by (try exact Hk; intros c; apply length_map).
  assert (Hq : i / List.length ys < List.length centers).
  { apply Nat.Div0.div_lt_upper_bound. lia. }
  assert (Hr : i mod List.length ys < List.length ys)
    by (apply Nat.mod_upper_bound; lia).
  rewrite (nth_error_nth' centers ""%string Hq).
  rewrite nth_error_map, (nth_error_nth' ys ""%string Hr). reflexivity.
Qed.

Lemma nth_is_last (i : nat) :
  i < List.length ys ->
  (nth i ys ""%string = last ys ""%string <-> i = List.length ys - 1).
Proof.
  intros Hi.
  assert (El : last ys ""%string = nth (List.length ys - 1) ys ""%string).
  { destruct (exists_last some_year) as (l & x & E). rewrite E.
    rewrite last_last, length_app. cbn [List.length].
    replace (List.length l + 1 - 1) with (List.length l) by lia.
    now rewrite nth_middle. }
  rewrite El. split; [|now intros ->].
  apply (proj1 (NoDup_nth ys ""%string) (ascending_NoDup _ ys_ascending));
    lia.
Qed.

(** X13.  In the center table of the tab "Growth Analysis", the column
    "Projected (10% Growth)" is filled by index label, not by center:
    when every center has a row for each of k years, two or more, the
    row number [i] of the table takes its value from row [i] of
    [yearly_center_sales].  It is NaN unless [i mod k = k - 1], and then
    it is 1.1 times the latest sales of the center number [i / k], which
    is never the center of the row; the first row shows "₹0". *)
Theorem projected_column_follows_the_index (i : nat) :
  2 <= List.length ys ->
  i < List.length centers ->
  let k := List.length ys in
  nth_error (projected_column table) i
  = Some (if Nat.eqb (i mod k) (k - 1)
          then (sales (nth (i / k) centers ""%string) (last ys ""%string)
                * 1.1)%float
          else nan)
  /\ (i mod k = k - 1 ->
      nth (i / k) centers ""%string <> nth i centers ""%string)
  /\ nth_error (projected_column_shown table) 0 = Some (Some "₹0"%string).
Proof.
  intros Hk Hi k.
  assert (Hcell : forall j, j < List.length centers ->
            nth_error (projected_column table) j
            = Some (if Nat.eqb (j mod k) (k - 1)
                    then (sales (nth (j / k) centers ""%string)
                                (last ys ""%string) * 1.1)%float
                    else nan)).
  { intros j Hj. unfold projected_column.
    rewrite complete_table_centers, nth_error_map.
    rewrite nth_error_seq. 
    assert (Ej : Nat.ltb j (List.length centers) = true)
      by now apply Nat.ltb_lt.
    rewrite Ej. cbn [option_map Nat.add]. f_equal.
    rewrite at_label_projection, nth_error_complete_table by (fold k; nia).
    cbn [y_Year y_sales]. unfold latest_year. rewrite complete_table_years.
    fold k.
    assert (Hr : j mod k < k) by (apply Nat.mod_upper_bound; lia).
    destruct (Nat.eqb (j mod k) (k - 1)) eqn:E.
    - apply Nat.eqb_eq in E.
      assert (El : nth (j mod k) ys ""%string = last ys ""%string)
        by now apply nth_is_last.
      rewrite El, String.eqb_refl. reflexivity.
    - apply Nat.eqb_neq in E.
      destruct (String.eqb (nth (j mod k) ys ""%string) (last ys ""%string))
        eqn:Es; [|reflexivity].
      apply String.eqb_eq, nth_is_last in Es; [|exact Hr]. contradiction. }
  split; [now apply Hcell|]. split.
  - intros Hm Heq.
    assert (Hq : i / k < List.length centers).
    { apply Nat.Div0.div_lt_upper_bound. nia. }
    apply (proj1 (NoDup_nth centers ""%string)
                 (ascending_NoDup _ centers_ascending)) in Heq;
      [|exact Hq|exact Hi].
    assert (Hi0 : i <> 0).
    { intros ->. rewrite Nat.Div0.mod_0_l in Hm. lia. }
    assert (i / k < i) by (apply Nat.div_lt; lia).
    lia.
  - unfold projected_column_shown. rewrite nth_error_map, Hcell by lia.
    rewrite Nat.Div0.mod_0_l.
    assert (E : Nat.eqb 0 (k - 1) = false) by (apply Nat.eqb_neq; lia).
    rewrite E. reflexivity.
Qed.

End CompleteTable.

(** ADYAR sold 100 and 200, T NAGAR 1000 and 2000: the row of ADYAR shows
    no projection and the row of T NAGAR shows the projection of ADYAR. *)
Example two_centers_projected :
  center_pivot_centers two_centers = ["ADYAR"; "T NAGAR"]%string
  /\ projected_column_shown two_centers
     = [Some "₹0"; Some "₹220"]%string.
Proof. split; reflexivity. Qed.

Lemma projected_column_follows_the_index_witness :
  nth_error (projected_column two_centers) 1
  = Some (two_centers_sales "ADYAR" "2024" * 1.1)%float
  /\ (1 mod 2 = 2 - 1 ->
      nth (1 / 2) ["ADYAR"; "T NAGAR"]%string ""%string
      <> nth 1 ["ADYAR"; "T NAGAR"]%string ""%string)
  /\ nth_error (projected_column_shown two_centers) 0
     = Some (Some "₹0"%string).
Proof.
  apply (projected_column_follows_the_index
           ["ADYAR"; "T NAGAR"]%string ["2023"; "2024"]%string
           two_centers_sales).
  - repeat constructor.
  - repeat constructor.
  - discriminate.
  - discriminate.
  - cbn. lia.
  - cbn. lia.
Defined.

End GrowthAnalysisSpec.

(* ================================================================== *)
(** ** The pagination of [fetch_data_from_supabase] *)
(* ================================================================== *)

Module SupabaseSpec.

Import Supabase.
#[local] Open Scope nat_scope.

Section Pages.

Context {Row : Type}.
Variable size : nat.
Hypothesis size_positive : 0 < size.
Variable rows : list Row.

#[local] Abbreviation page := (page_of size rows).

Lemma page_length (p : nat) :
  List.length (page p) = Nat.min size (List.length rows - p * size).
Proof. unfold page_of. now rewrite length_firstn, length_skipn. Qed.

Lemma page_empty (p : nat) :
  List.length rows <= p * size -> page p = [].
Proof.
  intros H. apply length_zero_iff_nil. rewrite page_length. lia.
Qed.

Lemma page_empty_inv (p : nat) :
  page p = [] -> List.length rows <= p * size.
Proof.
  intros H. apply (f_equal (@List.length Row)) in H.
  rewrite page_length in H. cbn in H. lia.
Qed.

Lemma pages_from (p n : nat) :
  List.length rows <= (p + n) * size ->
  flat_map page (seq p n) = skipn (p * size) rows.
Proof.
  revert p. induction n as [|n IH]; intros p H.
  - cbn [seq flat_map]. symmetry. apply skipn_all2. lia.
  - cbn [seq flat_map]. rewrite IH by lia.
    unfold page_of.
    replace (S p * size) with (size + p * size) by lia.
    rewrite <- skipn_skipn. apply firstn_skipn.
Qed.

(** The pages of a list, one after the other, are the list. *)
Lemma pages_cover :
  flat_map page (seq 0 (List.length rows / size + 1)) = rows.
Proof.
  rewrite pages_from; [reflexivity|].
  pose proof (Nat.div_mod_eq (List.length rows) size) as E.
  pose proof (Nat.mod_upper_bound (List.length rows) size) as Hm.
  nia.
Qed.

Variable fails : nat -> bool.

#[local] Abbreviation kept := (rows_fetched_from size fails rows).

Lemma kept_step (p n : nat) :
  kept p (S n)
  = (if fails (p * size) then [] else page p) ++ kept (S p) n.
Proof. reflexivity. Qed.

Lemma kept_nil (p n : nat) :
  List.length rows <= p * size -> kept p n = [].
Proof.
  revert p. induction n as [|n IH]; intros p H; [reflexivity|].
  rewrite kept_step, IH by lia.
  rewrite page_empty by exact H. now destruct (fails (p * size)).
Qed.

(** Pages after the last row add nothing. *)
Lemma kept_up_to (n : nat) :
  List.length rows / size + 1 <= n ->
  kept 0 n = rows_fetched size fails rows.
Proof.
  intros H. unfold rows_fetched, rows_fetched_from.
  replace n with ((List.length rows / size + 1)
                  + (n - (List.length rows / size + 1))) at 1 by lia.
  rewrite seq_app, flat_map_app.
  fold (kept (0 + (List.length rows / size + 1))
             (n - (List.length rows / size + 1))).
  rewrite kept_nil; [apply app_nil_r|].
  pose proof (Nat.div_mod_eq (List.length rows) size) as E.
  pose proof (Nat.mod_upper_bound (List.length rows) size) as Hm.
  nia.
Qed.

Lemma rows_fetched_all :
  (forall start_range, fails start_range = false) ->
  rows_fetched size fails rows = rows.
Proof.
  intros H. rewrite <- pages_cover at 2.
  unfold rows_fetched, rows_fetched_from. apply flat_map_ext.
  intros q. now rewrite H.
Qed.

End Pages.

Section Loop.

Context {Row : Type}.
Variable size : nat.
Hypothesis size_positive : 0 < size.
Variable rows : Z -> list Row.
Variable fails : Z -> nat -> bool.

#[local] Abbreviation execute := (serve rows fails).

Section Year.

Variable year : Z.

#[local] Abbreviation page := (page_of size (rows year)).
#[local] Abbreviation kept :=
  (rows_fetched_from size (fails year) (rows year)).

Lemma execute_page (p : nat) :
  execute year (p * size) (p * size + size - 1)
  = if fails year (p * size) then None else Some (page p).
Proof.
  unfold serve. destruct (fails year (p * size)); [reflexivity|].
  unfold page_of. do 2 f_equal. lia.
Qed.

(** Requests fail on some of the first fifty pages only. *)
Hypothesis fails_early :
  forall p, fails year (p * size) = true -> p < 50.

Lemma fetch_pages_from (bound d p fuel : nat) (st : LoopState) :
  List.length (rows year) / size + 1 <= bound ->
  51 <= bound ->
  bound - p <= d -> d < fuel ->
  exists st',
    fetch_pages execute size year fuel p st = Some st'
    /\ year_data st' = year_data st ++ kept p (bound - p).
Proof.
  intros HN H51.
  assert (Hlen : List.length (rows year) < bound * size).
  { pose proof (Nat.div_mod_eq (List.length (rows year)) size) as E.
    pose proof (Nat.mod_upper_bound (List.length (rows year)) size) as Hm.
    nia. }
  revert p fuel st. induction d as [|d IH]; intros p fuel st Hd Hfuel.
  - (* no page is left: the request is answered with no row *)
    destruct fuel as [|fuel]; [lia|]. cbn [fetch_pages].
    rewrite execute_page.
    destruct (fails year (p * size)) eqn:F.
    { apply fails_early in F. lia. }
    rewrite (page_empty size size_positive) by nia.
    eexists. split; [reflexivity|]. cbn [year_data].
    rewrite (kept_nil size size_positive) by nia.
    now rewrite app_nil_r.
  - destruct fuel as [|fuel]; [lia|]. cbn [fetch_pages].
    rewrite execute_page.
    destruct (fails year (p * size)) eqn:F.
    + (* the request fails: the loop goes on with the next page *)
      pose proof (fails_early p F) as Hp.
      assert (E50 : (50 <? p + 1) = false) by (apply Nat.ltb_ge; lia).
      rewrite E50.
      destruct (IH (p + 1) fuel
                   (mkLoopState (year_data st)
                      ((p * size, p * size + size - 1)
                         :: requests st)))
        as (st' & Est & Edata); [lia | lia |].
      exists st'. split; [exact Est|]. rewrite Edata. cbn [year_data].
      replace (bound - p) with (S (bound - (p + 1))) by lia.
      rewrite (kept_step size (rows year)), F, Nat.add_1_r.
      reflexivity.
    + destruct (page p) as [|x data] eqn:D.
      * (* no row: the end *)
        eexists. split; [reflexivity|]. cbn [year_data].
        apply (page_empty_inv size size_positive) in D.
        rewrite (kept_nil size size_positive) by exact D.
        now rewrite app_nil_r.
      * assert (Hp : p * size < List.length (rows year)).
        { destruct (Nat.lt_ge_cases (p * size)
                      (List.length (rows year))) as [H|H]; [exact H|].
          rewrite (page_empty size size_positive) in D
            by exact H. discriminate. }
        assert (Hpb : p < bound) by nia.
        assert (Ekept : kept p (bound - p)
                        = (x :: data) ++ kept (p + 1) (bound - (p + 1))).
        { replace (bound - p) with (S (bound - (p + 1))) by lia.
          rewrite (kept_step size (rows year)), F, D, Nat.add_1_r.
          reflexivity. }
        pose proof (page_length size (rows year) p) as Hl.
        rewrite D in Hl.
        destruct (List.length (x :: data) <? size) eqn:Short.
        -- (* a short page: the end *)
           eexists. split; [reflexivity|]. cbn [year_data].
           apply Nat.ltb_lt in Short.
           rewrite Ekept, (kept_nil size size_positive) by lia.
           now rewrite app_nil_r.
        -- (* a full page: the loop goes on *)
           destruct (IH (p + 1) fuel
                        (mkLoopState (year_data st ++ x :: data)
                           ((p * size, p * size + size - 1)
                              :: requests st)))
             as (st' & Est & Edata); [lia | lia |].
           exists st'. split; [exact Est|]. rewrite Edata. cbn [year_data].
           now rewrite Ekept, app_assoc.
Qed.

(** With enough fuel the loop of a year ends, and it has collected the
    rows of the pages whose request did not fail. *)
Lemma fetch_year_rows (fuel : nat) :
  Nat.max (List.length (rows year) / size + 1) 51 < fuel ->
  exists st,
    fetch_year execute size fuel year = Some st
    /\ year_data st = rows_fetched size (fails year) (rows year).
Proof.
  intros Hfuel.
  set (bound := Nat.max (List.length (rows year) / size + 1) 51).
  destruct (fetch_pages_from bound bound 0 fuel (mkLoopState [] []))
    as (st & Est & Edata); try lia.
  exists st. split; [exact Est|]. rewrite Edata. cbn [year_data app].
  rewrite Nat.sub_0_r.
  apply (kept_up_to size size_positive). lia.
Qed.

End Year.

Lemma fetch_years_rows (fuel : nat) (years : list Z) (all_data : list Row) :
  (forall p y, fails y (p * size) = true -> p < 50) ->
  (forall y, In y years ->
             Nat.max (List.length (rows y) / size + 1) 51 < fuel) ->
  fetch_years execute size fuel years all_data
  = Some (all_data
          ++ flat_map (fun y => rows_fetched size (fails y) (rows y)) years).
Proof.
  intros Hearly. revert all_data.
  induction years as [|y years IH]; intros all_data Hfuel.
  - cbn [fetch_years flat_map]. now rewrite app_nil_r.
  - cbn [fetch_years flat_map].
    destruct (fetch_year_rows y (fun p => Hearly p y) fuel)
      as (st & Est & Edata); [apply Hfuel; now left|].
    rewrite Est, Edata, IH, app_assoc; [reflexivity|].
    intros y' Hy'. apply Hfuel. now right.
Qed.

End Loop.

Section NoFailure.

Context {Row : Type}.
Variable size : nat.
Hypothesis size_positive : 0 < size.
Variable rows : Z -> list Row.
Variable year : Z.

#[local] Abbreviation execute := (serve rows (fun _ _ => false)).
#[local] Abbreviation page := (page_of size (rows year)).
#[local] Abbreviation last_page := (List.length (rows year) / size).

(** Without failures the loop sends one request per page up to the first
    page that is not full. *)
Lemma fetch_pages_requests (d p fuel : nat) (st : LoopState) :
  p <= last_page -> last_page - p <= d -> d < fuel ->
  exists st',
    fetch_pages execute size year fuel p st = Some st'
    /\ List.length (requests st')
       = List.length (requests st) + (last_page + 1 - p).
Proof.
  pose proof (Nat.div_mod_eq (List.length (rows year)) size) as E.
  pose proof (Nat.mod_upper_bound (List.length (rows year)) size) as Hm.
  revert p fuel st. induction d as [|d IH]; intros p fuel st Hp Hd Hfuel;
    (destruct fuel as [|fuel]; [lia|]); cbn [fetch_pages];
    rewrite (execute_page size size_positive rows (fun _ _ => false) year p);
    pose proof (page_length size (rows year) p) as Hl;
    destruct (page p) as [|x data] eqn:D.
  - eexists. split; [reflexivity|]. cbn [requests List.length]. lia.
  - assert (Short : (List.length (x :: data) <? size) = true)
      by (apply Nat.ltb_lt; nia).
    rewrite Short. eexists. split; [reflexivity|].
    cbn [requests List.length]. lia.
  - eexists. split; [reflexivity|]. cbn [requests List.length].
    cbn [List.length] in Hl. nia.
  - destruct (List.length (x :: data) <? size) eqn:Short.
    + apply Nat.ltb_lt in Short. eexists. split; [reflexivity|].
      cbn [requests List.length]. nia.
    + apply Nat.ltb_ge in Short.
      destruct (IH (p + 1) fuel
                   (mkLoopState (year_data st ++ x :: data)
                      ((p * size, p * size + size - 1) :: requests st)))
        as (st' & Est & Elog); [nia | nia | lia |].
      exists st'. split; [exact Est|]. rewrite Elog.
      cbn [requests List.length]. nia.
Qed.

End NoFailure.

Section AlwaysFailing.

Context {Row : Type}.
Variable size : nat.
Variable year : Z.

#[local] Abbreviation execute :=
  (fun (_ : Z) (_ _ : nat) => @None (list Row)).

Lemma fetch_pages_failing (d p fuel : nat) (st : LoopState) :
  p <= 50 -> 50 - p <= d -> d < fuel ->
  exists st',
    fetch_pages execute size year fuel p st = Some st'
    /\ year_data st' = year_data st
    /\ List.length (requests st') = List.length (requests st) + (51 - p).
Proof.
  revert p fuel st. induction d as [|d IH]; intros p fuel st Hp Hd Hfuel;
    (destruct fuel as [|fuel]; [lia|]); cbn [fetch_pages].
  - assert (E : (50 <? p + 1) = true) by (apply Nat.ltb_lt; lia).
    rewrite E. eexists. repeat split. cbn [requests List.length]. lia.
  - destruct (50 <? p + 1) eqn:E.
    + apply Nat.ltb_lt in E. eexists. repeat split.
      cbn [requests List.length]. lia.
    + apply Nat.ltb_ge in E.
      destruct (IH (p + 1) fuel
                   (mkLoopState (year_data st)
                      ((p * size, p * size + size - 1) :: requests st)))
        as (st' & Est & Edata & Elog); [lia | lia | lia |].
      exists st'. repeat split; [exact Est | exact Edata |].
      rewrite Elog. cbn [requests List.length]. lia.
Qed.

End AlwaysFailing.

Lemma firstn_add_skipn {A : Type} (n m : nat) (l : list A) :
  firstn (n + m) l = firstn n l ++ firstn m (skipn n l).
Proof.
  revert l. induction n as [|n IH]; intros l; [reflexivity|].
  destruct l as [|x l]; [now rewrite !firstn_nil|].
  cbn [Nat.add firstn skipn app]. now rewrite IH.
Qed.

Section LateFailure.

Context {Row : Type}.
Variable size : nat.
Hypothesis size_positive : 0 < size.
Variable rows : Z -> list Row.
Variable fails : Z -> nat -> bool.
Variable year : Z.
Variable p : nat.
Hypothesis late : 50 <= p.
Hypothesis fine_before : forall q, q < p -> fails year (q * size) = false.
Hypothesis fails_at : fails year (p * size) = true.
Hypothesis full_before : p * size <= List.length (rows year).

Lemma fetch_pages_until_failure (d q fuel : nat) (st : LoopState) :
  q <= p -> p - q <= d -> d < fuel ->
  exists st',
    fetch_pages (serve rows fails) size year fuel q st = Some st'
    /\ year_data st'
       = year_data st
         ++ firstn ((p - q) * size) (skipn (q * size) (rows year))
    /\ List.length (requests st') = List.length (requests st) + (p - q + 1).
Proof.
  revert q fuel st. induction d as [|d IH]; intros q fuel st Hq Hd Hfuel;
    (destruct fuel as [|fuel]; [lia|]); cbn [fetch_pages];
    rewrite (execute_page size size_positive rows fails year q).
  - assert (q = p) by lia. subst q. rewrite fails_at.
    assert (E : (50 <? p + 1) = true) by (apply Nat.ltb_lt; lia).
    rewrite E. eexists. repeat split; cbn [year_data requests List.length].
    + rewrite Nat.sub_diag. cbn [Nat.mul firstn]. now rewrite app_nil_r.
    + lia.
  - destruct (Nat.eq_dec q p) as [->|Hne].
    + rewrite fails_at.
      assert (E : (50 <? p + 1) = true) by (apply Nat.ltb_lt; lia).
      rewrite E. eexists. repeat split; cbn [year_data requests List.length].
      * rewrite Nat.sub_diag. cbn [Nat.mul firstn]. now rewrite app_nil_r.
      * lia.
    + rewrite (fine_before q) by lia.
      pose proof (page_length size (rows year) q) as Hl.
      assert (Hfull : List.length (page_of size (rows year) q) = size)
        by nia.
      destruct (page_of size (rows year) q) as [|x data] eqn:D;
        [cbn in Hfull; lia|].
      assert (Short : (List.length (x :: data) <? size) = false)
        by (apply Nat.ltb_ge; lia).
      rewrite Short.
      destruct (IH (q + 1) fuel
                   (mkLoopState (year_data st ++ x :: data)
                      ((q * size, q * size + size - 1) :: requests st)))
        as (st' & Est & Edata & Elog); [lia | lia | lia |].
      exists st'. split; [exact Est|]. split.
      * rewrite Edata. cbn [year_data]. rewrite <- app_assoc. f_equal.
        rewrite <- D. unfold page_of.
        replace ((p - q) * size) with (size + (p - (q + 1)) * size) by nia.
        rewrite firstn_add_skipn, skipn_skipn. do 3 f_equal. lia.
      * rewrite Elog. cbn [requests List.length]. lia.
Qed.

End LateFailure.

Lemma page_size_positive : 0 < page_size.
Proof. unfold page_size. lia. Qed.

(** X14.  When requests fail on some of the first fifty pages of a year
    only, the loop over the years ends with, year after year from 2020
    to 2025, the rows of the pages whose request did not fail: the up to
    10000 rows of a failed page are left out silently and the pages after
    it are still fetched.  [fetch_data_from_supabase] returns these rows
    when their dates parse, the empty DataFrame when there is none, and
    raises when one of their dates does not parse. *)
Theorem failed_pages_are_left_out {Row : Type} (rows : Z -> list Row)
        (fails : Z -> nat -> bool) (to_datetime_raises : list Row -> bool)
        (fuel : nat) :
  (forall year p, fails year (p * page_size) = true -> p < 50) ->
  (forall year, In year years_to_fetch ->
                Nat.max (List.length (rows year) / page_size + 1) 51 < fuel) ->
  let kept :=
    flat_map (fun year => rows_fetched page_size (fails year) (rows year))
             years_to_fetch in
  all_data (serve rows fails) fuel = Some kept
  /\ fetch_data_from_supabase (serve rows fails) to_datetime_raises fuel
     = Some (match kept with
             | [] => Returns []
             | _ :: _ => if to_datetime_raises kept then Raises
                         else Returns kept
             end).
Proof.
  intros Hearly Hfuel kept.
  assert (E : all_data (serve rows fails) fuel = Some kept).
  { unfold all_data.
    rewrite (fetch_years_rows page_size page_size_positive rows fails fuel);
      [reflexivity | |exact Hfuel].
    intros p y. apply Hearly. }
  split; [exact E|].
  unfold fetch_data_from_supabase. rewrite E. reflexivity.
Qed.

(** X27.  A failed request for page 50 or a later page ends the loop
    of the year: when the pages before it are full and were fetched, the
    loop keeps the rows of these pages, sends no further request for the
    year and leaves out all the rows from the failed page on, without
    raising.  This holds for every page size; the code has 10000. *)
Theorem late_failure_ends_the_year {Row : Type} (size : nat)
        (rows : Z -> list Row) (fails : Z -> nat -> bool) (year : Z)
        (p fuel : nat) :
  0 < size ->
  50 <= p ->
  (forall q, q < p -> fails year (q * size) = false) ->
  fails year (p * size) = true ->
  p * size <= List.length (rows year) ->
  p < fuel ->
  exists st,
    fetch_year (serve rows fails) size fuel year = Some st
    /\ year_data st = firstn (p * size) (rows year)
    /\ List.length (requests st) = p + 1.
Proof.
  intros Hsize Hlate Hfine Hfails Hfull Hfuel.
  destruct (fetch_pages_until_failure size Hsize rows fails year p Hlate
              Hfine Hfails Hfull p 0 fuel (mkLoopState [] []))
    as (st & Est & Edata & Elog); try lia.
  exists st. split; [exact Est|]. split.
  - rewrite Edata. cbn [year_data app skipn Nat.mul]. now rewrite Nat.sub_0_r.
  - rewrite Elog. cbn [requests List.length]. lia.
Qed.

(** X15.  When no request fails, the loop over the years collects the
    rows that the server has for the years 2020 to 2025, each once, year
    after year; rows of any other year are never asked for.
    [fetch_data_from_supabase] returns them when their dates parse, and
    raises, returning no row at all, when a date of one of them does not
    parse.  A year with [n] rows costs [n / 10000 + 1] requests: one more
    than its full pages, also when [n] is a multiple of 10000 or 0. *)
Theorem fetch_returns_the_rows_of_2020_to_2025 {Row : Type}
        (rows : Z -> list Row) (to_datetime_raises : list Row -> bool)
        (fuel : nat) :
  (forall year, In year years_to_fetch ->
                Nat.max (List.length (rows year) / page_size + 1) 51 < fuel) ->
  let table := flat_map rows years_to_fetch in
  all_data (serve rows (fun _ _ => false)) fuel = Some table
  /\ (to_datetime_raises table = false ->
      fetch_data_from_supabase (serve rows (fun _ _ => false))
                               to_datetime_raises fuel
      = Some (Returns table))
  /\ (table <> [] -> to_datetime_raises table = true ->
      fetch_data_from_supabase (serve rows (fun _ _ => false))
                               to_datetime_raises fuel
      = Some Raises)
  /\ forall year, In year years_to_fetch ->
       exists st,
         fetch_year (serve rows (fun _ _ => false)) page_size fuel year
         = Some st
         /\ year_data st = rows year
         /\ List.length (requests st)
            = List.length (rows year) / page_size + 1.
Proof.
  intros Hfuel table.
  assert (Hno : forall (y : Z) (p : nat),
            (fun (_ : Z) (_ : nat) => false) y (p * page_size) = true -> p < 50)
    by (intros y p H; discriminate).
  assert (E : all_data (serve rows (fun _ _ => false)) fuel = Some table).
  { unfold all_data.
    rewrite (fetch_years_rows page_size page_size_positive rows
               (fun _ _ => false) fuel years_to_fetch [] (fun p y => Hno y p)
               Hfuel).
    cbn [app]. f_equal. apply flat_map_ext. intros y.
    now apply (rows_fetched_all page_size page_size_positive). }
  split; [exact E|]. split; [|split].
  - intros Hparse. unfold fetch_data_from_supabase. rewrite E.
    cbn [option_map]. unfold DataFrame_of.
    destruct table; [reflexivity|]. now rewrite Hparse.
  - intros Hrows Hparse. unfold fetch_data_from_supabase. rewrite E.
    cbn [option_map]. unfold DataFrame_of.
    destruct table; [contradiction|]. now rewrite Hparse.
  - intros year Hy. specialize (Hfuel year Hy).
    destruct (fetch_year_rows page_size page_size_positive rows
                (fun _ _ => false) year (Hno year) fuel Hfuel)
      as (st & Est & Edata).
    destruct (fetch_pages_requests page_size page_size_positive rows year
                (List.length (rows year) / page_size) 0 fuel
                (mkLoopState [] []))
      as (st' & Est' & Elog); try lia.
    unfold fetch_year in Est. rewrite Est in Est'. injection Est' as <-.
    exists st. repeat split.
    + exact Est.
    + rewrite Edata.
      now apply (rows_fetched_all page_size page_size_positive).
    + rewrite Elog. cbn [requests List.length]. lia.
Qed.

(** X16.  When every request fails, [fetch_data_from_supabase] still
    ends without raising: for each of the six years it sends the requests
    for the pages 0 to 50, 51 of them, and it returns the empty
    DataFrame, which [load_sales_data] reports as "No data returned". *)
Theorem fetch_gives_up_after_51_failures {Row : Type}
        (to_datetime_raises : list Row -> bool) (fuel : nat) :
  51 <= fuel ->
  fetch_data_from_supabase (fun _ _ _ => @None (list Row))
                           to_datetime_raises fuel
  = Some (Returns [])
  /\ forall year,
       exists st,
         fetch_year (fun _ _ _ => @None (list Row)) page_size fuel year
         = Some st
         /\ year_data st = []
         /\ List.length (requests st) = 51.
Proof.
  intros Hfuel.
  assert (Hyear : forall year,
            exists st,
              fetch_year (fun _ _ _ => @None (list Row)) page_size fuel year
              = Some st
              /\ year_data st = []
              /\ List.length (requests st) = 51).
  { intros year.
    destruct (@fetch_pages_failing Row page_size year 50 0 fuel
                (mkLoopState [] []))
      as (st & Est & Edata & Elog); try lia.
    exists st. repeat split; assumption. }
  split; [|exact Hyear].
  unfold fetch_data_from_supabase, all_data, years_to_fetch.
  cbn [fetch_years].
  repeat match goal with
         | |- context [fetch_year ?e ?s ?f ?y] =>
             let st := fresh "st" in
             let E := fresh "E" in
             let D := fresh "D" in
             destruct (Hyear y) as (st & E & D & _);
             rewrite E, D; clear E D st
         end.
  reflexivity.
Qed.

Lemma sample_fuel (year : Z) :
  Nat.max (List.length (sample_rows year) / page_size + 1) 51 < 60.
Proof.
  unfold sample_rows.
  destruct (year =? 2023)%Z; [|destruct (year =? 2019)%Z];
    vm_compute; repeat constructor.
Qed.

Lemma failed_pages_are_left_out_witness :
  let kept :=
    flat_map (fun year => rows_fetched page_size (first_page_of_2023_fails year)
                                       (sample_rows year))
             years_to_fetch in
  all_data (serve sample_rows first_page_of_2023_fails) 60 = Some kept
  /\ fetch_data_from_supabase (serve sample_rows first_page_of_2023_fails)
                              date_of_row_2_does_not_parse 60
     = Some (match kept with
             | [] => Returns []
             | _ :: _ => if date_of_row_2_does_not_parse kept then Raises
                         else Returns kept
             end).
Proof.
  apply (failed_pages_are_left_out sample_rows first_page_of_2023_fails
           date_of_row_2_does_not_parse 60).
  - intros year p H. unfold first_page_of_2023_fails in H.
    apply andb_prop in H as [_ H]. apply Nat.eqb_eq in H.
    unfold page_size in H. lia.
  - intros year _. apply sample_fuel.
Defined.

Lemma fetch_returns_the_rows_of_2020_to_2025_witness :
  let table := flat_map sample_rows years_to_fetch in
  all_data (serve sample_rows (fun _ _ => false)) 60 = Some table
  /\ (date_of_row_2_does_not_parse table = false ->
      fetch_data_from_supabase (serve sample_rows (fun _ _ => false))
                               date_of_row_2_does_not_parse 60
      = Some (Returns table))
  /\ (table <> [] -> date_of_row_2_does_not_parse table = true ->
      fetch_data_from_supabase (serve sample_rows (fun _ _ => false))
                               date_of_row_2_does_not_parse 60
      = Some Raises)
  /\ forall year, In year years_to_fetch ->
       exists st,
         fetch_year (serve sample_rows (fun _ _ => false)) page_size 60 year
         = Some st
         /\ year_data st = sample_rows year
         /\ List.length (requests st)
            = List.length (sample_rows year) / page_size + 1.
Proof.
  apply (fetch_returns_the_rows_of_2020_to_2025 sample_rows
           date_of_row_2_does_not_parse 60).
  intros year _. apply sample_fuel.
Defined.

Lemma fetch_gives_up_after_51_failures_witness :
  fetch_data_from_supabase (fun _ _ _ => @None (list nat))
                           date_of_row_2_does_not_parse 51
  = Some (Returns [])
  /\ forall year,
       exists st,
         fetch_year (fun _ _ _ => @None (list nat)) page_size 51 year
         = Some st
         /\ year_data st = []
         /\ List.length (requests st) = 51.
Proof.
  apply (fetch_gives_up_after_51_failures date_of_row_2_does_not_parse 51). apply le_n.
Defined.

Lemma late_failure_ends_the_year_witness :
  exists st,
    fetch_year (serve (fun _ => seq 0 60) (fun _ start_range => start_range =? 50))
               1 60 2023%Z
    = Some st
    /\ year_data st = firstn (50 * 1) (seq 0 60)
    /\ List.length (requests st) = 50 + 1.
Proof.
  apply (late_failure_ends_the_year
           1 (fun _ => seq 0 60) (fun _ start_range => start_range =? 50)
           2023%Z 50 60).
  - lia.
  - lia.
  - intros q Hq. apply Nat.eqb_neq. lia.
  - reflexivity.
  - cbn. lia.
  - lia.
Defined.

(** On the sample table: the row of 2019 is never fetched; the three
    rows of 2023 are returned when their dates parse, and the call raises
    when the date of row 2 does not; when the first request for 2023
    fails, the three rows are missing and the call returns the empty
    DataFrame. *)
Example sample_fetch :
  all_data (serve sample_rows (fun _ _ => false)) 60 = Some [1; 2; 3]
  /\ fetch_data_from_supabase (serve sample_rows (fun _ _ => false))
                              (fun _ => false) 60
     = Some (Returns [1; 2; 3])
  /\ fetch_data_from_supabase (serve sample_rows (fun _ _ => false))
                              date_of_row_2_does_not_parse 60
     = Some Raises
  /\ fetch_data_from_supabase (serve sample_rows first_page_of_2023_fails)
                              date_of_row_2_does_not_parse 60
     = Some (Returns []).
Proof. repeat split; vm_compute; reflexivity. Qed.

End SupabaseSpec.

(** ** [load_sales_data] with its failures *)

Module LoaderSpec.

Import Calendar Frame Supabase DataLoader.
#[local] Open Scope string_scope.

Lemma existsb_false {A : Type} (p : A -> bool) (l : list A) :
  existsb p l = false <-> forall x, In x l -> p x = false.
Proof.
  induction l as [|a l IH]; cbn [existsb In].
  - split; [intros _ x [] | reflexivity].
  - rewrite orb_false_iff, IH. split.
    + intros [Ha Hl] x [<-|Hx]; auto.
    + intros H. split; [apply H; now left | intros x Hx; apply H; now right].
Qed.

Lemma numeric_cols_complete (col : numeric_col) : In col numeric_cols.
Proof. destruct col; cbn; tauto. Qed.

Section Load.

Variable numeric_of_text : string -> option Q.
Variable datetime_of_text : list (option string) -> string -> option Timestamp.

#[local] Abbreviation load_collected :=
  (DataLoader.load_collected numeric_of_text datetime_of_text).
#[local] Abbreviation to_datetime_raises :=
  (DataLoader.to_datetime_raises datetime_of_text).
#[local] Abbreviation normalized :=
  (DataLoader.normalized numeric_of_text datetime_of_text).

(** The rows that have a sale date. *)
Let dated (all_data : list RawRow) : list RawRow :=
  filter (fun r => Normalizer.notna (raw_sale_date r)) all_data.

(** The three ways in which nothing is loaded: no row was collected, a
    date did not parse in the fetch, a monetary column has no value. *)
Lemma load_succeeds_iff (all_data : list RawRow) :
  success (load_collected all_data) = true
  <-> all_data <> []
      /\ to_datetime_raises all_data = false
      /\ forall col, replace_raises all_data col = false.
Proof.
  unfold DataLoader.load_collected, DataFrame_of, load_sales_data.
  destruct all_data as [|r rows]; cbn [success not_loaded].
  - split; [discriminate | intros [H _]; now contradiction H].
  - destruct (to_datetime_raises (r :: rows)); cbn [success not_loaded].
    + split; [discriminate | intros (_ & H & _); discriminate].
    + destruct (existsb (replace_raises (r :: rows)) numeric_cols) eqn:E;
        cbn [success not_loaded].
      * split; [discriminate|]. intros (_ & _ & H). exfalso.
        apply existsb_exists in E as (col & _ & Hcol).
        rewrite H in Hcol. discriminate.
      * split; [|reflexivity]. intros _. split; [discriminate|].
        split; [reflexivity|]. intros col.
        rewrite existsb_false in E. apply E, numeric_cols_complete.
Qed.

Lemma not_loaded_keeps_no_row (all_data : list RawRow) :
  success (load_collected all_data) = false ->
  raw_data (load_collected all_data) = [].
Proof.
  unfold DataLoader.load_collected, DataFrame_of, load_sales_data.
  destruct all_data as [|r rows]; [reflexivity|].
  destruct (to_datetime_raises (r :: rows)); [reflexivity|].
  destruct (existsb (replace_raises (r :: rows)) numeric_cols);
    [reflexivity | discriminate].
Qed.

(** After a fetch that has not raised, every date of the column parses,
    so that [dropna] drops the rows without a date and no other. *)
Lemma checked_dates_parse (all_data : list RawRow) (r : RawRow) :
  to_datetime_raises all_data = false ->
  In r all_data ->
  Normalizer.notna
    (Normalizer.to_datetime (datetime_of_text (sale_date_column all_data))
                            (raw_sale_date r))
  = Normalizer.notna (raw_sale_date r).
Proof.
  unfold DataLoader.to_datetime_raises. rewrite existsb_false.
  intros Hparse Hr.
  specialize (Hparse (raw_sale_date r) (in_map raw_sale_date _ _ Hr)).
  destruct (raw_sale_date r) as [s|]; [|reflexivity].
  cbn [Normalizer.to_datetime Normalizer.notna] in *.
  now apply negb_false_iff in Hparse.
Qed.

Lemma loaded_rows (all_data : list RawRow) :
  success (load_collected all_data) = true ->
  raw_data (load_collected all_data) = map (normalized all_data) (dated all_data).
Proof.
  intros Hs. pose proof Hs as H.
  apply load_succeeds_iff in H as (Hne & Hparse & _).
  revert Hs.
  unfold DataLoader.load_collected, DataFrame_of, load_sales_data.
  destruct all_data as [|r rows]; [now contradiction Hne|].
  rewrite Hparse.
  destruct (existsb (replace_raises (r :: rows)) numeric_cols);
    [discriminate|].
  intros _. cbn [raw_data].
  rewrite NormalizerSpec.load_sales_data_retained.
  unfold Normalizer.retained, dated, DataLoader.normalized. f_equal.
  apply filter_ext_in. intros x Hx. now apply checked_dates_parse.
Qed.

End Load.

(** On the sample tables: a date that does not parse makes the fetch
    raise, and a monetary column without any value makes [replace]
    raise; either way [load_sales_data] reports a failure and returns an
    empty table. *)
Example failed_loads :
  load sales_with_a_bad_date = not_loaded
  /\ load sales_without_inc_tax = not_loaded
  /\ load [] = not_loaded.
Proof. repeat split; reflexivity. Qed.

(** C8, as the specification words it, fails: the load succeeds, both
    rows are kept, and the amounts that are the text "abc" or missing are
    NaN ([None]) in the normalized records, not zero ([Some 0]). *)
Lemma non_numeric_amount_is_nan_not_zero :
  success (load sales_with_gaps) = true
  /\ map (fun r => amount r sales_collected_inc_tax)
         (raw_data (load sales_with_gaps))
     = [None; Some 50%Q]
  /\ map (fun r => amount r sales_collected_exc_tax)
         (raw_data (load sales_with_gaps))
     = [Some 100%Q; None].
Proof. repeat split; reflexivity. Qed.

(** C8 (amended).  When [load_sales_data] loads the table (rows were
    fetched, their dates parsed and every monetary column holds a value
    in some row), a fetched row that has a sale date is kept whatever its
    monetary cells hold, and a monetary cell of it that is missing or
    does not parse as a number is NaN in the normalized record: it is not
    replaced by zero. *)
Theorem missing_amount_is_nan_where_loaded
        (numeric_of_text : string -> option Q)
        (datetime_of_text : list (option string) -> string -> option Timestamp)
        (all_data : list RawRow) (r : RawRow) (col : numeric_col) :
  success (load_collected numeric_of_text datetime_of_text all_data) = true ->
  In r all_data ->
  raw_sale_date r <> None ->
  Normalizer.to_numeric numeric_of_text
                        (Normalizer.strip_currency (raw_amount r col)) = None ->
  exists rec,
    In rec (raw_data (load_collected numeric_of_text datetime_of_text all_data))
    /\ rec = normalized numeric_of_text datetime_of_text all_data r
    /\ amount rec col = None.
Proof.
  intros Hs Hr Hdate Hnan.
  exists (normalized numeric_of_text datetime_of_text all_data r).
  split; [|split; [reflexivity | exact Hnan]].
  rewrite loaded_rows by exact Hs.
  apply in_map, filter_In. split; [exact Hr|].
  destruct (raw_sale_date r); [reflexivity | now contradiction Hdate].
Qed.

Lemma missing_amount_is_nan_where_loaded_witness :
  exists rec,
    In rec (raw_data (load sales_with_gaps))
    /\ rec = normalized Normalizer.plain_decimal iso_layout sales_with_gaps
               (complete_row (Some "2023-10-24") (Some "T NAGAR")
                             (Num 100) (Text "abc"))
    /\ amount rec sales_collected_inc_tax = None.
Proof.
  apply (missing_amount_is_nan_where_loaded
           Normalizer.plain_decimal iso_layout sales_with_gaps
           (complete_row (Some "2023-10-24") (Some "T NAGAR")
                         (Num 100) (Text "abc"))
           sales_collected_inc_tax).
  - reflexivity.
  - left. reflexivity.
  - discriminate.
  - reflexivity.
Defined.

(** C9, as the specification words it, fails: the load succeeds and the
    row that has a sale date and a null outlet is in the normalized
    set. *)
Lemma null_outlet_row_is_retained :
  success (load sales_with_a_null_outlet) = true
  /\ map (fun r => (sale_date r, center_name r))
         (raw_data (load sales_with_a_null_outlet))
     = [(Some 1698105600000000000%Z, None);
        (Some 1698192000000000000%Z, Some "ADYAR")].
Proof. split; reflexivity. Qed.

(** C9 (amended).  Every record of the normalized set has a parsed sale
    date.  When the table is loaded, the normalized set is made of the
    fetched rows that have a sale date, in their order: the rows whose
    date is null do not appear, the outlet is copied as it is, null or
    not, and no row is dropped for it.  When the table is not loaded the
    set is empty. *)
Theorem retained_records_have_dates
        (numeric_of_text : string -> option Q)
        (datetime_of_text : list (option string) -> string -> option Timestamp)
        (all_data : list RawRow) :
  let loaded := load_collected numeric_of_text datetime_of_text all_data in
  let dated := filter (fun r => Normalizer.notna (raw_sale_date r)) all_data in
  Forall (fun rec => exists t, sale_date rec = Some t) (raw_data loaded)
  /\ (success loaded = true ->
      raw_data loaded
      = map (normalized numeric_of_text datetime_of_text all_data) dated
      /\ map center_name (raw_data loaded) = map raw_center_name dated)
  /\ (success loaded = false -> raw_data loaded = []).
Proof.
  intros loaded dated. subst loaded.
  assert (Hrows : success (load_collected numeric_of_text datetime_of_text
                                          all_data) = true ->
                  raw_data (load_collected numeric_of_text datetime_of_text
                                           all_data)
                  = map (normalized numeric_of_text datetime_of_text all_data)
                        dated)
    by apply loaded_rows.
  split; [|split].
  - destruct (success (load_collected numeric_of_text datetime_of_text
                                      all_data)) eqn:Hs.
    + rewrite Hrows by reflexivity. apply Forall_forall. intros rec Hrec.
      apply in_map_iff in Hrec as (r & <- & Hr).
      apply filter_In in Hr as [Hr Hd].
      pose proof Hs as H. apply load_succeeds_iff in H as (_ & Hparse & _).
      rewrite <- (checked_dates_parse datetime_of_text all_data r Hparse Hr)
        in Hd.
      unfold normalized. cbn [sale_date Normalizer.derive_columns
                              Normalizer.convert_columns t_sale_date].
      destruct (Normalizer.to_datetime _ (raw_sale_date r)) as [t|];
        [eauto | discriminate].
    + rewrite not_loaded_keeps_no_row by exact Hs. constructor.
  - intros Hs. split; [now apply Hrows|].
    rewrite Hrows by exact Hs. rewrite map_map. reflexivity.
  - apply not_loaded_keeps_no_row.
Qed.

End LoaderSpec.

(* ================================================================== *)
(** ** The preprocessing script *)
(* ================================================================== *)

Module ProcessDataSpec.

Import Calendar Frame FrameFacts Normalizer GroupBy GroupByFacts
       MonthlySales MonthlySalesSpec ProcessData.

(** The month of a timestamp is a month. *)
Lemma ts_month_range (t : Timestamp) : (1 <= ts_month t <= 12)%Z.
Proof.
  unfold ts_month, civil_from_days. cbn [fst snd].
  set (z' := (ts_date t + 719468)%Z).
  set (era := (z' / 146097)%Z).
  set (doe := (z' - era * 146097)%Z).
  assert (Hdoe : (0 <= doe <= 146096)%Z).
  { subst doe era. pose proof (Z.mod_pos_bound z' 146097 ltac:(lia)) as H.
    rewrite Z.mod_eq in H by lia. lia. }
  clearbody doe. clear era z'.
  set (yoe := ((doe - doe / 1460 + doe / 36524 - doe / 146096) / 365)%Z).
  set (doy := (doe - (365 * yoe + yoe / 4 - yoe / 100))%Z).
  assert (Hdoy : (0 <= doy <= 365)%Z).
  { subst doy yoe. Z.div_mod_to_equations. lia. }
  clearbody doy.
  set (mp := ((5 * doy + 2) / 153)%Z).
  assert (Hmp : (0 <= mp <= 11)%Z)
    by (subst mp; Z.div_mod_to_equations; lia).
  destruct (mp <? 10)%Z eqn:E;
    [apply Z.ltb_lt in E | apply Z.ltb_ge in E]; lia.
Qed.

Lemma index_month_name (m : Z) :
  (1 <= m <= 12)%Z ->
  index (month_name m) month_order = Some (Z.to_nat (m - 1)).
Proof.
  intros Hm.
  assert (H : (m = 1 \/ m = 2 \/ m = 3 \/ m = 4 \/ m = 5 \/ m = 6 \/ m = 7
               \/ m = 8 \/ m = 9 \/ m = 10 \/ m = 11 \/ m = 12)%Z) by lia.
  repeat (destruct H as [-> | H]); try subst m; reflexivity.
Qed.

Lemma index_In (x : string) (l : list string) :
  index x l <> None <-> In x l.
Proof.
  induction l as [|y l IH]; cbn [index In]; [tauto|].
  destruct (String.eqb y x) eqn:E.
  - apply String.eqb_eq in E. split; [now left | discriminate].
  - apply String.eqb_neq in E.
    destruct (index x l); cbn [option_map]; split.
    + intros _. right. apply IH. discriminate.
    + discriminate.
    + congruence.
    + intros [H|H]; [contradiction|]. apply IH in H. congruence.
Qed.

(** X17.  The [Month] of every record that the loader returns is one of
    the twelve names of [month_order]: the ordered categorical of
    [add_month_sorting_column] has a code for it (never NaN), the code
    is the month of the sale date counted from 0, and [Month_Num] of
    process_data.py gives the month of the sale date back.  [Month_Num]
    is 0 exactly for a text that is not one of the twelve names. *)
Theorem loaded_months_are_in_month_order
        (numeric_of_text : string -> option Q)
        (datetime_of_text : string -> option Timestamp)
        (fetched : list RawRow) :
  (forall r, In r (load_sales_data numeric_of_text datetime_of_text fetched) ->
     exists t,
       sale_date r = Some t
       /\ Month_Sorted (Month r) = Some (Z.to_nat (ts_month t - 1))
       /\ Month_Num (Month r) = ts_month t)
  /\ forall x, Month_Num x = 0%Z <-> ~ In x month_order.
Proof.
  split.
  - intros r Hr. unfold load_sales_data in Hr.
    apply in_map_iff in Hr as (tr & <- & Htr).
    apply filter_In in Htr as [_ Hdate].
    unfold derive_columns. cbn [sale_date Month].
    destruct (t_sale_date tr) as [t|]; [|discriminate].
    exists t. pose proof (ts_month_range t) as Hm.
    unfold Month_Sorted, Month_Num.
    rewrite (index_month_name _ Hm). repeat split. lia.
  - intros x. rewrite <- index_In. unfold Month_Num.
    destruct (index x month_order); split; try congruence; try lia.
    intros H. exfalso. apply H. discriminate.
Qed.

Example Month_Num_values :
  map Month_Num ["January"; "October"; "december"; "nan"]%string
  = [1; 10; 0; 0]%Z.
Proof. reflexivity. Qed.

(** *** The year of a service row *)

Lemma split_not_nil (sep : ascii) (s : string) : split sep s <> [].
Proof.
  destruct s as [|c s]; cbn [split]; [discriminate|].
  destruct (Ascii.eqb c sep); [discriminate|].
  destruct (split sep s); discriminate.
Qed.

Lemma split_free (sep : ascii) (s : string) :
  free_of sep s -> split sep s = [s].
Proof.
  induction s as [|c s IH]; cbn [free_of split]; [reflexivity|].
  intros [Hc Hs]. apply Ascii.eqb_neq in Hc. rewrite Hc, (IH Hs).
  reflexivity.
Qed.

(** Splitting at a separator splits the pieces. *)
Lemma split_append (sep : ascii) (a b : string) :
  split sep (a ++ String sep b) = split sep a ++ split sep b.
Proof.
  induction a as [|c a IH]; cbn [String.append split].
  - now rewrite Ascii.eqb_refl.
  - destruct (Ascii.eqb c sep); [now rewrite IH|].
    rewrite IH. pose proof (split_not_nil sep a) as Hn.
    destruct (split sep a); [contradiction | reflexivity].
Qed.

Lemma last_app_not_nil {A : Type} (l1 l2 : list A) (d : A) :
  l2 <> [] -> last (l1 ++ l2) d = last l2 d.
Proof.
  intros H. destruct (exists_last H) as (l & x & ->).
  now rewrite app_assoc, !last_last.
Qed.

(** X18.  The [Year] of a service row is what follows the last "-" of
    its [Sale Date], and the whole text when there is no "-"; a null
    date gives a null year.  So a date written day-month-year gives the
    year, and a date written year-month-day gives the day. *)
Theorem year_is_what_follows_the_last_dash :
  (forall a b, free_of "-" b ->
               Year_of (Some (a ++ String "-" b)%string) = Some b)
  /\ (forall s, free_of "-" s -> Year_of (Some s) = Some s)
  /\ Year_of None = None.
Proof.
  repeat split.
  - intros a b Hb. unfold Year_of. cbn [option_map]. f_equal.
    rewrite split_append, last_app_not_nil by apply split_not_nil.
    now rewrite (split_free _ _ Hb).
  - intros s Hs. unfold Year_of. cbn [option_map].
    now rewrite (split_free _ _ Hs).
Qed.

Example Year_of_values :
  map Year_of [Some "24-10-2023"; Some "2023-10-24"; Some "24/10/2023"; None]%string
  = [Some "2023"; Some "24"; Some "24/10/2023"; None]%string.
Proof. reflexivity. Qed.

(** *** Aggregation in chunks *)

Lemma key7_total_order : total_order compare_key7.
Proof.
  repeat apply pair_total_order; apply string_total_order.
Qed.

Lemma concat_chunks {A : Type} (chunk_size n : nat) (l : list A) :
  (0 < chunk_size)%nat -> (List.length l <= n)%nat ->
  List.concat (chunks n chunk_size l) = l.
Proof.
  intros Hsize. revert l. induction n as [|n IH]; intros l Hn.
  - destruct l; [reflexivity | cbn in Hn; lia].
  - destruct l as [|x l]; [reflexivity|].
    cbn [chunks List.concat]. rewrite IH; [apply firstn_skipn|].
    rewrite length_skipn. cbn [List.length] in *. lia.
Qed.

Section Chunks.

Variable lower : string -> string.

#[local] Abbreviation key_of := (service_key lower).
#[local] Abbreviation cells :=
  (fun rows : list ServiceRow => map Sales_Collected_Inc_Tax rows).
#[local] Abbreviation summary_group :=
  (group compare_key7 (fun r : SummaryRow => Some (s_key r))).
#[local] Abbreviation rows_of := (group compare_key7 key_of).

Lemma count_app {A : Type} (s1 s2 : list (option A)) :
  count (s1 ++ s2) = (count s1 + count s2)%Z.
Proof. unfold count. rewrite dropna_app, length_app. lia. Qed.

(** The rows of one key in an aggregated chunk: one, if the chunk has the
    key. *)
Lemma summary_group_of_chunk (chunk : list ServiceRow) (k : Key7) :
  summary_group (agg_chunk lower chunk) k
  = if existsb (key_eqb compare_key7 k)
               (group_keys compare_key7 key_of chunk)
    then [mkSummaryRow k (series_sum (cells (rows_of chunk k)))
                       (count (cells (rows_of chunk k)))]
    else [].
Proof.
  unfold agg_chunk, groupby, group.
  pose proof (group_keys_NoDup compare_key7 key_of key7_total_order chunk)
    as Hn.
  induction Hn as [|k' ks Hk' Hks IH]; [reflexivity|].
  cbn [map filter existsb]. unfold in_group at 1. cbn [s_key].
  rewrite IH. clear IH.
  destruct (key_eqb compare_key7 k' k) eqn:E.
  - apply (key_eqb_eq _ key7_total_order) in E. subst k'.
    assert (Ekk : key_eqb compare_key7 k k = true)
      by now apply (key_eqb_eq _ key7_total_order).
    rewrite Ekk. cbn [orb].
    destruct (existsb (key_eqb compare_key7 k) ks) eqn:Ex; [|reflexivity].
    exfalso. apply existsb_exists in Ex as (z & Hz & Ez).
    apply (key_eqb_eq _ key7_total_order) in Ez. subst z. contradiction.
  - assert (E' : key_eqb compare_key7 k k' = false).
    { destruct (key_eqb compare_key7 k k') eqn:E2; [|reflexivity].
      apply (key_eqb_eq _ key7_total_order) in E2. subst k'.
      assert (Ekk : key_eqb compare_key7 k k = true)
        by now apply (key_eqb_eq _ key7_total_order).
      congruence. }
    rewrite E'. reflexivity.
Qed.

Lemma rows_of_absent_key (chunk : list ServiceRow) (k : Key7) :
  existsb (key_eqb compare_key7 k) (group_keys compare_key7 key_of chunk)
  = false ->
  rows_of chunk k = [].
Proof.
  intros H. destruct (rows_of chunk k) as [|r rows] eqn:E; [reflexivity|].
  exfalso.
  assert (Hr : In r (rows_of chunk k)) by (rewrite E; now left).
  apply filter_In in Hr as [Hr Hk].
  apply (in_group_spec _ _ key7_total_order) in Hk.
  assert (Hin : In k (group_keys compare_key7 key_of chunk)).
  { apply (in_group_keys _ _ key7_total_order). now exists r. }
  assert (Ex : existsb (key_eqb compare_key7 k)
                       (group_keys compare_key7 key_of chunk) = true).
  { apply existsb_exists. exists k. split; [exact Hin|].
    now apply (key_eqb_eq _ key7_total_order). }
  congruence.
Qed.

(** What the counts of the concatenated chunk aggregates add up to for
    a key: the count of the rows of the key in all the chunks together. *)
Lemma counts_of_chunks (cs : list (list ServiceRow)) (k : Key7) :
  fold_right Z.add 0%Z
    (map s_count (summary_group (flat_map (agg_chunk lower) cs) k))
  = count (cells (rows_of (List.concat cs) k)).
Proof.
  induction cs as [|c cs IHc]; [reflexivity|].
  cbn [flat_map List.concat]. unfold group in *.
  rewrite !filter_app, !map_app, count_app.
  fold (summary_group (agg_chunk lower c) k).
  fold (rows_of c k).
  rewrite summary_group_of_chunk.
  destruct (existsb (key_eqb compare_key7 k)
                    (group_keys compare_key7 key_of c)) eqn:Ex.
  - cbn [app map s_count fold_right]. now rewrite IHc.
  - rewrite (rows_of_absent_key c k Ex). cbn [app map count].
    now rewrite IHc.
Qed.

Lemma in_summary_keys (cs : list (list ServiceRow)) (k : Key7) :
  In k (group_keys compare_key7 (fun r : SummaryRow => Some (s_key r))
                   (flat_map (agg_chunk lower) cs))
  <-> In k (group_keys compare_key7 key_of (List.concat cs)).
Proof.
  rewrite !(in_group_keys _ _ key7_total_order). split.
  - intros (row & Hrow & [= <-]).
    apply in_flat_map in Hrow as (c & Hc & Hrow).
    unfold agg_chunk, groupby in Hrow.
    apply in_map_iff in Hrow as (k & <- & Hk). cbn [s_key].
    apply (in_group_keys _ _ key7_total_order) in Hk as (r & Hr & Ek).
    exists r. split; [|exact Ek].
    apply in_concat. now exists c.
  - intros (r & Hr & Ek). apply in_concat in Hr as (c & Hc & Hr).
    exists (mkSummaryRow k (series_sum (cells (rows_of c k)))
                         (count (cells (rows_of c k)))).
    split; [|reflexivity].
    apply in_flat_map. exists c. split; [exact Hc|].
    unfold agg_chunk, groupby. apply in_map_iff. exists k.
    split; [reflexivity|].
    apply (in_group_keys _ _ key7_total_order). now exists r.
Qed.

(** X19.  The keys of the summary that [process_service_data_chunks]
    saves, their order and the [Transaction_Count] of each key do not
    depend on the chunk size: for a file that has rows they are those of
    the aggregation of the whole file in one piece. *)
Theorem chunking_keeps_the_keys_and_the_counts
        (chunk_size : nat) (raw_data : list ServiceRow) :
  (0 < chunk_size)%nat ->
  raw_data <> [] ->
  Forall2 (fun a b => s_key a = s_key b /\ s_count a = s_count b)
          (service_summary lower chunk_size raw_data)
          (agg_chunk lower raw_data).
Proof.
  intros Hsize _.
  unfold service_summary, further_aggregate, concatenated.
  set (cs := chunks (List.length raw_data) chunk_size raw_data).
  assert (Ecs : List.concat cs = raw_data)
    by (apply concat_chunks; [exact Hsize | apply le_n]).
  unfold agg_chunk at 2. unfold groupby.
  assert (Ekeys : group_keys compare_key7
                             (fun r : SummaryRow => Some (s_key r))
                             (flat_map (agg_chunk lower) cs)
                  = group_keys compare_key7 key_of raw_data).
  { apply (strictly_sorted_unique _ key7_total_order).
    - apply group_keys_ascending, key7_total_order.
    - apply group_keys_ascending, key7_total_order.
    - intros k. rewrite in_summary_keys, Ecs. reflexivity. }
  rewrite Ekeys. clear Ekeys.
  induction (group_keys compare_key7 key_of raw_data) as [|k ks IH];
    cbn [map]; constructor; [|exact IH].
  cbn [s_key s_count].
  pose proof (counts_of_chunks cs k) as Hc.
  rewrite Ecs in Hc. split; [reflexivity | exact Hc].
Qed.

End Chunks.

Lemma chunking_keeps_the_keys_and_the_counts_witness :
  Forall2 (fun a b => s_key a = s_key b /\ s_count a = s_count b)
          (service_summary ascii_lower 2 service_sample)
          (agg_chunk ascii_lower service_sample).
Proof.
  apply (chunking_keeps_the_keys_and_the_counts ascii_lower 2 service_sample).
  - repeat constructor.
  - discriminate.
Defined.

(** The sample in chunks of two rows: the two services meet in one row
    of the summary although they are in different chunks. *)
Example service_summary_of_the_sample :
  map (fun r => (s_key r, s_count r)) (service_summary ascii_lower 2 service_sample)
  = [(("T NAGAR", "2023", "Product", "Product", "Retail", "Shampoo", "Salon"),
      0%Z);
     (("T NAGAR", "2023", "Service", "Hair", "Hair", "Cut", "Salon"), 2%Z)]%string.
Proof. vm_compute. reflexivity. Qed.

End ProcessDataSpec.

(* ================================================================== *)
(** ** Repeated rows of the performance table *)
(* ================================================================== *)

Module PerformanceTableSpec.

Import Calendar Frame HolidayEngine FrameFacts.

Lemma flat_map_split {A B : Type} (g : A -> list B) (l : list A) (x : A) :
  In x l ->
  exists l1 l2, flat_map g l = l1 ++ g x ++ l2.
Proof.
  intros H. apply in_split in H as (l1 & l2 & ->).
  exists (flat_map g l1), (flat_map g l2).
  now rewrite flat_map_app.
Qed.

Lemma twice_flat_map {A B : Type} (g : A -> list B) (x1 x2 x3 : list A)
      (d : A) (a : B) :
  In a (g d) ->
  exists l1 l2 l3,
    flat_map g (x1 ++ d :: x2 ++ d :: x3) = l1 ++ a :: l2 ++ a :: l3.
Proof.
  intros H. apply in_split in H as (u & v & E).
  exists (flat_map g x1 ++ u), (v ++ flat_map g x2 ++ u),
         (v ++ flat_map g x3).
  rewrite flat_map_app. cbn [flat_map]. rewrite flat_map_app.
  cbn [flat_map]. rewrite E.
  repeat first [rewrite <- app_assoc | progress cbn [app]]. reflexivity.
Qed.

Lemma twice_inside {B : Type} (pre post t : list B) (a : B) :
  (exists l1 l2 l3, t = l1 ++ a :: l2 ++ a :: l3) ->
  exists l1 l2 l3, pre ++ t ++ post = l1 ++ a :: l2 ++ a :: l3.
Proof.
  intros (l1 & l2 & l3 & ->). exists (pre ++ l1), l2, (l3 ++ post).
  repeat first [rewrite <- app_assoc | progress cbn [app]]. reflexivity.
Qed.

(** The rows that one holiday and one year add to the holiday table: all
    of the same date, name and year, and at least two of them. *)
Lemma festival_year_rows_block (col : numeric_col) (raw : list SaleRecord)
      (festival : LeaveRow) (year : Z) (h : HolidayRow) :
  In h (festival_year_rows col raw festival year) ->
  exists r1 r2 rest,
    festival_year_rows col raw festival year = r1 :: r2 :: rest
    /\ Forall (fun r => h_Date r = h_Date h
                        /\ h_Festivals r = h_Festivals h
                        /\ h_Year r = h_Year h)
              (festival_year_rows col raw festival year).
Proof.
  unfold festival_year_rows.
  destruct (Timestamp_ymd year (leave_month festival) (leave_day festival))
    as [festival_date|]; [|contradiction].
  destruct (date_sales_of raw festival_date) as [|s date_sales] eqn:E;
    [contradiction|].
  cbn [map unique]. intros Hh.
  assert (Hrow : h_Date h = festival_date
                 /\ h_Festivals h = leave_Festivals festival
                 /\ h_Year h = year).
  { destruct Hh as [<-|[<-|Hh]]; try (repeat split; reflexivity).
    apply in_map_iff in Hh as (c & <- & _). repeat split. }
  destruct Hrow as (-> & -> & ->).
  do 3 eexists. split; [reflexivity|].
  constructor; [repeat split|]. constructor; [repeat split|].
  apply Forall_forall. intros r Hr.
  apply in_map_iff in Hr as (c & <- & _). repeat split.
Qed.

(** In a holiday table made by [instantiate], the date of every row that
    a filter on name and year selects is selected at least twice. *)
Lemma dates_are_selected_twice (col : numeric_col) (raw : list SaleRecord)
      (leaves : list LeaveRow) (years : list Z) (Q : HolidayRow -> bool)
      (h : HolidayRow) :
  In h (flat_map (fun festival => instantiate col raw festival years) leaves) ->
  Q h = true ->
  (forall r, h_Festivals r = h_Festivals h -> h_Year r = h_Year h ->
             Q r = true) ->
  exists x1 x2 x3,
    map h_Date
        (filter Q (flat_map (fun festival =>
                               instantiate col raw festival years) leaves))
    = x1 ++ h_Date h :: x2 ++ h_Date h :: x3.
Proof.
  intros Hh Hq Hsame.
  apply in_flat_map in Hh as (festival & Hf & Hh).
  destruct (flat_map_split (fun f => instantiate col raw f years)
                           leaves festival Hf) as (u1 & u2 & ->).
  unfold instantiate in Hh |- * at 1.
  apply in_flat_map in Hh as (year & Hy & Hh).
  destruct (flat_map_split (festival_year_rows col raw festival)
                           years year Hy) as (v1 & v2 & ->).
  destruct (festival_year_rows_block col raw festival year h Hh)
    as (r1 & r2 & rest & E & Hall).
  rewrite E in Hall |- *.
  apply Forall_cons_iff in Hall as [(D1 & F1 & Y1) Hall].
  apply Forall_cons_iff in Hall as [(D2 & F2 & Y2) Hall].
  rewrite !filter_app, !map_app. cbn [filter].
  rewrite (Hsame r1 F1 Y1), (Hsame r2 F2 Y2). cbn [map].
  rewrite D1, D2.
  eexists (map h_Date (filter Q u1) ++ map h_Date (filter Q v1)), [], _.
  repeat first [rewrite <- app_assoc | progress cbn [app]]. reflexivity.
Qed.

Lemma append_if_sales_in (x a : PerfRow) :
  In a (append_if_sales x) -> append_if_sales x = [a].
Proof.
  unfold append_if_sales. destruct (reportable x); [|contradiction].
  now intros [<-|[]].
Qed.

(** X20.  In both holiday tabs the dates of a festival are read from the
    holiday table that also holds the rows of the single centers, so
    every date is visited once per row: each row of the performance
    table occurs in it at least twice. *)
Theorem performance_table_repeats_its_rows
        (raw : list SaleRecord) (leaves : list LeaveRow)
        (selected_years : list Z) (selected_center : string) (a : PerfRow) :
  (In a (festival_performance raw (all_years_data raw leaves)
                              selected_years selected_center) ->
   exists l1 l2 l3,
     festival_performance raw (all_years_data raw leaves)
                          selected_years selected_center
     = l1 ++ a :: l2 ++ a :: l3)
  /\ (In a (festival_performance_tabs raw (all_holiday_data raw leaves)
                                      selected_years selected_center) ->
      exists l1 l2 l3,
        festival_performance_tabs raw (all_holiday_data raw leaves)
                                  selected_years selected_center
        = l1 ++ a :: l2 ++ a :: l3).
Proof.
  split.
  - unfold festival_performance. intros Ha.
    apply in_flat_map in Ha as (festival & Hf & Ha).
    destruct (flat_map_split
                (fun festival =>
                   flat_map (fun festival_date =>
                               append_if_sales
                                 (window_aggregate raw selected_center
                                                   festival festival_date))
                            (festival_dates (all_years_data raw leaves)
                                            festival selected_years))
                _ festival Hf) as (pre & post & ->).
    apply twice_inside.
    pose proof Ha as Ha'.
    apply in_flat_map in Ha' as (d & Hd & Had).
    unfold festival_dates in Hd |- *.
    apply in_map_iff in Hd as (h & <- & Hh).
    apply filter_In in Hh as [Hh Hq].
    unfold all_years_data in Hh |- *.
    destruct (dates_are_selected_twice
                sales_collected_inc_tax raw leaves (available_years raw)
                (fun h => String.eqb (h_Festivals h) festival
                          && existsb (Z.eqb (h_Year h)) selected_years)
                h Hh Hq) as (x1 & x2 & x3 & ->).
    { intros r Fr Yr. now rewrite Fr, Yr. }
    now apply twice_flat_map.
  - unfold festival_performance_tabs. intros Ha.
    apply in_flat_map in Ha as (festival & Hf & Ha).
    destruct (flat_map_split
                (fun festival =>
                   flat_map
                     (fun festival_date =>
                        if existsb (Z.eqb (ts_year festival_date))
                                   selected_years
                        then flat_map append_if_sales
                               (window_aggregates_tabs raw selected_center
                                                       festival festival_date)
                        else [])
                     (map h_Date
                          (filter (fun h => String.eqb (h_Festivals h) festival)
                                  (all_holiday_data raw leaves))))
                _ festival Hf) as (pre & post & ->).
    apply twice_inside.
    pose proof Ha as Ha'.
    apply in_flat_map in Ha' as (d & Hd & Had).
    apply in_map_iff in Hd as (h & <- & Hh).
    apply filter_In in Hh as [Hh Hq].
    unfold all_holiday_data in Hh |- *.
    destruct (dates_are_selected_twice
                sales_collected_exc_tax raw leaves (available_years raw)
                (fun h => String.eqb (h_Festivals h) festival)
                h Hh Hq) as (x1 & x2 & x3 & ->).
    { intros r Fr _. now rewrite Fr. }
    now apply twice_flat_map.
Qed.

Example diwali_window_is_listed_twice :
  List.length
    (festival_performance Samples.trading
       (all_years_data Samples.trading [Samples.diwali]) [2023]%Z
       "All Centers")
  = 2%nat
  /\ List.length
       (festival_performance_tabs Samples.trading
          (all_holiday_data Samples.trading [Samples.diwali]) [2023]%Z
          "T NAGAR")
     = 2%nat.
Proof. split; vm_compute; reflexivity. Qed.

End PerformanceTableSpec.

(** ** The center filter of the holiday tab *)

Module HolidayFiltersSpec.

Import Frame FrameFacts GroupBy MonthlySales HolidayFilters.

Lemma has_null_value (l : list (option string)) :
  forallb notna_label l = false <-> In None l.
Proof.
  induction l as [|[x|] l IH]; cbn [forallb notna_label In andb].
  - split; [discriminate | contradiction].
  - rewrite IH. split; [now right | intros [H|H]; [discriminate | exact H]].
  - split; [now left | reflexivity].
Qed.

(** X21.  The holiday tab of dashboard_tabs.py sorts the distinct center
    names of the records, nulls included: it raises [TypeError] exactly
    when some record has no center and some record has one.  The loader
    keeps records without center, so one such record among named ones
    is enough. *)
Theorem all_centers_raises_on_a_null_center (raw_sales_data : list SaleRecord) :
  all_centers raw_sales_data = None
  <-> (exists r, In r raw_sales_data /\ center_name r = None)
      /\ (exists r c, In r raw_sales_data /\ center_name r = Some c).
Proof.
  unfold all_centers.
  set (values := unique label_same (map center_name raw_sales_data)).
  assert (Hin : forall v, In v values <-> In v (map center_name raw_sales_data)).
  { intros v. split; [apply in_unique|].
    apply unique_complete, label_same_eq. }
  assert (Hnd : NoDup values) by apply unique_NoDup, label_same_eq.
  destruct (forallb notna_label values) eqn:E.
  - split; [discriminate|]. intros [(r & Hr & Hc) _]. exfalso.
    assert (Hn : In None values).
    { apply Hin. rewrite <- Hc. now apply in_map. }
    apply has_null_value in Hn. congruence.
  - apply has_null_value in E.
    destruct (1 <? List.length values)%nat eqn:L.
    + split; [intros _|reflexivity]. apply Nat.ltb_lt in L. split.
      * apply Hin, in_map_iff in E as (r & Hc & Hr). now exists r.
      * assert (Hs : exists c, In (Some c) values).
        { destruct values as [|[c|] [|[c'|] l]]; cbn in L; try lia.
          - exists c. now left.
          - exists c. now left.
          - exists c'. right. now left.
          - exfalso. apply NoDup_cons_iff in Hnd as [Hnd _].
            apply Hnd. now left. }
        destruct Hs as [c Hs].
        apply Hin, in_map_iff in Hs as (r & Hc & Hr). now exists r, c.
    + split; [discriminate|]. intros [_ (r & c & Hr & Hc)]. exfalso.
      apply Nat.ltb_ge in L.
      assert (Hs : In (Some c) values).
      { apply Hin. rewrite <- Hc. now apply in_map. }
      destruct values as [|v [|v' l]]; cbn in L; try lia.
      * contradiction.
      * destruct E as [->|[]]. destruct Hs as [Hs|[]]. discriminate.
Qed.

Example all_centers_of_the_samples :
  all_centers Samples.diwali_with_null_center = None
  /\ all_centers Samples.leap_day_sales = Some [Some "ADYAR"%string].
Proof. split; vm_compute; reflexivity. Qed.

End HolidayFiltersSpec.

(* ================================================================== *)
(** ** More on the growth table, the window and the service tab *)
(* ================================================================== *)

Module GrowthTableSpec.

Import GrowthComparator GrowthSpec.
#[local] Open Scope float_scope.

Lemma center_growth_zero_prior_witness :
  is_inf_or_nan (center_growth 150 0) = true.
Proof. apply (center_growth_zero_prior 150 0). reflexivity. Defined.

End GrowthTableSpec.

Module WindowEdgeSpec.

Import Calendar Frame HolidayEngine CalendarFacts FrameFacts.

(** X24.  The date of an occurrence is a midnight, and so is the end of
    its window, two days later: of the sixth day the window holds the
    first instant only.  A record is in the window exactly when its sale
    timestamp is on one of the five days from 3 days before the holiday
    to 1 day after it, at any time of the day, or is the midnight that
    begins the day after those. *)
Theorem window_is_five_days_and_an_instant
        (year month day : Z) (festival_date : Timestamp) (r : SaleRecord) :
  Timestamp_ymd year month day = Some festival_date ->
  in_window (window_for festival_date) r = true
  <-> exists t,
        sale_date r = Some t
        /\ (ts_date festival_date - 3 <= ts_date t <= ts_date festival_date + 1
            \/ t = festival_date + Timedelta_days 2).
Proof.
  unfold Timestamp_ymd. destruct (valid_ymd year month day); [|discriminate].
  intros [= <-]. set (n := days_from_civil year month day).
  unfold in_window, window_for, ts_geb, ts_leb. cbn [fst snd].
  rewrite ts_date_midnight.
  assert (Hns : 0 < NS_PER_DAY) by reflexivity.
  destruct (sale_date r) as [t|].
  - rewrite andb_true_iff, !Z.leb_le. unfold Timedelta_days, ts_date.
    split.
    + intros [Hlo Hhi]. exists t. split; [reflexivity|].
      destruct (Z.eq_dec t (n * NS_PER_DAY + 2 * NS_PER_DAY)) as [E|E];
        [now right|left].
      split.
      * apply Z.div_le_lower_bound; lia.
      * assert (t / NS_PER_DAY < n + 2); [|lia].
        apply Z.div_lt_upper_bound; lia.
    + intros (t' & [= <-] & [[Hlo Hhi] | ->]); [|lia].
      pose proof (Z.mul_div_le t NS_PER_DAY Hns) as H1.
      pose proof (Z.mod_pos_bound t NS_PER_DAY Hns) as H2.
      pose proof (Z.div_mod t NS_PER_DAY ltac:(lia)) as H3.
      split; nia.
  - split; [discriminate|]. intros (t & H & _). discriminate.
Qed.

Lemma window_is_five_days_and_an_instant_witness :
  in_window (window_for Samples.diwali_2023_ts)
            WindowEdge.sale_on_the_sixth_day = true
  <-> exists t,
        sale_date WindowEdge.sale_on_the_sixth_day = Some t
        /\ (ts_date Samples.diwali_2023_ts - 3 <= ts_date t
            <= ts_date Samples.diwali_2023_ts + 1
            \/ t = Samples.diwali_2023_ts + Timedelta_days 2).
Proof.
  apply (window_is_five_days_and_an_instant
           2023 10 24 Samples.diwali_2023_ts WindowEdge.sale_on_the_sixth_day).
  reflexivity.
Defined.

(** A sale at 10 o'clock on the sixth day is not in the window. *)
Example sixth_day_sale_is_outside :
  in_window (window_for Samples.diwali_2023_ts)
            WindowEdge.sale_on_the_sixth_day = false
  /\ ts_date (Samples.diwali_2023_ts + Timedelta_days 2 + 10 * 3600 * 1000000000)
     = ts_date Samples.diwali_2023_ts + 2.
Proof. split; reflexivity. Qed.

End WindowEdgeSpec.

Module ServiceTabSpec.

Import Frame FrameFacts GroupBy GroupByFacts ServiceTab.

Lemma unique_singleton (l : list string) :
  List.length (unique String.eqb l) = 1%nat
  <-> l <> [] /\ forall x y, In x l -> In y l -> x = y.
Proof.
  split.
  - intros H. destruct (unique String.eqb l) as [|x [|y u]] eqn:E;
      try discriminate. clear H. split.
    + intros ->. discriminate.
    + assert (Hx : forall z, In z l -> z = x).
      { intros z Hz. apply (unique_complete _ String.eqb_eq) in Hz.
        rewrite E in Hz. destruct Hz as [<-|[]]. reflexivity. }
      intros a b Ha Hb. now rewrite (Hx a Ha), (Hx b Hb).
  - intros [Hne Hall]. destruct l as [|x l]; [contradiction|].
    cbn [unique].
    assert (E : filter (fun y => negb (String.eqb x y)) (unique String.eqb l)
                = []).
    { assert (Hu : forall y, In y (unique String.eqb l) -> y = x).
      { intros y Hy. apply in_unique in Hy. symmetry.
        apply Hall; [now left | now right]. }
      induction (unique String.eqb l) as [|y u IH]; [reflexivity|].
      cbn [filter]. rewrite (Hu y (or_introl eq_refl)), String.eqb_refl.
      cbn [negb]. apply IH. intros z Hz. apply Hu. now right. }
    now rewrite E.
Qed.

(** X25.  In app.py the options of the year select box of the tab
    "Service & Product Analysis" are assigned only when the data has
    more or fewer than one year: the tab raises [NameError] exactly when
    there are records and all of them are of the same year. *)
Theorem one_year_of_data_raises (raw_sales_data : list SaleRecord) :
  year_options raw_sales_data = None
  <-> raw_sales_data <> []
      /\ forall r r', In r raw_sales_data -> In r' raw_sales_data ->
                      Year r = Year r'.
Proof.
  unfold year_options, service_years.
  rewrite (Permutation_length (sort_keys_permutation String.compare _)).
  destruct (List.length (unique String.eqb (map Year raw_sales_data)) =? 1)%nat
    eqn:E.
  - apply Nat.eqb_eq, unique_singleton in E as [Hne Hall].
    split; [intros _|reflexivity]. split.
    + intros ->. now apply Hne.
    + intros r r' Hr Hr'. apply Hall; now apply in_map.
  - split; [discriminate|]. intros [Hne Hall]. exfalso.
    apply Nat.eqb_neq in E. apply E, unique_singleton. split.
    + destruct raw_sales_data; [contradiction | discriminate].
    + intros x y Hx Hy.
      apply in_map_iff in Hx as (r & <- & Hr).
      apply in_map_iff in Hy as (r' & <- & Hr'). now apply Hall.
Qed.

Example year_options_of_the_samples :
  year_options Samples.june_sales = None
  /\ year_options Samples.leap_day_sales
     = Some ["All Years"; "2023"; "2024"]%string.
Proof. split; vm_compute; reflexivity. Qed.

End ServiceTabSpec.

(* ================================================================== *)
(** ** The loader's cleaning applied to a formatted amount *)
(* ================================================================== *)

Module CleaningSpec.

Import Frame Normalizer GrowthComparator Formatting IndianCommasFacts
       FormattingSpec.

(** A pattern is not found in a text that lacks its first character. *)
Lemma remove_all_absent (c : ascii) (pat s : string) :
  Forall (fun x => x <> c) (list_ascii_of_string s) ->
  remove_all (String c pat) s = s.
Proof.
  unfold remove_all. induction s as [|x s IH]; [reflexivity|].
  cbn [list_ascii_of_string]. intros H.
  apply Forall_cons_iff in H as [Hx Hs].
  cbn [remove_all_from String.prefix].
  destruct (ascii_dec c x) as [E|E]; [now subst|].
  now rewrite (IH Hs).
Qed.

(** Removing a pattern of one character removes the character. *)
Lemma remove_all_char (c : ascii) (s : string) :
  remove_all (String c EmptyString) s
  = string_of_list_ascii
      (filter (fun x => negb (Ascii.eqb x c)) (list_ascii_of_string s)).
Proof.
  unfold remove_all. induction s as [|x s IH]; [reflexivity|].
  cbn [remove_all_from String.prefix String.length Nat.sub
       list_ascii_of_string filter].
  destruct (ascii_dec c x) as [E|E].
  - subst x. rewrite Ascii.eqb_refl. cbn [negb].
    destruct s; exact IH.
  - assert (Ex : Ascii.eqb x c = false)
      by (apply Ascii.eqb_neq; congruence).
    rewrite Ex. cbn [negb string_of_list_ascii]. now rewrite IH.
Qed.

Lemma uint_chars_plain (d : Decimal.uint) (c : ascii) :
  In c (list_ascii_of_string (DecimalString.NilEmpty.string_of_uint d)) ->
  c <> "$"%char /\ c <> "195"%char.
Proof.
  induction d; cbn [DecimalString.NilEmpty.string_of_uint list_ascii_of_string In];
    try contradiction;
    (intros [<-|H]; [split; discriminate | now apply IHd]).
Qed.

Lemma str_of_Z_chars_plain (n : Z) (c : ascii) :
  In c (list_ascii_of_string (str_of_Z n)) ->
  c <> "$"%char /\ c <> "195"%char.
Proof.
  unfold str_of_Z.
  assert (U : forall d,
            In c (list_ascii_of_string
                    (DecimalString.NilZero.string_of_uint d)) ->
            c <> "$"%char /\ c <> "195"%char).
  { intros d H.
    destruct d; try exact (uint_chars_plain _ c H).
    destruct H as [<-|[]]. split; discriminate. }
  destruct (Z.to_int n) as [d|d]; cbn [DecimalString.NilZero.string_of_int].
  - exact (U d).
  - cbn [list_ascii_of_string In]. intros [<-|H]; [split; discriminate|].
    exact (U d H).
Qed.

(** X26.  The cleaning of the loader does not undo [format_indian_money]:
    applied to a formatted amount it takes the commas out and leaves the
    rupee sign in, because its pattern for the sign is the three
    characters "â‚¹", the sign read in the wrong encoding.  What reaches
    [pd.to_numeric] is "₹" followed by the rounded amount. *)
Theorem cleaning_keeps_the_rupee_sign (amount : float) (n : Z) :
  int_round amount = Some n ->
  exists out,
    format_indian_money amount false = Some out
    /\ strip_currency (Text out) = Text (String.append "₹" (str_of_Z n)).
Proof.
  intros Hn. rewrite (format_indian_money_full _ _ Hn).
  set (t := if is_zero_value amount then list_ascii_of_string "0"
            else indian_commas (list_ascii_of_string (str_of_Z n))).
  assert (Ht : remove_commas t = list_ascii_of_string (str_of_Z n)).
  { subst t. destruct (is_zero_value amount) eqn:Ez.
    - now rewrite (int_round_of_zero _ _ Hn Ez).
    - apply indian_commas_keeps_the_digits, str_of_Z_no_comma. }
  clearbody t. eexists. split; [reflexivity|].
  assert (Hplain : forall c, In c t -> c <> "$"%char /\ c <> "195"%char).
  { intros c Hc. destruct (Ascii.eqb c comma) eqn:E.
    - apply Ascii.eqb_eq in E. subst c. split; discriminate.
    - apply (str_of_Z_chars_plain n). rewrite <- Ht.
      apply filter_In. split; [exact Hc | now rewrite E]. }
  set (out := String.append "₹" (string_of_list_ascii t)).
  assert (Hout : list_ascii_of_string out
                 = list_ascii_of_string "₹" ++ t).
  { subst out. cbn [String.append list_ascii_of_string app].
    now rewrite list_ascii_of_string_of_list_ascii. }
  assert (Hd : Forall (fun x => x <> "$"%char) (list_ascii_of_string out)).
  { rewrite Hout. apply Forall_app. split.
    - repeat constructor; discriminate.
    - apply Forall_forall. intros c Hc. now apply Hplain. }
  assert (Hm : Forall (fun x => x <> "195"%char) (list_ascii_of_string out)).
  { rewrite Hout. apply Forall_app. split.
    - repeat constructor; discriminate.
    - apply Forall_forall. intros c Hc. now apply Hplain. }
  unfold strip_currency. f_equal.
  change "$"%string with (String "$"%char EmptyString).
  rewrite (remove_all_absent _ _ _ Hd).
  rewrite (remove_all_absent "195"%char _ _ Hm).
  rewrite (remove_all_char ","%char), Hout, filter_app.
  change (filter (fun x => negb (Ascii.eqb x ","%char)) t)
    with (remove_commas t).
  rewrite Ht.
  cbn [list_ascii_of_string filter Ascii.eqb Bool.eqb negb andb app
       string_of_list_ascii String.append].
  now rewrite string_of_list_ascii_of_string.
Qed.

Lemma cleaning_keeps_the_rupee_sign_witness :
  exists out,
    format_indian_money 1234567.5 false = Some out
    /\ strip_currency (Text out) = Text (String.append "₹" (str_of_Z 1234568)).
Proof.
  apply (cleaning_keeps_the_rupee_sign 1234567.5 1234568). reflexivity.
Defined.

(** With the plain parser the cleaned text is not a number: the amount
    becomes NaN. *)
Example formatted_amount_is_not_numeric :
  option_map
    (fun out => to_numeric plain_decimal (strip_currency (Text out)))
    (format_indian_money 1234567.5 false)
  = Some None
  /\ to_numeric plain_decimal (strip_currency (Text "$12,34,568"))
     = Some 1234568%Q.
Proof. split; vm_compute; reflexivity. Qed.

End CleaningSpec.
